(** * ERPlora Bridge: a shallow embedding of the command/event bridge

    The development follows the Python sources:
    - [PyStr]      the [str] and [int] built-ins the sources rely on;
    - [Json]       decoded JSON values;
    - [Eff]        exceptions and state, for the code with side effects;
    - [Discovery]  hardware/discovery.py (printer ids and their parser);
    - [Scanner]    hardware/scanner.py (the keystroke-burst detector and the
                   barcode classifier);
    - [Printer]    hardware/printer.py and hardware/drawer.py (the
                   connection lifecycle around a printer operation);
    - [Protocol]   protocol.py (events and the inbound parser);
    - [Server]     server.py (registry, broadcast, dispatcher, health probe);
    - [Listeners]  hardware/scanner.py (runs of the detector, the Linux and
                   Windows capture loops);
    - [Render]     hardware/printer.py (the total line, the delivery note);
    - [Config]     config.py (the configuration and its file);
    - [ServerSpec] the shape of what one handled message leaves behind.
    The modules named [...Facts] and [...Props] hold the properties proved
    of them.

    A Python [str] is modelled by the Rocq string of its UTF-8 bytes: a
    character is one byte below 128, or a lead byte with its continuation
    bytes.  What the built-ins do with ASCII characters is defined in
    full; what they do with the other characters comes from the Unicode
    database of the interpreter, which is a parameter ([PyStr.Unicode]). *)

From Stdlib Require Import ZArith NArith QArith String Ascii List Lia Floats.
From stdpp Require Import gmap strings list.

Set Warnings "-register-all,-clear-no-such-hyp".
Local Open Scope string_scope.

(* ===================================================================== *)
(** * Python built-ins on strings and integers *)
(* ===================================================================== *)

Module PyStr.

(** [all(p(c) for c in s)], for a test [p] on bytes *)
Fixpoint all_chars (p : ascii -> bool) (s : string) : bool :=
  match s with
  | EmptyString => true
  | String c s' => p c && all_chars p s'
  end.

(** [c in alphabet] for an ASCII character [c] and an ASCII alphabet *)
Fixpoint char_in (c : ascii) (alphabet : string) : bool :=
  match alphabet with
  | EmptyString => false
  | String a rest => Ascii.eqb c a || char_in c rest
  end.

Definition code (c : ascii) : N := N_of_ascii c.

Definition in_range (lo hi : N) (c : ascii) : bool :=
  (lo <=? code c)%N && (code c <=? hi)%N.

(** ** Characters *)

Definition is_ascii_byte (c : ascii) : bool := (code c <? 128)%N.

(** [s.isascii()] *)
Definition is_ascii (s : string) : bool := all_chars is_ascii_byte s.

(** The bytes that continue a character of several bytes. *)
Definition is_cont (c : ascii) : bool := in_range 128 191 c.

Definition starts_with_cont (s : string) : bool :=
  match s with
  | String c _ => is_cont c
  | EmptyString => false
  end.

(** [len(s)]: every byte that is not a continuation byte starts a
    character. *)
Fixpoint len (s : string) : nat :=
  match s with
  | EmptyString => O
  | String c s' => if is_cont c then len s' else S (len s')
  end.

(** [list(s)]: the characters of [s], each as a string.  An ASCII byte is
    a character of its own; any other byte takes the continuation bytes
    that follow it. *)
Fixpoint chars (s : string) : list string :=
  match s with
  | EmptyString => []
  | String c s' =>
      if negb (is_ascii_byte c) && starts_with_cont s' then
        match chars s' with
        | g :: gs => String c g :: gs
        | [] => [String c EmptyString]
        end
      else String c EmptyString :: chars s'
  end.

(** One character as [chars] cuts it: an ASCII byte alone, or another
    byte with continuation bytes. *)
Definition is_group (g : string) : bool :=
  match g with
  | EmptyString => false
  | String c t =>
      all_chars is_cont t
      && (negb (is_ascii_byte c) || match t with EmptyString => true | _ => false end)
  end.

Definition starts_with_ascii (s : string) : bool :=
  match s with
  | String c _ => is_ascii_byte c
  | EmptyString => false
  end.

(** A list of characters as [chars] cuts them: no character is followed
    by a continuation byte it could have taken. *)
Fixpoint segmented (gs : list string) : bool :=
  match gs with
  | [] => true
  | g :: rest =>
      is_group g
      && (starts_with_ascii g || negb (starts_with_cont (hd EmptyString rest)))
      && segmented rest
  end.

(** [''.join(parts)] *)
Fixpoint join (parts : list string) : string :=
  match parts with
  | [] => EmptyString
  | p :: rest => p ++ join rest
  end.

(** The ASCII character of a one-character string, if it is one. *)
Definition ascii_of_char (c : string) : option ascii :=
  match c with
  | String a EmptyString => if is_ascii_byte a then Some a else None
  | _ => None
  end.

(** The Unicode database of the interpreter, asked about one character
    outside ASCII; [unicode_lower] is asked about a whole string, since
    the lower case of a capital sigma depends on its position. *)
Class Unicode := {
  unicode_isdigit : string -> bool;      (* [c.isdigit()] *)
  unicode_isspace : string -> bool;      (* [c.isspace()] *)
  unicode_decimal : string -> option N;  (* the decimal digit [c] stands for *)
  unicode_upper : string -> string;      (* [c.upper()] *)
  unicode_lower : string -> string       (* [s.lower()] *)
}.

(** A database with no digit, no space and no letter outside ASCII, for
    runs on ASCII text. *)
Definition ascii_only : Unicode :=
  {| unicode_isdigit := fun _ => false;
     unicode_isspace := fun _ => false;
     unicode_decimal := fun _ => None;
     unicode_upper := fun c => c;
     unicode_lower := fun s => s |}.

(** ** The built-ins on ASCII characters *)

(** [c.isspace()]: TAB..CR, FS..US and SPACE. *)
Definition isspace (c : ascii) : bool :=
  in_range 9 13 c || in_range 28 32 c.

(** The white space [int] skips: TAB..CR and SPACE. *)
Definition int_isspace (c : ascii) : bool :=
  in_range 9 13 c || Ascii.eqb c " ".

Definition is_digit_char (c : ascii) : bool := in_range 48 57 c.

Definition upper_char (c : ascii) : ascii :=
  if in_range 97 122 c then ascii_of_N (code c - 32) else c.

Definition lower_char (c : ascii) : ascii :=
  if in_range 65 90 c then ascii_of_N (code c + 32) else c.

Fixpoint map_bytes (f : ascii -> ascii) (s : string) : string :=
  match s with
  | EmptyString => EmptyString
  | String c s' => String (f c) (map_bytes f s')
  end.

(** [s] with its ASCII letters in upper case: [s.upper()] for an ASCII
    [s]. *)
Definition upper_ascii (s : string) : string := map_bytes upper_char s.

(** [s] with its ASCII letters in lower case: [s.lower()] for an ASCII
    [s]. *)
Definition lower_ascii (s : string) : string := map_bytes lower_char s.

(** Dropping the leading, then the trailing elements that satisfy [p]. *)
Fixpoint drop_leading {A} (p : A -> bool) (l : list A) : list A :=
  match l with
  | [] => []
  | x :: l' => if p x then drop_leading p l' else l
  end.

Fixpoint drop_trailing {A} (p : A -> bool) (l : list A) : list A :=
  match l with
  | [] => []
  | x :: l' =>
      match drop_trailing p l' with
      | [] => if p x then [] else [x]
      | r => x :: r
      end
  end.

(** The same on the bytes of a string. *)
Fixpoint lstrip_bytes (p : ascii -> bool) (s : string) : string :=
  match s with
  | EmptyString => EmptyString
  | String c s' => if p c then lstrip_bytes p s' else s
  end.

Fixpoint rstrip_bytes (p : ascii -> bool) (s : string) : string :=
  match s with
  | EmptyString => EmptyString
  | String c s' =>
      match rstrip_bytes p s' with
      | EmptyString => if p c then EmptyString else String c EmptyString
      | r => String c r
      end
  end.

Section Builtins.

Context {U : Unicode}.

Definition char_isdigit (c : string) : bool :=
  match ascii_of_char c with
  | Some a => is_digit_char a
  | None => unicode_isdigit c
  end.

(** [s.isdigit()]: at least one character, all of them digits. *)
Definition isdigit (s : string) : bool :=
  match s with
  | EmptyString => false
  | _ => forallb char_isdigit (chars s)
  end.

Definition char_upper (c : string) : string :=
  match ascii_of_char c with
  | Some a => String (upper_char a) EmptyString
  | None => unicode_upper c
  end.

(** [s.upper()] *)
Definition upper (s : string) : string := join (map char_upper (chars s)).

(** [s.lower()] *)
Definition lower (s : string) : string :=
  if is_ascii s then lower_ascii s else unicode_lower s.

Definition char_isspace (c : string) : bool :=
  match ascii_of_char c with
  | Some a => isspace a
  | None => unicode_isspace c
  end.

(** [s.strip()] *)
Definition strip (s : string) : string :=
  join (drop_trailing char_isspace (drop_leading char_isspace (chars s))).

End Builtins.

(** [s.partition(sep)] for a one-character separator: the text before and
    after the first occurrence, [None] when [sep] does not occur. *)
Fixpoint partition (sep : ascii) (s : string) : option (string * string) :=
  match s with
  | EmptyString => None
  | String c s' =>
      if Ascii.eqb c sep then Some (EmptyString, s')
      else match partition sep s' with
           | Some (a, b) => Some (String c a, b)
           | None => None
           end
  end.

(** The same at the last occurrence. *)
Fixpoint rpartition (sep : ascii) (s : string) : option (string * string) :=
  match s with
  | EmptyString => None
  | String c s' =>
      match rpartition sep s' with
      | Some (a, b) => Some (String c a, b)
      | None => if Ascii.eqb c sep then Some (EmptyString, s') else None
      end
  end.

(** [s.split(sep, 1)] *)
Definition split1 (sep : ascii) (s : string) : list string :=
  match partition sep s with
  | Some (a, b) => [a; b]
  | None => [s]
  end.

(** [s.rsplit(sep, 1)] *)
Definition rsplit1 (sep : ascii) (s : string) : list string :=
  match rpartition sep s with
  | Some (a, b) => [a; b]
  | None => [s]
  end.

(** [s.split(sep)] *)
Fixpoint split (sep : ascii) (s : string) : list string :=
  match s with
  | EmptyString => [EmptyString]
  | String c s' =>
      if Ascii.eqb c sep then EmptyString :: split sep s'
      else match split sep s' with
           | h :: t => String c h :: t
           | [] => [String c EmptyString]
           end
  end.

(** [needle in s] *)
Fixpoint contains (needle s : string) : bool :=
  String.prefix needle s ||
  match s with
  | EmptyString => false
  | String _ s' => contains needle s'
  end.

(** ** Integers to text *)

Definition digit_char (d : N) : ascii :=
  if (d <? 10)%N then ascii_of_N (48 + d) else ascii_of_N (87 + d).

(** Digits of [n] in [base], most significant first, in front of [acc]. *)
Fixpoint to_digits (base : N) (fuel : nat) (n : N) (acc : string) : string :=
  match fuel with
  | O => acc
  | S fuel' =>
      let acc' := String (digit_char (n mod base)) acc in
      if (n / base =? 0)%N then acc' else to_digits base fuel' (n / base) acc'
  end.

Definition digits_of (base : N) (n : N) : string :=
  to_digits base (S (N.size_nat n)) n EmptyString.

Definition sign_of (z : Z) : string := if (z <? 0)%Z then "-" else "".

(** [str(z)] *)
Definition str_of_int (z : Z) : string :=
  sign_of z ++ digits_of 10 (Z.abs_N z).

Fixpoint zeros (k : nat) : string :=
  match k with
  | O => EmptyString
  | S k' => String "0" (zeros k')
  end.

(** [format(z, '#06x')]: sign, [0x], then the lower-case hexadecimal digits
    padded with zeros between prefix and digits up to a total width of 6. *)
Definition format_hash06x (z : Z) : string :=
  let sign := sign_of z in
  let digits := digits_of 16 (Z.abs_N z) in
  let used := (String.length sign + 2 + String.length digits)%nat in
  sign ++ "0x" ++ zeros (6 - used) ++ digits.

(** ** Text to integers *)

Definition digit_value (c : ascii) : option N :=
  if in_range 48 57 c then Some (code c - 48)%N
  else if in_range 97 122 c then Some (code c - 87)%N
  else if in_range 65 90 c then Some (code c - 55)%N
  else None.

(** The digit part of an [int] literal.  A single underscore may separate
    two digits; [prev] tells whether the previous character was a digit. *)
Fixpoint int_digits (base : N) (s : string) (prev : bool) (acc : N) : option N :=
  match s with
  | EmptyString => if prev then Some acc else None
  | String c s' =>
      if Ascii.eqb c "_" then
        if prev then int_digits base s' false acc else None
      else
        match digit_value c with
        | Some d =>
            if (d <? base)%N then int_digits base s' true (acc * base + d)%N
            else None
        | None => None
        end
  end.

(** After the sign: the base prefix [0x]/[0X] is accepted for base 16 and
    may be followed by one underscore. *)
Definition int_unsigned (base : N) (s : string) : option N :=
  match s with
  | String z (String x s') =>
      if Ascii.eqb z "0" && (base =? 16)%N && (Ascii.eqb x "x" || Ascii.eqb x "X") then
        match s' with
        | String u s'' =>
            if Ascii.eqb u "_" then int_digits base s'' false 0
            else int_digits base s' false 0
        | EmptyString => None
        end
      else int_digits base s false 0
  | _ => int_digits base s false 0
  end.

(** [int] on the ASCII text it parses: white space around, a sign, the
    digits. *)
Definition int_of_ascii (base : N) (s : string) : option Z :=
  match rstrip_bytes int_isspace (lstrip_bytes int_isspace s) with
  | String c s' =>
      if Ascii.eqb c "-" then option_map (fun n => (- Z.of_N n)%Z) (int_unsigned base s')
      else if Ascii.eqb c "+" then option_map Z.of_N (int_unsigned base s')
      else option_map Z.of_N (int_unsigned base (String c s'))
  | EmptyString => None
  end.

Section Int.

Context {U : Unicode}.

(** What [int] makes of the characters before it parses: an ASCII
    character stays, a space outside ASCII becomes a blank, a decimal digit
    outside ASCII its ASCII digit, and the text ends in [?] at any other
    character. *)
Fixpoint to_ascii (cs : list string) : string :=
  match cs with
  | [] => EmptyString
  | c :: rest =>
      match ascii_of_char c with
      | Some a => String a (to_ascii rest)
      | None =>
          if unicode_isspace c then String " " (to_ascii rest)
          else match unicode_decimal c with
               | Some d => if (d <? 10)%N then String (digit_char d) (to_ascii rest)
                           else "?"
               | None => "?"
               end
      end
  end.

(** [int(s, base)]; [None] stands for [ValueError].  The interpreter's
    limit on the number of digits of a decimal literal (4300 unless
    configured otherwise) is not part of the model. *)
Definition int_of_str (base : N) (s : string) : option Z :=
  int_of_ascii base (to_ascii (chars s)).

End Int.

(** Digits and lower-case letters: the characters number formatting
    writes after the sign. *)
Definition plain (c : ascii) : bool :=
  in_range 48 57 c || in_range 97 122 c.

Definition not_sep (sep c : ascii) : bool := negb (Ascii.eqb c sep).

End PyStr.

(* ===================================================================== *)
(** * JSON values, as [json.loads] returns them *)
(* ===================================================================== *)

Module Json.

Inductive json :=
  | JNull
  | JBool (b : bool)
  | JInt (z : Z)
  | JFloat (f : float)
  | JStr (s : string)
  | JArr (l : list json)
  | JObj (m : gmap string json).

(** What [json.loads] and [json.load] do with a text: they return the
    decoded value, or raise [JSONDecodeError], or raise something else
    ([RecursionError] on deeply nested input, [UnicodeDecodeError] when the
    bytes read from a file are no text).  An exception is given by its
    message. *)
Inductive loaded :=
  | Decoded (v : json)
  | JSONDecodeError (e : string)
  | OtherError (e : string).

(** Python truth value of a decoded value. *)
Definition truthy (v : json) : bool :=
  match v with
  | JNull => false
  | JBool b => b
  | JInt z => negb (z =? 0)%Z
  | JFloat f => negb (PrimFloat.eqb f 0%float)
  | JStr s => match s with EmptyString => false | _ => true end
  | JArr l => match l with [] => false | _ => true end
  | JObj m => negb (bool_decide (m = ∅))
  end.

(** [d.get(key)] and [d.get(key, default)] *)
Definition get (d : gmap string json) (key : string) : json :=
  match d !! key with Some v => v | None => JNull end.

Definition get_default (d : gmap string json) (key : string) (default : json) : json :=
  match d !! key with Some v => v | None => default end.

(** [key in d] *)
Definition has_key (d : gmap string json) (key : string) : bool :=
  match d !! key with Some _ => true | None => false end.

(** [v == 'literal'] *)
Definition is_str (v : json) (s : string) : bool :=
  match v with JStr s' => String.eqb s' s | _ => false end.

(** A dict literal. *)
Definition dict (items : list (string * json)) : gmap string json :=
  list_to_map items.

End Json.

(* ===================================================================== *)
(** * Exceptions and state

    A computation runs on a state [S] and either returns a value or raises;
    an exception is represented by its message, [str(e)].  Only exceptions
    below [Exception] are modelled, the ones [except Exception] catches. *)
(* ===================================================================== *)

Module Eff.

Inductive outcome (A : Type) :=
  | Returned (a : A)
  | Raised (e : string).
Arguments Returned {A} a.
Arguments Raised {A} e.

Definition M (S A : Type) : Type := S -> outcome A * S.

Definition ret {S A} (a : A) : M S A := fun s => (Returned a, s).

Definition raise {S A} (e : string) : M S A := fun s => (Raised e, s).

Definition bind {S A B} (m : M S A) (k : A -> M S B) : M S B :=
  fun s =>
    match m s with
    | (Returned a, s') => k a s'
    | (Raised e, s') => (Raised e, s')
    end.

(** [try: body / except Exception as e: handler(e)] *)
Definition try_except {S A} (body : M S A) (handler : string -> M S A) : M S A :=
  fun s =>
    match body s with
    | (Returned a, s') => (Returned a, s')
    | (Raised e, s') => handler e s'
    end.

(** [try: body / finally: cleanup]: an exception of [cleanup] replaces the
    outcome of [body]. *)
Definition try_finally {S A} (body : M S A) (cleanup : M S unit) : M S A :=
  fun s =>
    match body s with
    | (r, s') =>
        match cleanup s' with
        | (Returned _, s'') => (r, s'')
        | (Raised e, s'') => (Raised e, s'')
        end
    end.

Definition get_state {S} : M S S := fun s => (Returned s, s).

Definition modify {S} (f : S -> S) : M S unit := fun s => (Returned tt, f s).

End Eff.

Notation "x <- m ;; k" := (Eff.bind m (fun x => k))
  (at level 100, m at next level, right associativity).
Notation "m ;;; k" := (Eff.bind m (fun _ => k))
  (at level 100, right associativity).

(* ===================================================================== *)
(** * hardware/discovery.py *)
(* ===================================================================== *)

Module Discovery.
Import PyStr.

(** [protocol.printer_info]: the standardized printer info dict. *)
Record printer_info := PrinterInfo {
  pi_id : string;
  pi_name : string;
  pi_type : string;
  pi_status : string;
  pi_paper_width : Z
}.

Definition mk_printer_info (printer_id name printer_type status : string) : printer_info :=
  PrinterInfo printer_id name printer_type status 80.

Definition KNOWN_PRINTER_VENDORS : list (Z * string) :=
  [ (0x04B8, "Epson"); (0x0519, "Star Micronics"); (0x0DD4, "Custom");
    (0x0FE6, "Bixolon"); (0x0493, "Citizen"); (0x20D1, "Sewoo");
    (0x0416, "Winbond (POS)"); (0x0483, "STMicroelectronics");
    (0x1FC9, "NXP (POS)"); (0x28E9, "Rongta"); (0x0C2E, "Munbyn");
    (0x1A86, "QinHeng (CH340 serial)") ]%Z.

Fixpoint vendor_get (vendor_id : Z) (table : list (Z * string)) : option string :=
  match table with
  | [] => None
  | (k, v) :: rest => if (k =? vendor_id)%Z then Some v else vendor_get vendor_id rest
  end.

Definition ESCPOS_NETWORK_PORT : Z := 9100.

(** The three id formats written by the discovery functions. *)
Definition usb_printer_id (vendor_id product_id : Z) : string :=
  "usb:" ++ format_hash06x vendor_id ++ ":" ++ format_hash06x product_id.

Definition network_printer_id (ip : string) (port : Z) : string :=
  "network:" ++ ip ++ ":" ++ str_of_int port.

Definition bluetooth_printer_id (address : string) : string :=
  "bluetooth:" ++ address.

(** What pyusb reports for one device; [dev_product] is [None] when the
    product string is missing or reading it raises. *)
Record usb_device := UsbDevice {
  idVendor : Z;
  idProduct : Z;
  dev_product : option string
}.

Definition usb_name (vendor_name : string) (d : usb_device) : string :=
  match dev_product d with
  | Some (String c s) => String c s
  | _ => vendor_name ++ " Printer"
  end.

(** The loop body of [discover_usb] over the enumerated devices. *)
Fixpoint discover_usb (devices : list usb_device) : list printer_info :=
  match devices with
  | [] => []
  | device :: rest =>
      match vendor_get (idVendor device) KNOWN_PRINTER_VENDORS with
      | None => discover_usb rest
      | Some vendor_name =>
          mk_printer_info (usb_printer_id (idVendor device) (idProduct device))
                          (usb_name vendor_name device) "usb" "ready"
          :: discover_usb rest
      end
  end.

(** One zeroconf service record: [parsed_addresses()], [port] and [name]. *)
Record service_info := ServiceInfo {
  parsed_addresses : list string;
  svc_port : Z;
  svc_name : string
}.

Definition mdns_name (ip : string) (info : service_info) : string :=
  match svc_name info with
  | EmptyString => "mDNS Printer (" ++ ip ++ ")"
  | n => hd EmptyString (split "." n)
  end.

(** The loop of [_discover_mdns] over the services found. *)
Fixpoint discover_mdns (found : list service_info) : list printer_info :=
  match found with
  | [] => []
  | info :: rest =>
      match parsed_addresses info with
      | [] => discover_mdns rest
      | ip :: _ =>
          let port := if (svc_port info =? 0)%Z then ESCPOS_NETWORK_PORT else svc_port info in
          mk_printer_info (network_printer_id ip port) (mdns_name ip info) "network" "ready"
          :: discover_mdns rest
      end
  end.

(** The port scan of [discover_network]: [open_ips] are the addresses of the
    subnet on which the connect succeeded, in scan order; [printers] starts
    as the mDNS result and entries already present are skipped. *)
Fixpoint scan_ports (open_ips : list string) (port : Z) (printers : list printer_info)
  : list printer_info :=
  match open_ips with
  | [] => printers
  | ip :: rest =>
      let printer_id := network_printer_id ip port in
      if existsb (fun p => String.eqb (pi_id p) printer_id) printers
      then scan_ports rest port printers
      else scan_ports rest port
             ((printers ++ [mk_printer_info printer_id ("Network Printer (" ++ ip ++ ")")
                                           "network" "ready"])%list)
  end.

Definition discover_network (found : list service_info) (open_ips : list string) (port : Z)
  : list printer_info :=
  scan_ports open_ips port (discover_mdns found).

(** One BLE advertisement: [name] ([None] when absent) and [address]. *)
Record ble_device := BleDevice {
  ble_name : option string;
  ble_address : string
}.

Definition printer_keywords : list string :=
  ["print"; "pos"; "thermal"; "escpos"; "star"; "epson"; "bixolon"].

(** The connection parameters [parse_printer_id] returns as a dict. *)
Inductive conn_params :=
  | UsbParams (vendor_id product_id : Z)
  | NetworkParams (host : string) (port : Z)
  | BluetoothParams (address : string).

(** The [ValueError]s of [parse_printer_id].  Two are raised by the
    interpreter, whose message is not modelled: the assignment
    [vid, pid = ...] with [fields] values on its right, and [int(text, base)];
    the third is raised by the function itself. *)
Inductive value_error :=
  | unpack_error (fields : nat)
  | int_error (base : N) (text : string)
  | unknown_printer_type (ptype : string).

Inductive parsed (A : Type) :=
  | Ok (a : A)
  | ValueError (e : value_error).
Arguments Ok {A} a.
Arguments ValueError {A} e.

Section Unicode.

Context {U : Unicode}.

Fixpoint discover_bluetooth (devices : list ble_device) : list printer_info :=
  match devices with
  | [] => []
  | d :: rest =>
      let name := match ble_name d with Some n => n | None => EmptyString end in
      if existsb (fun kw => contains kw (lower name)) printer_keywords
      then mk_printer_info (bluetooth_printer_id (ble_address d)) name "bluetooth" "ready"
           :: discover_bluetooth rest
      else discover_bluetooth rest
  end.

Definition parse_printer_id (printer_id : string) : parsed (string * conn_params) :=
  let parts := split1 ":" printer_id in
  let ptype := hd EmptyString parts in
  let rest := match parts with _ :: r :: _ => r | _ => EmptyString end in
  if String.eqb ptype "usb" then
    match split ":" rest with
    | [vid; pid] =>
        match int_of_str 16 vid with
        | Some v =>
            match int_of_str 16 pid with
            | Some p => Ok ("usb", UsbParams v p)
            | None => ValueError (int_error 16 pid)
            end
        | None => ValueError (int_error 16 vid)
        end
    | fields => ValueError (unpack_error (length fields))
    end
  else if String.eqb ptype "network" then
    let host_port := rsplit1 ":" rest in
    let host := hd EmptyString host_port in
    match host_port with
    | _ :: p :: _ =>
        match int_of_str 10 p with
        | Some port => Ok ("network", NetworkParams host port)
        | None => ValueError (int_error 10 p)
        end
    | _ => Ok ("network", NetworkParams host ESCPOS_NETWORK_PORT)
    end
  else if String.eqb ptype "bluetooth" then
    Ok ("bluetooth", BluetoothParams rest)
  else ValueError (unknown_printer_type ptype).

End Unicode.

(** [str(e)] for the error the function raises itself. *)
Definition unknown_printer_type_text (ptype : string) : string :=
  "Unknown printer type: " ++ ptype.

(** Writing parsed parameters back in the format of the discovery
    functions. *)
Definition serialize_printer_id (p : string * conn_params) : string :=
  match snd p with
  | UsbParams v pr => usb_printer_id v pr
  | NetworkParams host port => network_printer_id host port
  | BluetoothParams address => bluetooth_printer_id address
  end.

Definition ptype_of (p : conn_params) : string :=
  match p with
  | UsbParams _ _ => "usb"
  | NetworkParams _ _ => "network"
  | BluetoothParams _ => "bluetooth"
  end.

(** The printer infos the discovery functions can produce, over all that
    the enumeration layers may report. *)
Inductive discovered {U : Unicode} (p : printer_info) : Prop :=
  | by_usb devices : In p (discover_usb devices) -> discovered p
  | by_mdns found : In p (discover_mdns found) -> discovered p
  | by_network found open_ips port :
      In p (discover_network found open_ips port) -> discovered p
  | by_bluetooth devices : In p (discover_bluetooth devices) -> discovered p.

End Discovery.

(* ===================================================================== *)
(** * hardware/scanner.py *)
(* ===================================================================== *)

Module Scanner.
Import PyStr Eff.

(** The fields of [ScannerManager] the detector uses.  Times are seconds;
    the float arithmetic of [time.time()] is taken as exact. *)
Record ScannerManager := Build_ScannerManager {
  _timeout : Q;
  _running : bool;
  _buffer : string;
  _last_keystroke_time : Q
}.

(** [ScannerManager.__init__] *)
Definition init (timeout_ms : Z) : ScannerManager :=
  {| _timeout := inject_Z timeout_ms / 1000;
     _running := false;
     _buffer := EmptyString;
     _last_keystroke_time := 0 |}.

Definition set_buffer (self : ScannerManager) (b : string) : ScannerManager :=
  {| _timeout := _timeout self;
     _running := _running self;
     _buffer := b;
     _last_keystroke_time := _last_keystroke_time self |}.

Definition set_last_keystroke_time (self : ScannerManager) (t : Q) : ScannerManager :=
  {| _timeout := _timeout self;
     _running := _running self;
     _buffer := _buffer self;
     _last_keystroke_time := t |}.

Definition LF : string := String (ascii_of_N 10) EmptyString.
Definition CR : string := String (ascii_of_N 13) EmptyString.

(** [char in ('\n', '\r')] *)
Definition is_terminator (char : string) : bool :=
  String.eqb char LF || String.eqb char CR.

(** [a > b] *)
Definition Qgtb (a b : Q) : bool := negb (Qle_bool a b).

Definition nonempty (s : string) : bool :=
  match s with EmptyString => false | _ => true end.

Definition CODE39_ALPHABET : string :=
  "0123456789ABCDEFGHIJKLMNOPQRSTUVWXYZ-. $/+%".

Definition BARCODE_KINDS : list string :=
  ["EAN13"; "EAN8"; "UPC-A"; "GTIN-14"; "CODE39"; "CODE128"].

(** Made of the ASCII digits 0 to 9. *)
Definition all_digits (value : string) : bool := all_chars is_digit_char value.

(** The manager together with the calls of its callback made so far,
    each [(barcode, barcode_type)], in order. *)
Definition detector : Type := ScannerManager * list (string * string).

Section Detector.

Context {U : Unicode}.

Definition digit_kind (value : string) : option string :=
  if isdigit value then
    let length := len value in
    if (length =? 13)%nat then Some "EAN13"
    else if (length =? 8)%nat then Some "EAN8"
    else if (length =? 12)%nat then Some "UPC-A"
    else if (length =? 14)%nat then Some "GTIN-14"
    else None
  else None.

Definition _detect_barcode_type (value : string) : string :=
  match digit_kind value with
  | Some kind => kind
  | None =>
      if (len value <=? 43)%nat
         && all_chars (fun c => char_in c CODE39_ALPHABET) (upper value)
      then "CODE39"
      else "CODE128"
  end.

(** The classification rules as the specification words them: the four
    digit-only lengths first, then the Code 39 alphabet up to 43 characters,
    and Code 128 for everything else. *)
Definition classify_spec (value : string) : string :=
  let n := len value in
  if isdigit value && (n =? 13)%nat then "EAN13"
  else if isdigit value && (n =? 8)%nat then "EAN8"
  else if isdigit value && (n =? 12)%nat then "UPC-A"
  else if isdigit value && (n =? 14)%nat then "GTIN-14"
  else if all_chars (fun c => char_in c CODE39_ALPHABET) (upper value)
          && (n <=? 43)%nat then "CODE39"
  else "CODE128".

(** The callback given to [__init__], called with the barcode and its
    type: [None] when the call returns, the message of the exception when
    it raises.  What it does may depend on the calls made before. *)
Variable callback : list (string * string) -> string -> string -> option string.

(** [_on_char] at time [now].  The buffer is cleared after the callback
    has returned; an exception of the callback leaves [_on_char] before
    that. *)
Definition _on_char (now : Q) (char : string) : M detector unit :=
  fun d =>
    let self := fst d in
    let calls := snd d in
    let self :=
      if nonempty (_buffer self)
         && Qgtb (now - _last_keystroke_time self) (_timeout self)
      then set_buffer self EmptyString else self in
    let self := set_last_keystroke_time self now in
    if is_terminator char then
      if (4 <=? len (_buffer self))%nat then
        let barcode := strip (_buffer self) in
        let barcode_type := _detect_barcode_type barcode in
        match callback calls barcode barcode_type with
        | Some e => (Raised e, (self, (calls ++ [(barcode, barcode_type)])%list))
        | None =>
            (Returned tt,
             (set_buffer self EmptyString, (calls ++ [(barcode, barcode_type)])%list))
        end
      else (Returned tt, (set_buffer self EmptyString, calls))
    else (Returned tt, (set_buffer self (_buffer self ++ char), calls)).

(** Calls of [_on_char] one after the other, each with the time at which
    it is made; an exception ends the run. *)
Fixpoint feed (events : list (Q * string)) : M detector unit :=
  match events with
  | [] => ret tt
  | (now, char) :: rest => _on_char now char ;;; feed rest
  end.

End Detector.

(** A callback that always returns, and one that always raises. *)
Definition quiet (calls : list (string * string)) (barcode barcode_type : string)
  : option string := None.

Definition raising (e : string) (calls : list (string * string))
    (barcode barcode_type : string) : option string := Some e.

(** The characters of an ASCII text arriving [dt] apart, the first one at
    [t0]. *)
Fixpoint keystrokes (t0 dt : Q) (s : string) : list (Q * string) :=
  match s with
  | EmptyString => []
  | String c s' => (t0, String c EmptyString) :: keystrokes (t0 + dt) dt s'
  end.

End Scanner.

(* ===================================================================== *)
(** * hardware/printer.py and hardware/drawer.py: the connection lifecycle *)
(* ===================================================================== *)

Module Printer.
Import Eff Json.

(** Calls made on the printer library, in the order they are attempted. *)
Inductive call :=
  | Open (params : Discovery.conn_params)
  | PSet (align : string) (bold double_height : option bool)
  | PText (s : string)
  | PCut
  | PRaw (command : list N)
  | PClose.

(** The printer object returned by [connect_printer]. *)
Record printer := { params : Discovery.conn_params }.

Section Lifecycle.

Context {U : PyStr.Unicode}.

(** The device: whether a call raises, given the calls made so far. *)
Variable fails : list call -> call -> option string.

(** The rendered test page carries [datetime.now()] as text. *)
Variable now_text : string.

Definition device_call (c : call) : M (list call) unit :=
  fun log =>
    match fails log c with
    | Some e => (Raised e, (log ++ [c])%list)
    | None => (Returned tt, (log ++ [c])%list)
    end.

(** [str(e)] for the [ValueError]s the interpreter raises. *)
Variable interpreter_text : Discovery.value_error -> string.

Definition str_of_error (e : Discovery.value_error) : string :=
  match e with
  | Discovery.unknown_printer_type ptype => Discovery.unknown_printer_type_text ptype
  | _ => interpreter_text e
  end.

(** [discovery.connect_printer] *)
Definition connect_printer (printer_id : string) : M (list call) printer :=
  match Discovery.parse_printer_id printer_id with
  | Discovery.ValueError e => raise (str_of_error e)
  | Discovery.Ok (_, p) => device_call (Open p) ;;; ret {| params := p |}
  end.

(** The document renderers; each one drives the printer in its own way. *)
Variable _print_receipt : printer -> json -> M (list call) unit.
Variable _print_kitchen_order : printer -> json -> M (list call) unit.
Variable _print_invoice : printer -> json -> M (list call) unit.
Variable _print_delivery_note : printer -> json -> M (list call) unit.
Variable _print_barcode_label : printer -> json -> M (list call) unit.
Variable _print_cash_report : printer -> json -> M (list call) unit.
Variable _print_generic : printer -> json -> M (list call) unit.

(** [try: printer.close() / except Exception: pass] *)
Definition close_quietly (p : printer) : M (list call) unit :=
  try_except (device_call PClose) (fun _ => ret tt).

Definition render_document (p : printer) (document_type : string) (data : json)
  : M (list call) unit :=
  if String.eqb document_type "receipt" then _print_receipt p data
  else if String.eqb document_type "kitchen_order" then _print_kitchen_order p data
  else if String.eqb document_type "invoice" then _print_invoice p data
  else if String.eqb document_type "delivery_note" then _print_delivery_note p data
  else if String.eqb document_type "barcode_label" then _print_barcode_label p data
  else if String.eqb document_type "cash_session_report" then _print_cash_report p data
  else _print_generic p data.

(** [PrinterManager.print_document] *)
Definition print_document (printer_id document_type : string) (data : json)
  : M (list call) unit :=
  p <- connect_printer printer_id ;;
  try_finally (render_document p document_type data) (close_quietly p).

Definition rule : string := "================================" ++ Scanner.LF.
Definition dash : string := "--------------------------------" ++ Scanner.LF.

Definition test_page (printer_id : string) : M (list call) unit :=
  device_call (PSet "center" None None) ;;;
  device_call (PText rule) ;;;
  device_call (PSet "center" (Some true) (Some true)) ;;;
  device_call (PText ("ERPlora Bridge" ++ Scanner.LF)) ;;;
  device_call (PSet "center" (Some false) (Some false)) ;;;
  device_call (PText dash) ;;;
  device_call (PText ("Test Print OK" ++ Scanner.LF)) ;;;
  device_call (PText (now_text ++ Scanner.LF)) ;;;
  device_call (PText dash) ;;;
  device_call (PText ("Printer: " ++ printer_id ++ Scanner.LF)) ;;;
  device_call (PText rule) ;;;
  device_call PCut.

(** [PrinterManager.test_print] *)
Definition test_print (printer_id : string) : M (list call) unit :=
  p <- connect_printer printer_id ;;
  try_finally (test_page printer_id) (close_quietly p).

Definition KICK_PIN_2 : list N := [0x1b; 0x70; 0x00; 0x19; 0x32]%N.
Definition KICK_PIN_5 : list N := [0x1b; 0x70; 0x01; 0x19; 0x32]%N.

(** [drawer.open_drawer] *)
Definition open_drawer (printer_id : string) (pin : Z) : M (list call) unit :=
  let command := if (pin =? 2)%Z then KICK_PIN_2 else KICK_PIN_5 in
  p <- connect_printer printer_id ;;
  try_finally (device_call (PRaw command)) (close_quietly p).

End Lifecycle.

End Printer.

(* ===================================================================== *)
(** * protocol.py *)
(* ===================================================================== *)

Module Protocol.
Import Json.


(** [printer_info] as the dict that is serialized. *)
Definition printer_info_json (p : Discovery.printer_info) : json :=
  JObj (dict [("id", JStr (Discovery.pi_id p));
              ("name", JStr (Discovery.pi_name p));
              ("type", JStr (Discovery.pi_type p));
              ("status", JStr (Discovery.pi_status p));
              ("paper_width", JInt (Discovery.pi_paper_width p))]).

(** The events, as the dict each one hands to [json.dumps]. *)
Definition status_event (version : string) (printers : list Discovery.printer_info)
    (scanner_active : bool) : gmap string json :=
  dict [("event", JStr "status");
        ("version", JStr version);
        ("printers", JArr (map printer_info_json printers));
        ("scanner", JBool scanner_active)].

Definition printers_event (printers : list Discovery.printer_info) : gmap string json :=
  dict [("event", JStr "printers");
        ("printers", JArr (map printer_info_json printers))].

Definition print_complete_event (job_id : json) : gmap string json :=
  dict [("event", JStr "print_complete"); ("job_id", job_id)].

Definition print_error_event (job_id : json) (error : string) : gmap string json :=
  dict [("event", JStr "print_error"); ("job_id", job_id); ("error", JStr error)].

Definition drawer_opened_event (printer_id : json) : gmap string json :=
  dict [("event", JStr "drawer_opened"); ("printer_id", printer_id)].

Definition barcode_event (value barcode_type : string) : gmap string json :=
  dict [("event", JStr "barcode"); ("value", JStr value); ("type", JStr barcode_type)].

Definition keyboard_toggled_event (visible : json) : gmap string json :=
  dict [("event", JStr "keyboard_toggled"); ("visible", visible)].

Definition error_event (message code : string) : gmap string json :=
  dict [("event", JStr "error"); ("message", JStr message); ("code", JStr code)].

(** What [parse_message] does: it returns the dict, raises the
    [ValueError] it builds, or lets an exception of [json.loads] that is
    not a [JSONDecodeError] through. *)
Inductive parse_result :=
  | Message (msg : gmap string json)
  | ValueError (text : string)
  | Propagated (e : string).

Section Parsing.

(** [json.loads] *)
Variable json_loads : string -> loaded.

Definition parse_message (raw : string) : parse_result :=
  match json_loads raw with
  | JSONDecodeError e => ValueError ("Invalid JSON: " ++ e)
  | OtherError e => Propagated e
  | Decoded (JObj msg) =>
      if negb (has_key msg "action") && negb (has_key msg "event")
      then ValueError "Message must have 'action' or 'event' key"
      else Message msg
  | Decoded _ => ValueError "Message must be a JSON object"
  end.


End Parsing.

End Protocol.

(* ===================================================================== *)
(** * server.py *)
(* ===================================================================== *)

Module Server.
Import Eff Json Protocol.

(** A WebSocket, by identity. *)
Definition websocket := nat.

(** The blocking calls handed to [loop.run_in_executor]. *)
Inductive operation :=
  | discover_all
  | print_document (printer_id document_type data : json)
  | open_drawer (printer_id : json)
  | test_print (printer_id : json)
  | _show_notification (title body : json)
  | _toggle_keyboard (visible : json).

(** What can be observed of a run: texts delivered to a client, and calls
    submitted to the executor. *)
Inductive effect :=
  | Sent (ws : websocket) (message : gmap string json)
  | Submitted (op : operation).

(** The module globals and the environment of a run.  [dead] holds the
    sockets on which a send raises. *)
Record world := World {
  connections : gset websocket;
  dead : gset websocket;
  cached_printers : list Discovery.printer_info;
  scanner_manager : option Scanner.ScannerManager;
  uuid_count : nat;
  trace : list effect
}.

Definition set_connections (f : gset websocket -> gset websocket) (w : world) : world :=
  World (f (connections w)) (dead w) (cached_printers w) (scanner_manager w)
        (uuid_count w) (trace w).

Definition set_cache (printers : list Discovery.printer_info) (w : world) : world :=
  World (connections w) (dead w) printers (scanner_manager w) (uuid_count w) (trace w).

Definition bump_uuid (w : world) : world :=
  World (connections w) (dead w) (cached_printers w) (scanner_manager w)
        (S (uuid_count w)) (trace w).

Definition log (e : effect) (w : world) : world :=
  World (connections w) (dead w) (cached_printers w) (scanner_manager w)
        (uuid_count w) (trace w ++ [e])%list.

Definition add_trace (es : list effect) (w : world) : world :=
  World (connections w) (dead w) (cached_printers w) (scanner_manager w)
        (uuid_count w) (trace w ++ es)%list.

(** The deliveries of [message] to the sockets of [todo] that accept it. *)
Definition deliveries (message : gmap string json) (w : world) (todo : list websocket)
  : list effect :=
  map (fun ws => Sent ws message) (filter (fun ws => ws ∉ dead w) todo).

Section Handlers.

Variable __version__ : string.

(** [json.loads], see [Protocol.parse_message]. *)
Variable json_loads : string -> loaded.

(** [str(uuid.uuid4())], by number of the call. *)
Variable uuid4 : nat -> string.

(** [f"{v}"] for a decoded value. *)
Variable format_value : json -> string.

(** The hardware behind the executor: the result of a discovery sweep, and
    for every other operation whether it raises. *)
Variable sweep : string + list Discovery.printer_info.
Variable hardware : operation -> option string.

(** [await ws.send_text(json.dumps(message))] *)
Definition send_text (ws : websocket) (message : gmap string json) : M world unit :=
  fun w =>
    if bool_decide (ws ∈ dead w) then (Raised "send failed", w)
    else (Returned tt, log (Sent ws message) w).

(** [await loop.run_in_executor(None, op)] for the operations that return
    nothing. *)
Definition run_in_executor (op : operation) : M world unit :=
  fun w =>
    match hardware op with
    | Some e => (Raised e, log (Submitted op) w)
    | None => (Returned tt, log (Submitted op) w)
    end.

Definition run_discover_all : M world (list Discovery.printer_info) :=
  fun w =>
    match sweep with
    | inl e => (Raised e, log (Submitted discover_all) w)
    | inr printers => (Returned printers, log (Submitted discover_all) w)
    end.

Definition generate_job_id : M world json :=
  fun w => (Returned (JStr (uuid4 (uuid_count w))), bump_uuid w).

(** [scanner_manager is not None and scanner_manager.is_running] *)
Definition scanner_active (w : world) : bool :=
  match scanner_manager w with
  | Some sm => Scanner._running sm
  | None => false
  end.

(** [broadcast]: the loop over [connections], then the removal of the
    sockets collected in [disconnected]. *)
Fixpoint broadcast_loop (message : gmap string json) (todo : list websocket)
    (disconnected : gset websocket) : M world (gset websocket) :=
  match todo with
  | [] => ret disconnected
  | ws :: rest =>
      d <- try_except (send_text ws message ;;; ret disconnected)
                      (fun _ => ret ({[ws]} ∪ disconnected)) ;;
      broadcast_loop message rest d
  end.

Definition broadcast (message : gmap string json) : M world unit :=
  w <- get_state ;;
  disconnected <- broadcast_loop message (elements (connections w)) ∅ ;;
  modify (set_connections (fun c => c ∖ disconnected)).

(** [health_check], the GET /status endpoint. *)
Definition health_check (w : world) : gmap string json :=
  let printers := cached_printers w in
  dict [("status", JStr "ok");
        ("version", JStr __version__);
        ("printers", JInt (Z.of_nat (length printers)));
        ("scanner", JBool (scanner_active w))].

Definition handle_get_status (ws : websocket) : M world unit :=
  w <- get_state ;;
  send_text ws (status_event __version__ (cached_printers w) (scanner_active w)).

Definition handle_discover_printers (ws : websocket) : M world unit :=
  printers <- run_discover_all ;;
  modify (set_cache printers) ;;;
  send_text ws (printers_event printers).

Definition handle_print (ws : websocket) (msg : gmap string json) : M world unit :=
  let printer_id := get msg "printer_id" in
  let data := get_default msg "data" (JObj ∅) in
  job_id <- (if truthy (get msg "job_id") then ret (get msg "job_id")
             else generate_job_id) ;;
  let document_type := get_default msg "document_type" (JStr "receipt") in
  if negb (truthy printer_id) then
    send_text ws (print_error_event job_id "No printer_id specified")
  else
    try_except
      (run_in_executor (print_document printer_id document_type data) ;;;
       send_text ws (print_complete_event job_id))
      (fun error_msg => send_text ws (print_error_event job_id error_msg)).

Definition handle_open_drawer (ws : websocket) (msg : gmap string json) : M world unit :=
  let printer_id := get msg "printer_id" in
  if negb (truthy printer_id) then
    send_text ws (error_event "No printer_id specified" "missing_param")
  else
    try_except
      (run_in_executor (open_drawer printer_id) ;;;
       send_text ws (drawer_opened_event printer_id))
      (fun e => send_text ws (error_event ("Drawer error: " ++ e) "drawer_error")).

Definition handle_test_print (ws : websocket) (msg : gmap string json) : M world unit :=
  let printer_id := get msg "printer_id" in
  job_id <- generate_job_id ;;
  if negb (truthy printer_id) then
    send_text ws (print_error_event job_id "No printer_id specified")
  else
    try_except
      (run_in_executor (test_print printer_id) ;;;
       send_text ws (print_complete_event job_id))
      (fun e => send_text ws (print_error_event job_id e)).

Definition handle_send_notification (ws : websocket) (msg : gmap string json)
  : M world unit :=
  let title := get_default msg "title" (JStr "ERPlora") in
  let body := get_default msg "body" (JStr "") in
  try_except
    (run_in_executor (_show_notification title body))
    (fun e => send_text ws (error_event ("Notification error: " ++ e) "notification_error")).

Definition handle_toggle_keyboard (ws : websocket) (msg : gmap string json)
  : M world unit :=
  let visible := get_default msg "visible" (JBool true) in
  try_except
    (run_in_executor (_toggle_keyboard visible) ;;;
     send_text ws (keyboard_toggled_event visible))
    (fun e => send_text ws (error_event ("Keyboard error: " ++ e) "keyboard_error")).

Definition handle_message (ws : websocket) (raw : string) : M world unit :=
  match parse_message json_loads raw with
  | ValueError e => send_text ws (error_event e "parse_error")
  | Propagated e => raise e
  | Message msg =>
      let action := get msg "action" in
      if is_str action "get_status" then handle_get_status ws
      else if is_str action "discover_printers" then handle_discover_printers ws
      else if is_str action "print" then handle_print ws msg
      else if is_str action "open_drawer" then handle_open_drawer ws msg
      else if is_str action "test_print" then handle_test_print ws msg
      else if is_str action "send_notification" then handle_send_notification ws msg
      else if is_str action "toggle_keyboard" then handle_toggle_keyboard ws msg
      else send_text ws
             (error_event ("Unknown action: " ++ format_value action) "unknown_action")
  end.

(** The receive loop of [websocket_endpoint] over the texts the client
    sends before it disconnects. *)
Fixpoint receive_loop (ws : websocket) (inbound : list string) : M world unit :=
  match inbound with
  | [] => ret tt
  | raw :: rest => handle_message ws raw ;;; receive_loop ws rest
  end.

Definition websocket_endpoint (ws : websocket) (inbound : list string) : M world unit :=
  modify (set_connections (fun c => {[ws]} ∪ c)) ;;;
  handle_get_status ws ;;;
  try_finally
    (try_except (receive_loop ws inbound) (fun _ => ret tt))
    (modify (set_connections (fun c => c ∖ {[ws]}))).

End Handlers.

(** Sample inbound texts and a decoder that agrees with [json.loads] on
    them. *)
Definition quoted (s : string) : string :=
  String (ascii_of_N 34) s ++ String (ascii_of_N 34) EmptyString.

Definition print_text : string :=
  "{" ++ quoted "action" ++ ": " ++ quoted "print" ++ "}".

Definition reboot_text : string :=
  "{" ++ quoted "action" ++ ": " ++ quoted "reboot" ++ "}".


Fixpoint leading_brackets (raw : string) : nat :=
  match raw with
  | String c rest => if Ascii.eqb c "[" then S (leading_brackets rest) else O
  | EmptyString => O
  end.

(** The nesting at which the sample decoder gives up. *)
Definition too_deep : nat := Nat.pow 10 5.

Definition sample_loads (raw : string) : loaded :=
  if String.eqb raw print_text then Decoded (JObj (dict [("action", JStr "print")]))
  else if String.eqb raw reboot_text then Decoded (JObj (dict [("action", JStr "reboot")]))
  else if String.eqb raw "{}" then Decoded (JObj ∅)
  else if String.eqb raw "[1, 2]" then Decoded (JArr [JInt 1; JInt 2])
  else if (too_deep <=? leading_brackets raw)%nat
  then OtherError "maximum recursion depth exceeded while decoding a JSON array from a unicode string"
  else JSONDecodeError "Expecting value: line 1 column 1 (char 0)".

Definition sample_uuid4 (n : nat) : string :=
  "00000000-0000-4000-8000-" ++ PyStr.zeros (12 - String.length (PyStr.str_of_int (Z.of_nat n)))
  ++ PyStr.str_of_int (Z.of_nat n).

Definition sample_world : world :=
  World {[1; 2; 3]} {[2]} [] None 0 [].

End Server.

(* ===================================================================== *)
(** * hardware/scanner.py: runs of the detector and the capture loops *)
(* ===================================================================== *)

Module Listeners.
Import PyStr Eff Scanner.

(** Keystrokes that follow each other within [timeout], the first one
    within [timeout] of [last], none of them a line terminator. *)
Fixpoint burst (timeout last : Q) (events : list (Q * string)) : Prop :=
  match events with
  | [] => True
  | (now, char) :: rest =>
      (now - last <= timeout)%Q /\ is_terminator char = false
      /\ burst timeout now rest
  end.

(** A burst that starts in state [self]: the first keystroke finds the
    buffer empty or comes within the timeout of the last one, the others
    follow within the timeout. *)
Definition starts_burst (self : ScannerManager) (events : list (Q * string)) : Prop :=
  match events with
  | [] => True
  | (now, char) :: rest =>
      (_buffer self = EmptyString
       \/ (now - _last_keystroke_time self <= _timeout self)%Q)
      /\ is_terminator char = false
      /\ burst (_timeout self) now rest
  end.

(** Keystrokes that each come more than [timeout] after the one before,
    the first one more than [timeout] after [last]. *)
Fixpoint slow (timeout last : Q) (events : list (Q * string)) : Prop :=
  match events with
  | [] => True
  | (now, _) :: rest => (timeout < now - last)%Q /\ slow timeout now rest
  end.

(** The text typed by a run of keystrokes. *)
Fixpoint typed (events : list (Q * string)) : string :=
  match events with
  | [] => EmptyString
  | (_, char) :: rest => char ++ typed rest
  end.

(** The time of the last of [events], [last] when there is none. *)
Fixpoint last_time (last : Q) (events : list (Q * string)) : Q :=
  match events with
  | [] => last
  | (now, _) :: rest => last_time now rest
  end.





Section Loops.

Context {U : Unicode}.
Variable callback : list (string * string) -> string -> string -> option string.


Definition WM_KEYDOWN : Z := 0x0100.

(** [chr(vk_code)] for a code below 128, as the hook passes them. *)
Definition chr (vk_code : Z) : string :=
  String (ascii_of_N (Z.to_N vk_code)) EmptyString.

(** The character [low_level_handler] of [_start_windows] feeds for one
    hook call, if any. *)
Definition hook_char (nCode wParam vk_code : Z) : option string :=
  if (0 <=? nCode)%Z && (wParam =? WM_KEYDOWN)%Z then
    if (0x30 <=? vk_code)%Z && (vk_code <=? 0x39)%Z then Some (chr vk_code)
    else if (0x41 <=? vk_code)%Z && (vk_code <=? 0x5A)%Z then Some (chr vk_code)
    else if (vk_code =? 0x0D)%Z then Some LF
    else None
  else None.

(** One call of the keyboard hook at time [now]. *)
Definition low_level_handler (now : Q) (nCode wParam vk_code : Z) : M detector unit :=
  match hook_char nCode wParam vk_code with
  | Some char => _on_char callback now char
  | None => ret tt
  end.

(** The hook calls of a session, in order.  The handler is a ctypes
    callback: an exception it raises is reported and dropped there, and
    the next call is made as usual. *)
Fixpoint hook_run (calls : list (Q * (Z * Z * Z))) : M detector unit :=
  match calls with
  | [] => ret tt
  | (now, (nCode, wParam, vk_code)) :: rest =>
      try_except (low_level_handler now nCode wParam vk_code) (fun _ => ret tt) ;;;
      hook_run rest
  end.

End Loops.

(** Digits and capital letters. *)
Definition is_upper_alnum (c : ascii) : bool :=
  in_range 48 57 c || in_range 65 90 c.

(** The kind of an all-digit value, by its length. *)
Definition kind_of_digits (n : nat) : string :=
  if (n =? 13)%nat then "EAN13"
  else if (n =? 8)%nat then "EAN8"
  else if (n =? 12)%nat then "UPC-A"
  else if (n =? 14)%nat then "GTIN-14"
  else if (n <=? 43)%nat then "CODE39"
  else "CODE128".

End Listeners.

(* ===================================================================== *)
(** * hardware/printer.py: the total line and the delivery note *)
(* ===================================================================== *)

Module Render.
Import Eff Json Printer.

(** [type(v).__name__] of a decoded value. *)
Definition type_name (v : json) : string :=
  match v with
  | JNull => "NoneType"
  | JBool _ => "bool"
  | JInt _ => "int"
  | JFloat _ => "float"
  | JStr _ => "str"
  | JArr _ => "list"
  | JObj _ => "dict"
  end.

(** The receiver of a [.get(...)] call: a dict, or [AttributeError]. *)
Definition as_dict {S} (v : json) : M S (gmap string json) :=
  match v with
  | JObj d => ret d
  | _ => raise ("'" ++ type_name v ++ "' object has no attribute 'get'")
  end.

(** The elements [for item in v] visits, or [TypeError].  A string yields
    its characters and a dict its keys. *)
Definition iterate {S} (v : json) : M S (list json) :=
  match v with
  | JArr l => ret l
  | JStr s => ret (map JStr (PyStr.chars s))
  | JObj m => ret (map (fun kv => JStr (fst kv)) (map_to_list m))
  | _ => raise ("'" ++ type_name v ++ "' object is not iterable")
  end.

(** [' ' * n] *)
Fixpoint spaces (n : nat) : string :=
  match n with
  | O => EmptyString
  | S n' => String " " (spaces n')
  end.


Section Renderers.

Variable fails : list call -> call -> option string.

(** [datetime.now().strftime('%d/%m/%Y %H:%M')] *)
Variable now_text : string.

(** [f"{v}"] for a decoded value. *)
Variable format_value : json -> string.

(** [f"{amount:.2f}"]: the text, or the message of the exception. *)
Variable format_2f : json -> string + string.

(** [PrinterManager._print_total_line] *)
Definition _print_total_line (p : printer) (label : string) (amount : json)
  : M (list call) unit :=
  match format_2f amount with
  | inl e => raise e
  | inr amount_str =>
      let padding :=
        (32 - Z.of_nat (PyStr.len label) - Z.of_nat (PyStr.len amount_str))%Z in
      let padding := if (padding <? 1)%Z then 1%Z else padding in
      device_call fails
        (PText (label ++ spaces (Z.to_nat padding) ++ amount_str ++ Scanner.LF))
  end.

(** The line of one item of a delivery note. *)
Definition delivery_item (item : json) : M (list call) unit :=
  i <- as_dict item ;;
  let qty := get_default i "quantity" (JInt 1) in
  let name := get_default i "name" (JStr EmptyString) in
  device_call fails (PText (format_value qty ++ "x " ++ format_value name ++ Scanner.LF)).

Fixpoint delivery_items (items : list json) : M (list call) unit :=
  match items with
  | [] => ret tt
  | item :: rest => delivery_item item ;;; delivery_items rest
  end.

Definition optional_line (d : gmap string json) (key label : string)
  : M (list call) unit :=
  if truthy (get d key)
  then device_call fails (PText (label ++ format_value (get d key) ++ Scanner.LF))
  else ret tt.

(** [PrinterManager._print_delivery_note] *)
Definition _print_delivery_note (p : printer) (data : json) : M (list call) unit :=
  device_call fails (PSet "center" (Some true) None) ;;;
  device_call fails (PText ("ALBARAN" ++ Scanner.LF)) ;;;
  device_call fails (PText rule) ;;;
  device_call fails (PSet "left" (Some false) None) ;;;
  d <- as_dict data ;;
  device_call fails
    (PText ("N: " ++ format_value (get_default d "receipt_id" (JStr EmptyString))
            ++ Scanner.LF)) ;;;
  device_call fails (PText ("Fecha: " ++ now_text ++ Scanner.LF)) ;;;
  optional_line d "customer_name" "Cliente: " ;;;
  optional_line d "delivery_address" "Dir: " ;;;
  device_call fails (PText dash) ;;;
  items <- iterate (get_default d "items" (JArr [])) ;;
  delivery_items items ;;;
  device_call fails (PText rule) ;;;
  device_call fails
    (PText (Scanner.LF ++ "Firma: _______________" ++ Scanner.LF ++ Scanner.LF)) ;;;
  device_call fails PCut.

(** The calls of a delivery note that prints completely. *)
Definition delivery_head (d : gmap string json) : list call :=
  [PSet "center" (Some true) None;
   PText ("ALBARAN" ++ Scanner.LF);
   PText rule;
   PSet "left" (Some false) None;
   PText ("N: " ++ format_value (get_default d "receipt_id" (JStr EmptyString))
          ++ Scanner.LF);
   PText ("Fecha: " ++ now_text ++ Scanner.LF)]
  ++ (if truthy (get d "customer_name")
      then [PText ("Cliente: " ++ format_value (get d "customer_name") ++ Scanner.LF)]
      else [])
  ++ (if truthy (get d "delivery_address")
      then [PText ("Dir: " ++ format_value (get d "delivery_address") ++ Scanner.LF)]
      else [])
  ++ [PText dash].

Definition delivery_line (i : gmap string json) : call :=
  PText (format_value (get_default i "quantity" (JInt 1)) ++ "x "
         ++ format_value (get_default i "name" (JStr EmptyString)) ++ Scanner.LF).

Definition delivery_tail : list call :=
  [PText rule;
   PText (Scanner.LF ++ "Firma: _______________" ++ Scanner.LF ++ Scanner.LF);
   PCut].

End Renderers.

End Render.

(* ===================================================================== *)
(** * config.py *)
(* ===================================================================== *)

Module Config.
Import Eff Json.

Definition DEFAULT_PORT : Z := 12321.

Definition DEFAULT_CONFIG : gmap string json :=
  dict [("port", JInt DEFAULT_PORT);
        ("host", JStr "127.0.0.1");
        ("log_level", JStr "info");
        ("scanner_enabled", JBool true);
        ("scanner_timeout_ms", JInt 100)].

(** The config file: absent, present but failing to open or to be read
    ([OSError]), or present with the bytes it holds. *)
Inductive file :=
  | Absent
  | Unreadable
  | Content (text : string).

(** A [BridgeConfig] object and the file system as its code meets it:
    the file at [_path], the [OSError] that opening it for writing raises,
    if any, and the dict [_data] of the object. *)
Record env := Env {
  config_file : file;
  write_error : option string;
  _data : gmap string json
}.

Definition set_data (data : gmap string json) (s : env) : env :=
  Env (config_file s) (write_error s) data.

Section Persistence.

(** [json.load] on the bytes of the file. *)
Variable json_load : string -> loaded.

(** [json.dump(data, f, indent=2)] *)
Variable json_dump : gmap string json -> string.

(** [data.update(saved)] for a [saved] that is not a dict: the dict after
    the call and the message of the exception it raises, if any. *)
Variable update_sequence :
  gmap string json -> json -> gmap string json * option string.

(** [BridgeConfig.save] *)
Definition save : M env unit :=
  fun s =>
    match write_error s with
    | Some e => (Raised e, s)
    | None => (Returned tt, Env (Content (json_dump (_data s))) None (_data s))
    end.

(** [BridgeConfig.load]: only [JSONDecodeError] and [OSError] are
    caught. *)
Definition load : M env unit :=
  fun s =>
    match config_file s with
    | Absent => save s
    | Unreadable => (Returned tt, s)
    | Content text =>
        match json_load text with
        | JSONDecodeError _ => (Returned tt, s)
        | OtherError e => (Raised e, s)
        | Decoded (JObj saved) => (Returned tt, set_data (saved ∪ _data s) s)
        | Decoded other =>
            match update_sequence (_data s) other with
            | (data, Some e) => (Raised e, set_data data s)
            | (data, None) => (Returned tt, set_data data s)
            end
        end
    end.

(** [BridgeConfig.__init__] *)
Definition init : M env unit :=
  modify (set_data DEFAULT_CONFIG) ;;; load.

(** The properties. *)
Definition port (s : env) : json :=
  get_default (_data s) "port" (JInt DEFAULT_PORT).

Definition host (s : env) : json :=
  get_default (_data s) "host" (JStr "127.0.0.1").

Definition log_level (s : env) : json :=
  get_default (_data s) "log_level" (JStr "info").

Definition scanner_enabled (s : env) : json :=
  get_default (_data s) "scanner_enabled" (JBool true).

Definition scanner_timeout_ms (s : env) : json :=
  get_default (_data s) "scanner_timeout_ms" (JInt 100).



(** The [port] setter. *)
Definition set_port (value : json) : M env unit :=
  modify (fun s => set_data (<["port" := value]> (_data s)) s) ;;; save.

End Persistence.

End Config.

(* ===================================================================== *)
(** * server.py: what one handled message may leave behind *)
(* ===================================================================== *)

Module ServerSpec.
Import Json Server.

(** The effects of one handler run, as a list: at most one call submitted
    to the executor, then at most one message, sent to [ws]. *)
Inductive reply_shape (ws : websocket) : list effect -> Prop :=
  | shape_nothing : reply_shape ws []
  | shape_reply message : reply_shape ws [Sent ws message]
  | shape_submit op : reply_shape ws [Submitted op]
  | shape_submit_reply op message : reply_shape ws [Submitted op; Sent ws message].

(** [w'] differs from [w] by effects of that shape, possibly a generated
    job id and possibly a new printer cache; the registry, the dead
    sockets and the scanner are the same. *)
Definition handled (ws : websocket) (w w' : world) : Prop :=
  connections w' = connections w
  /\ dead w' = dead w
  /\ scanner_manager w' = scanner_manager w
  /\ (uuid_count w <= uuid_count w' <= S (uuid_count w))%nat
  /\ exists es, trace w' = (trace w ++ es)%list /\ reply_shape ws es.

End ServerSpec.

(* ===================================================================== *)
(** * Facts about the built-ins *)
(* ===================================================================== *)

Module PyStrFacts.
Import PyStr.

Lemma all_chars_app p s1 s2 :
  all_chars p (s1 ++ s2) = all_chars p s1 && all_chars p s2.
Proof.
  induction s1 as [|c s1 IH]; simpl; [reflexivity|].
  rewrite IH. now rewrite andb_assoc.
Qed.

Lemma all_chars_weaken (p q : ascii -> bool) s :
  (forall c, p c = true -> q c = true) ->
  all_chars p s = true -> all_chars q s = true.
Proof.
  intros Hpq. induction s as [|c s IH]; simpl; [reflexivity|].
  intros [Hc Hs]%andb_true_iff. apply andb_true_iff. auto.
Qed.

Lemma in_range_code lo hi c :
  in_range lo hi c = true <-> (lo <= code c <= hi)%N.
Proof.
  unfold in_range. rewrite andb_true_iff, !N.leb_le. tauto.
Qed.

Lemma plain_code c :
  plain c = true -> (48 <= code c <= 57 \/ 97 <= code c <= 122)%N.
Proof.
  unfold plain. intros [H|H]%orb_true_iff; apply in_range_code in H; lia.
Qed.

Lemma plain_not_char c (x : ascii) :
  plain c = true ->
  (code x < 48 \/ 57 < code x < 97 \/ 122 < code x)%N ->
  Ascii.eqb c x = false.
Proof.
  intros Hc Hx. apply Ascii.eqb_neq. intros ->.
  apply plain_code in Hc. lia.
Qed.

Lemma plain_not_space c : plain c = true -> int_isspace c = false.
Proof.
  intros Hc. unfold int_isspace.
  rewrite (plain_not_char c " " Hc) by (vm_compute; left; reflexivity).
  apply plain_code in Hc. rewrite orb_false_r. unfold in_range.
  apply andb_false_iff. rewrite !N.leb_gt. lia.
Qed.

Lemma plain_is_ascii c : plain c = true -> is_ascii_byte c = true.
Proof.
  intros Hc%plain_code. unfold is_ascii_byte. apply N.ltb_lt. lia.
Qed.

Lemma code_ascii_of_N n : (n < 256)%N -> code (ascii_of_N n) = n.
Proof. intros H. unfold code. now apply N_ascii_embedding. Qed.

Lemma digit_char_plain d : (d < 36)%N -> plain (digit_char d) = true.
Proof.
  intros Hd. unfold plain, digit_char, in_range.
  destruct (N.ltb_spec d 10).
  - rewrite code_ascii_of_N by lia. apply orb_true_iff; left.
    apply andb_true_iff; rewrite !N.leb_le; lia.
  - rewrite code_ascii_of_N by lia. apply orb_true_iff; right.
    apply andb_true_iff; rewrite !N.leb_le; lia.
Qed.

Lemma digit_value_digit_char d :
  (d < 36)%N -> digit_value (digit_char d) = Some d.
Proof.
  intros Hd. unfold digit_value, digit_char, in_range.
  destruct (N.ltb_spec d 10).
  - rewrite code_ascii_of_N by lia.
    replace (48 <=? 48 + d)%N with true by (symmetry; apply N.leb_le; lia).
    replace (48 + d <=? 57)%N with true by (symmetry; apply N.leb_le; lia).
    simpl. f_equal. lia.
  - rewrite code_ascii_of_N by lia.
    replace (87 + d <=? 57)%N with false by (symmetry; apply N.leb_gt; lia).
    rewrite andb_false_r.
    replace (97 <=? 87 + d)%N with true by (symmetry; apply N.leb_le; lia).
    replace (87 + d <=? 122)%N with true by (symmetry; apply N.leb_le; lia).
    simpl. f_equal. lia.
Qed.

Lemma digit_char_not_underscore d :
  (d < 36)%N -> Ascii.eqb (digit_char d) "_" = false.
Proof.
  intros Hd. apply plain_not_char; [now apply digit_char_plain|].
  vm_compute. right; left. split; reflexivity.
Qed.

Section Digits.

Variable base : N.
Hypothesis base_lo : (2 <= base)%N.
Hypothesis base_hi : (base <= 36)%N.

Lemma to_digits_plain fuel : forall n acc,
  all_chars plain acc = true ->
  all_chars plain (to_digits base fuel n acc) = true.
Proof.
  induction fuel as [|fuel IH]; intros n acc Hacc; simpl; [exact Hacc|].
  assert (Hd : plain (digit_char (n mod base)) = true).
  { apply digit_char_plain.
    pose proof (N.mod_lt n base). lia. }
  destruct (n / base =? 0)%N.
  - simpl. now rewrite Hd, Hacc.
  - apply IH. simpl. now rewrite Hd, Hacc.
Qed.

Lemma int_digits_digit d s prev acc :
  (d < base)%N ->
  int_digits base (String (digit_char d) s) prev acc
  = int_digits base s true (acc * base + d)%N.
Proof.
  intros Hd. simpl.
  rewrite digit_char_not_underscore by lia.
  rewrite digit_value_digit_char by lia.
  now replace (d <? base)%N with true by (symmetry; apply N.ltb_lt; lia).
Qed.

(** Reading back the digits [to_digits] wrote. *)
Lemma int_digits_to_digits fuel : forall n tail prev,
  (n < 2 ^ N.of_nat fuel)%N -> fuel <> O ->
  int_digits base (to_digits base fuel n tail) prev 0
  = int_digits base tail true n.
Proof.
  induction fuel as [|fuel IH]; intros n tail prev Hn Hfuel; [congruence|].
  simpl to_digits.
  assert (Hmod : (n mod base < base)%N) by (apply N.mod_lt; lia).
  pose proof (N.div_mod n base ltac:(lia)) as Hdm.
  destruct (N.eqb_spec (n / base) 0) as [Hz|Hnz].
  - rewrite int_digits_digit by exact Hmod. f_equal. rewrite Hz in Hdm. lia.
  - assert (Hlt : (n / base < 2 ^ N.of_nat fuel)%N).
    { apply N.Div0.div_lt_upper_bound.
      rewrite Nat2N.inj_succ, N.pow_succ_r' in Hn.
      nia. }
    assert (Hf : fuel <> O).
    { intros ->. change (2 ^ N.of_nat 0)%N with 1%N in Hlt. apply Hnz. now apply N.lt_1_r. }
    rewrite (IH _ _ _ Hlt Hf).
    rewrite int_digits_digit by exact Hmod. f_equal. lia.
Qed.

Lemma size_nat_bound n : (n < 2 ^ N.of_nat (S (N.size_nat n)))%N.
Proof.
  destruct n as [|p]; [simpl; lia|].
  rewrite Nat2N.inj_succ, N.pow_succ_r'.
  assert (H : (N.pos p < 2 ^ N.of_nat (N.size_nat (N.pos p)))%N).
  { simpl N.size_nat. induction p as [p IH|p IH|]; simpl Pos.size_nat.
    - rewrite Nat2N.inj_succ, N.pow_succ_r'. lia.
    - rewrite Nat2N.inj_succ, N.pow_succ_r'. lia.
    - simpl. lia. }
  lia.
Qed.

Lemma int_digits_digits_of n prev :
  int_digits base (digits_of base n) prev 0 = Some n.
Proof.
  unfold digits_of.
  rewrite int_digits_to_digits; [reflexivity|apply size_nat_bound|congruence].
Qed.

Lemma digits_of_plain n : all_chars plain (digits_of base n) = true.
Proof. unfold digits_of. now apply to_digits_plain. Qed.

End Digits.


Lemma zeros_plain k : all_chars plain (zeros k) = true.
Proof. induction k as [|k IH]; simpl; [reflexivity|exact IH]. Qed.

Lemma int_digits_zeros base k : forall s prev,
  (2 <= base <= 36)%N ->
  exists prev', int_digits base (zeros k ++ s) prev 0 = int_digits base s prev' 0.
Proof.
  induction k as [|k IH]; intros s prev Hb; simpl zeros.
  - exists prev. reflexivity.
  - destruct (IH s true Hb) as [prev' Hp]. exists prev'.
    change (String "0" (zeros k) ++ s) with (String (digit_char 0) (zeros k ++ s)).
    rewrite (int_digits_digit base) by lia. exact Hp.
Qed.

Lemma int_digits_padded base k n prev :
  (2 <= base)%N -> (base <= 36)%N ->
  int_digits base (zeros k ++ digits_of base n) prev 0 = Some n.
Proof.
  intros Hlo Hhi.
  destruct (int_digits_zeros base k (digits_of base n) prev (conj Hlo Hhi))
    as [prev' ->].
  now apply int_digits_digits_of.
Qed.

Lemma lstrip_plain p s :
  all_chars (fun c => negb (p c)) s = true -> lstrip_bytes p s = s.
Proof.
  destruct s as [|c s]; simpl; [reflexivity|].
  intros [Hc _]%andb_true_iff. apply negb_true_iff in Hc. now rewrite Hc.
Qed.

Lemma rstrip_plain p s :
  all_chars (fun c => negb (p c)) s = true -> rstrip_bytes p s = s.
Proof.
  induction s as [|c s IH]; simpl; [reflexivity|].
  intros [Hc Hs]%andb_true_iff. apply negb_true_iff in Hc.
  rewrite (IH Hs), Hc. now destruct s.
Qed.

Lemma strip_plain p s :
  all_chars (fun c => negb (p c)) s = true ->
  rstrip_bytes p (lstrip_bytes p s) = s.
Proof.
  intros H. rewrite (lstrip_plain p s H). now apply rstrip_plain.
Qed.

Lemma plain_no_space s :
  all_chars plain s = true -> all_chars (fun c => negb (int_isspace c)) s = true.
Proof.
  apply all_chars_weaken. intros c Hc. now rewrite plain_not_space.
Qed.

(** ** Characters of ASCII text *)

Lemma append_cons x (a b : string) : String x a ++ b = String x (a ++ b).
Proof. reflexivity. Qed.

Lemma append_assoc (a b c : string) : (a ++ b) ++ c = a ++ (b ++ c).
Proof.
  induction a as [|x a IH]; [reflexivity|]. now rewrite !append_cons, IH.
Qed.

Lemma append_empty_r (a : string) : a ++ "" = a.
Proof.
  induction a as [|x a IH]; [reflexivity|]. now rewrite append_cons, IH.
Qed.

Lemma is_ascii_not_cont c : is_ascii_byte c = true -> is_cont c = false.
Proof.
  unfold is_ascii_byte, is_cont, in_range. intros H%N.ltb_lt.
  apply andb_false_iff. left. apply N.leb_gt. exact H.
Qed.

Lemma chars_cons_ascii c s :
  is_ascii_byte c = true -> chars (String c s) = String c "" :: chars s.
Proof. intros H. cbn [chars]. now rewrite H. Qed.



Lemma len_ascii s : is_ascii s = true -> len s = String.length s.
Proof.
  induction s as [|c s IH]; [reflexivity|]. cbn [is_ascii all_chars len String.length].
  intros [Hc Hs]%andb_true_iff. now rewrite (is_ascii_not_cont c Hc), (IH Hs).
Qed.

Lemma len_le_length s : (len s <= String.length s)%nat.
Proof.
  induction s as [|c s IH]; [reflexivity|]. cbn [len String.length].
  destruct (is_cont c); lia.
Qed.

Lemma plain_ascii s : all_chars plain s = true -> is_ascii s = true.
Proof. apply all_chars_weaken. exact plain_is_ascii. Qed.

(** ** The characters of any text *)

Lemma is_cont_not_ascii c : is_cont c = true -> is_ascii_byte c = false.
Proof.
  destruct (is_ascii_byte c) eqn:E; [|reflexivity].
  now rewrite (is_ascii_not_cont c E).
Qed.

Lemma chars_group c t r :
  is_ascii_byte c = false -> all_chars is_cont t = true ->
  starts_with_cont r = false ->
  chars (String c t ++ r) = String c t :: chars r.
Proof.
  revert c. induction t as [|d t IH]; intros c Hc Ht Hr.
  - change (String c "" ++ r) with (String c r). cbn [chars].
    now rewrite Hr, andb_false_r.
  - cbn [all_chars] in Ht. apply andb_true_iff in Ht as [Hd Ht].
    change (String c (String d t) ++ r) with (String c (String d t ++ r)).
    cbn [chars]. rewrite Hc.
    change (String d t ++ r) with (String d (t ++ r)) at 1.
    cbn [negb andb starts_with_cont]. rewrite Hd.
    now rewrite (IH d (is_cont_not_ascii d Hd) Ht Hr).
Qed.

Lemma is_group_nonempty g : is_group g = true -> g <> "".
Proof. now destruct g. Qed.

Lemma starts_with_cont_join g rest :
  is_group g = true -> starts_with_cont (join (g :: rest)) = starts_with_cont g.
Proof. destruct g as [|c t]; [discriminate|reflexivity]. Qed.

Lemma starts_with_cont_hd_join gs :
  segmented gs = true ->
  starts_with_cont (join gs) = starts_with_cont (hd "" gs).
Proof.
  destruct gs as [|g rest]; [reflexivity|]. cbn [segmented hd].
  intros [[Hg _]%andb_true_iff _]%andb_true_iff.
  now apply starts_with_cont_join.
Qed.

Lemma segmented_tail g rest : segmented (g :: rest) = true -> segmented rest = true.
Proof. cbn [segmented]. now intros [_ H]%andb_true_iff. Qed.

(** Cutting the concatenation of characters gives the characters back. *)
Lemma chars_join gs : segmented gs = true -> chars (join gs) = gs.
Proof.
  induction gs as [|g rest IH]; [reflexivity|].
  intros Hseg. pose proof (segmented_tail g rest Hseg) as Hrest.
  cbn [segmented] in Hseg.
  apply andb_true_iff in Hseg as [[Hg Hb]%andb_true_iff _].
  cbn [join]. destruct g as [|c t]; [discriminate|].
  cbn [is_group] in Hg. apply andb_true_iff in Hg as [Ht Hc].
  cbn [starts_with_ascii] in Hb.
  destruct (is_ascii_byte c) eqn:Ec.
  - cbn [negb orb] in Hc. destruct t; [|discriminate].
    change (String c "" ++ join rest) with (String c (join rest)).
    rewrite (chars_cons_ascii c _ Ec). now rewrite (IH Hrest).
  - cbn [orb] in Hb. apply negb_true_iff in Hb.
    rewrite chars_group; [now rewrite (IH Hrest)|exact Ec|exact Ht|].
    now rewrite (starts_with_cont_hd_join rest Hrest).
Qed.

Lemma starts_with_cont_chars s :
  starts_with_cont (hd "" (chars s)) = starts_with_cont s.
Proof.
  destruct s as [|c s]; [reflexivity|]. cbn [chars].
  destruct (negb (is_ascii_byte c) && starts_with_cont s); [|reflexivity].
  now destruct (chars s).
Qed.

Lemma is_group_cont g :
  is_group g = true -> starts_with_cont g = true -> all_chars is_cont g = true.
Proof.
  destruct g as [|c t]; [discriminate|]. cbn [is_group starts_with_cont all_chars].
  intros [Ht _]%andb_true_iff ->. exact Ht.
Qed.

Lemma segmented_chars s : segmented (chars s) = true.
Proof.
  induction s as [|c s IH]; [reflexivity|]. cbn [chars].
  pose proof (starts_with_cont_chars s) as Hhd.
  destruct (negb (is_ascii_byte c) && starts_with_cont s) eqn:E.
  - apply andb_true_iff in E as [Hc Hs]. apply negb_true_iff in Hc.
    destruct (chars s) as [|g gs]; [cbn in Hhd; congruence|].
    cbn [hd] in Hhd. rewrite Hs in Hhd.
    cbn [segmented] in IH |- *.
    apply andb_true_iff in IH as [[Hg Hb]%andb_true_iff Hgs].
    cbn [is_group starts_with_ascii]. rewrite Hc, (is_group_cont g Hg Hhd), Hgs.
    cbn [negb orb andb]. rewrite andb_true_r.
    destruct g as [|d t]; [discriminate|].
    cbn [starts_with_cont] in Hhd. cbn [starts_with_ascii] in Hb.
    now rewrite (is_cont_not_ascii d Hhd) in Hb.
  - cbn [segmented is_group all_chars starts_with_ascii]. rewrite IH, Hhd.
    rewrite orb_true_r, andb_true_r. cbn [andb].
    apply andb_false_iff in E as [E|E].
    + apply negb_false_iff in E. now rewrite E.
    + rewrite E. apply orb_true_r.
Qed.

Lemma segmented_drop_leading p gs :
  segmented gs = true -> segmented (drop_leading p gs) = true.
Proof.
  induction gs as [|g rest IH]; [reflexivity|]. intros H. cbn [drop_leading].
  destruct (p g); [|exact H]. apply IH. now apply segmented_tail in H.
Qed.

Lemma hd_drop_trailing {A} (p : A -> bool) d l :
  drop_trailing p l <> [] -> hd d (drop_trailing p l) = hd d l.
Proof.
  destruct l as [|x l]; [reflexivity|]. cbn [drop_trailing].
  destruct (drop_trailing p l); [|reflexivity].
  destruct (p x); [congruence|reflexivity].
Qed.

Lemma segmented_drop_trailing p gs :
  segmented gs = true -> segmented (drop_trailing p gs) = true.
Proof.
  induction gs as [|g rest IH]; [reflexivity|]. intros H.
  pose proof (IH (segmented_tail g rest H)) as Hrest.
  cbn [segmented] in H. apply andb_true_iff in H as [[Hg Hb]%andb_true_iff _].
  cbn [drop_trailing]. destruct (drop_trailing p rest) as [|y r] eqn:E.
  - destruct (p g); [reflexivity|]. cbn [segmented hd starts_with_cont].
    now rewrite Hg, orb_true_r.
  - cbn [segmented] in Hrest |- *. rewrite Hg, Hrest.
    assert (Hy : hd "" (y :: r) = hd "" rest).
    { rewrite <- E. apply hd_drop_trailing. now rewrite E. }
    rewrite Hy. now rewrite Hb.
Qed.

(** Dropping at both ends, twice. *)
Lemma length_drop_leading {A} (p : A -> bool) l :
  (length (drop_leading p l) <= length l)%nat.
Proof.
  induction l as [|x l IH]; cbn [drop_leading length]; [lia|].
  destruct (p x); cbn [length]; lia.
Qed.

Lemma drop_leading_idem {A} (p : A -> bool) l :
  drop_leading p (drop_leading p l) = drop_leading p l.
Proof.
  induction l as [|x l IH]; [reflexivity|]. cbn [drop_leading].
  destruct (p x) eqn:E; [exact IH|]. cbn [drop_leading]. now rewrite E.
Qed.

Lemma drop_trailing_idem {A} (p : A -> bool) l :
  drop_trailing p (drop_trailing p l) = drop_trailing p l.
Proof.
  induction l as [|x l IH]; [reflexivity|]. cbn [drop_trailing].
  destruct (drop_trailing p l) as [|y r] eqn:E.
  - destruct (p x) eqn:Ex; cbn [drop_trailing]; [reflexivity|now rewrite Ex].
  - cbn [drop_trailing]. cbn [drop_trailing] in IH. now rewrite IH.
Qed.

Lemma drop_leading_trailing {A} (p : A -> bool) t :
  drop_leading p t = t -> drop_leading p (drop_trailing p t) = drop_trailing p t.
Proof.
  destruct t as [|x t]; [reflexivity|]. cbn [drop_leading].
  destruct (p x) eqn:Ex.
  - intros H. pose proof (length_drop_leading p t) as Hl. rewrite H in Hl.
    cbn [length] in Hl. lia.
  - intros _. cbn [drop_trailing].
    destruct (drop_trailing p t); rewrite ?Ex; cbn [drop_leading]; now rewrite Ex.
Qed.

Lemma drop_both_idem {A} (p : A -> bool) l :
  drop_trailing p (drop_leading p (drop_trailing p (drop_leading p l)))
  = drop_trailing p (drop_leading p l).
Proof.
  rewrite (drop_leading_trailing p (drop_leading p l)) by apply drop_leading_idem.
  apply drop_trailing_idem.
Qed.



Section Unicode.

Context {U : Unicode}.

(** [strip] is idempotent. *)
Lemma strip_idem s : strip (strip s) = strip s.
Proof.
  unfold strip. rewrite chars_join.
  - now rewrite drop_both_idem.
  - apply segmented_drop_trailing, segmented_drop_leading, segmented_chars.
Qed.

Lemma to_ascii_chars s : is_ascii s = true -> to_ascii (chars s) = s.
Proof.
  induction s as [|c s IH]; [reflexivity|]. cbn [is_ascii all_chars].
  intros [Hc Hs]%andb_true_iff. rewrite (chars_cons_ascii c s Hc).
  cbn [to_ascii ascii_of_char]. now rewrite Hc, (IH Hs).
Qed.

Lemma int_of_str_ascii base s :
  is_ascii s = true -> int_of_str base s = int_of_ascii base s.
Proof. intros H. unfold int_of_str. now rewrite to_ascii_chars. Qed.

(** On ASCII text the built-ins are the byte-wise ones. *)
Lemma isdigit_ascii s :
  is_ascii s = true ->
  isdigit s = match s with "" => false | _ => all_chars is_digit_char s end.
Proof.
  intros Hs. unfold isdigit. destruct s as [|c0 s0]; [reflexivity|].
  revert Hs. generalize (String c0 s0). clear c0 s0.
  induction s as [|c s IH]; [reflexivity|]. cbn [is_ascii all_chars].
  intros [Hc Hs]%andb_true_iff. rewrite (chars_cons_ascii c s Hc).
  cbn [forallb]. rewrite (IH Hs). unfold char_isdigit, ascii_of_char.
  now rewrite Hc.
Qed.

Lemma upper_ascii_eq s : is_ascii s = true -> upper s = upper_ascii s.
Proof.
  unfold upper, upper_ascii.
  induction s as [|c s IH]; [reflexivity|]. cbn [is_ascii all_chars].
  intros [Hc Hs]%andb_true_iff. rewrite (chars_cons_ascii c s Hc).
  cbn [map join map_bytes]. rewrite (IH Hs). unfold char_upper, ascii_of_char.
  now rewrite Hc.
Qed.



Lemma lower_ascii_eq s : is_ascii s = true -> lower s = lower_ascii s.
Proof. intros H. unfold lower. now rewrite H. Qed.

(** ** Changing ASCII bytes only *)

Section ByteMap.

Variable f : ascii -> ascii.
Hypothesis f_ascii : forall c, is_ascii_byte (f c) = is_ascii_byte c.
Hypothesis f_other : forall c, is_ascii_byte c = false -> f c = c.
Hypothesis f_digit : forall c, is_digit_char (f c) = is_digit_char c.
Hypothesis f_upper : forall c, upper_char (f c) = upper_char c.

Lemma f_cont c : is_cont (f c) = is_cont c.
Proof.
  destruct (is_ascii_byte c) eqn:E.
  - rewrite (is_ascii_not_cont c E). apply is_ascii_not_cont. now rewrite f_ascii.
  - now rewrite (f_other c E).
Qed.

Lemma len_map_bytes s : len (map_bytes f s) = len s.
Proof.
  induction s as [|c s IH]; [reflexivity|]. cbn [map_bytes len].
  now rewrite f_cont, IH.
Qed.

Lemma starts_with_cont_map_bytes s :
  starts_with_cont (map_bytes f s) = starts_with_cont s.
Proof. destruct s as [|c s]; [reflexivity|]. cbn. apply f_cont. Qed.

Lemma chars_map_bytes s : chars (map_bytes f s) = map (map_bytes f) (chars s).
Proof.
  induction s as [|c s IH]; [reflexivity|]. cbn [map_bytes chars].
  rewrite f_ascii, starts_with_cont_map_bytes, IH.
  destruct (negb (is_ascii_byte c) && starts_with_cont s); [|reflexivity].
  now destruct (chars s).
Qed.

Lemma map_bytes_other s :
  all_chars (fun c => negb (is_ascii_byte c)) s = true -> map_bytes f s = s.
Proof.
  induction s as [|c s IH]; [reflexivity|]. cbn [all_chars map_bytes].
  intros [Hc Hs]%andb_true_iff. apply negb_true_iff in Hc.
  now rewrite (f_other c Hc), (IH Hs).
Qed.

Lemma cont_not_ascii s :
  all_chars is_cont s = true -> all_chars (fun c => negb (is_ascii_byte c)) s = true.
Proof.
  apply all_chars_weaken. intros c Hc. now rewrite (is_cont_not_ascii c Hc).
Qed.

(** A character of several bytes is left alone; an ASCII character stays
    one. *)
Lemma map_bytes_group g :
  is_group g = true ->
  (exists a, g = String a "" /\ is_ascii_byte a = true)
  \/ (ascii_of_char g = None /\ map_bytes f g = g).
Proof.
  destruct g as [|a t]; [discriminate|]. cbn [is_group].
  intros [Ht Ha]%andb_true_iff.
  destruct (is_ascii_byte a) eqn:E.
  - left. exists a. cbn [negb orb] in Ha. destruct t; [auto|discriminate].
  - right. split.
    + cbn [ascii_of_char]. rewrite E. now destruct t.
    + cbn [map_bytes]. now rewrite (f_other a E), (map_bytes_other t (cont_not_ascii t Ht)).
Qed.

Lemma forallb_is_group gs : segmented gs = true -> forallb is_group gs = true.
Proof.
  induction gs as [|g rest IH]; [reflexivity|]. intros H.
  pose proof (IH (segmented_tail g rest H)) as Hrest. cbn [segmented] in H.
  apply andb_true_iff in H as [[Hg _]%andb_true_iff _].
  cbn [forallb]. now rewrite Hg, Hrest.
Qed.

Lemma char_isdigit_map_bytes g :
  is_group g = true -> char_isdigit (map_bytes f g) = char_isdigit g.
Proof.
  intros [(a & -> & Ha)|[Hnone ->]]%map_bytes_group; [|reflexivity].
  unfold char_isdigit. cbn [map_bytes ascii_of_char]. now rewrite f_ascii, Ha, f_digit.
Qed.

Lemma char_upper_map_bytes g :
  is_group g = true -> char_upper (map_bytes f g) = char_upper g.
Proof.
  intros [(a & -> & Ha)|[Hnone ->]]%map_bytes_group; [|reflexivity].
  unfold char_upper. cbn [map_bytes ascii_of_char]. now rewrite f_ascii, Ha, f_upper.
Qed.

Lemma isdigit_map_bytes s : isdigit (map_bytes f s) = isdigit s.
Proof.
  unfold isdigit. rewrite chars_map_bytes.
  pose proof (forallb_is_group _ (segmented_chars s)) as Hg.
  assert (H : forallb char_isdigit (map (map_bytes f) (chars s))
              = forallb char_isdigit (chars s)).
  { induction (chars s) as [|g gs IH]; [reflexivity|]. cbn [forallb map] in *.
    apply andb_true_iff in Hg as [Hg Hgs].
    now rewrite (char_isdigit_map_bytes g Hg), (IH Hgs). }
  rewrite H. now destruct s.
Qed.

Lemma upper_map_bytes s : upper (map_bytes f s) = upper s.
Proof.
  unfold upper. rewrite chars_map_bytes.
  pose proof (forallb_is_group _ (segmented_chars s)) as Hg.
  induction (chars s) as [|g gs IH]; [reflexivity|]. cbn [forallb map join] in *.
  apply andb_true_iff in Hg as [Hg Hgs].
  now rewrite (char_upper_map_bytes g Hg), (IH Hgs).
Qed.

End ByteMap.

Lemma upper_char_facts c :
  is_ascii_byte (upper_char c) = is_ascii_byte c
  /\ (is_ascii_byte c = false -> upper_char c = c)
  /\ is_digit_char (upper_char c) = is_digit_char c
  /\ upper_char (upper_char c) = upper_char c.
Proof.
  destruct c as [[] [] [] [] [] [] [] []]; vm_compute; repeat split; congruence.
Qed.

Lemma lower_char_facts c :
  is_ascii_byte (lower_char c) = is_ascii_byte c
  /\ (is_ascii_byte c = false -> lower_char c = c)
  /\ is_digit_char (lower_char c) = is_digit_char c
  /\ upper_char (lower_char c) = upper_char c.
Proof.
  destruct c as [[] [] [] [] [] [] [] []]; vm_compute; repeat split; congruence.
Qed.

End Unicode.

Lemma plain_no_sep (sep : ascii) s :
  (code sep < 48 \/ 57 < code sep < 97 \/ 122 < code sep)%N ->
  all_chars plain s = true -> all_chars (not_sep sep) s = true.
Proof.
  intros Hsep. apply all_chars_weaken. intros c Hc.
  unfold not_sep. now rewrite (plain_not_char c sep Hc Hsep).
Qed.

Lemma int_unsigned_0x s :
  all_chars plain s = true ->
  int_unsigned 16 (String "0" (String "x" s)) = int_digits 16 s false 0.
Proof.
  intros Hs. unfold int_unsigned.
  change (Ascii.eqb "0" "0" && (16 =? 16)%N && (Ascii.eqb "x" "x" || Ascii.eqb "x" "X"))
    with true. cbv iota.
  destruct s as [|u s]; [reflexivity|].
  simpl in Hs. apply andb_true_iff in Hs as [Hu _].
  rewrite (plain_not_char u "_" Hu); [reflexivity|].
  vm_compute. right; left. split; reflexivity.
Qed.

Lemma int_unsigned_10 s : int_unsigned 10 s = int_digits 10 s false 0.
Proof.
  unfold int_unsigned. destruct s as [|z [|x s]]; try reflexivity.
  change (10 =? 16)%N with false. now rewrite andb_false_r.
Qed.

(** Hexadecimal: what [format(z, '#06x')] writes, [int(_, 16)] reads. *)
Lemma int_of_ascii_format_hash06x z : int_of_ascii 16 (format_hash06x z) = Some z.
Proof.
  unfold format_hash06x, sign_of.
  set (k := (6 - _)%nat). clearbody k.
  assert (Hbody : all_chars plain (zeros k ++ digits_of 16 (Z.abs_N z)) = true).
  { rewrite all_chars_app, zeros_plain. simpl. apply digits_of_plain; lia. }
  unfold int_of_ascii.
  destruct (Z.ltb_spec z 0) as [Hneg|Hpos].
  - change ("-" ++ "0x" ++ zeros k ++ digits_of 16 (Z.abs_N z))
      with (String "-" (String "0" (String "x" (zeros k ++ digits_of 16 (Z.abs_N z))))).
    rewrite strip_plain.
    2:{ simpl. apply plain_no_space in Hbody. exact Hbody. }
    change (Ascii.eqb "-" "-") with true. cbv iota.
    rewrite (int_unsigned_0x _ Hbody), int_digits_padded by lia.
    simpl. f_equal. rewrite N2Z.inj_abs_N. lia.
  - change ("" ++ "0x" ++ zeros k ++ digits_of 16 (Z.abs_N z))
      with (String "0" (String "x" (zeros k ++ digits_of 16 (Z.abs_N z)))).
    rewrite strip_plain.
    2:{ simpl. apply plain_no_space in Hbody. exact Hbody. }
    change (Ascii.eqb "0" "-") with false. change (Ascii.eqb "0" "+") with false.
    cbv iota.
    rewrite (int_unsigned_0x _ Hbody), int_digits_padded by lia.
    simpl. f_equal. rewrite N2Z.inj_abs_N. lia.
Qed.

(** Decimal: what [str(z)] writes, [int(_)] reads. *)
Lemma int_of_ascii_str_of_int z : int_of_ascii 10 (str_of_int z) = Some z.
Proof.
  unfold str_of_int, sign_of.
  assert (Hbody : all_chars plain (digits_of 10 (Z.abs_N z)) = true)
    by (apply digits_of_plain; lia).
  assert (Hread : int_digits 10 (digits_of 10 (Z.abs_N z)) false 0 = Some (Z.abs_N z))
    by (apply int_digits_digits_of; lia).
  unfold int_of_ascii.
  destruct (Z.ltb_spec z 0) as [Hneg|Hpos].
  - change ("-" ++ digits_of 10 (Z.abs_N z))
      with (String "-" (digits_of 10 (Z.abs_N z))).
    rewrite strip_plain.
    2:{ simpl. apply plain_no_space in Hbody. exact Hbody. }
    change (Ascii.eqb "-" "-") with true. cbv iota.
    rewrite int_unsigned_10, Hread.
    simpl. f_equal. rewrite N2Z.inj_abs_N. lia.
  - change ("" ++ digits_of 10 (Z.abs_N z)) with (digits_of 10 (Z.abs_N z)).
    rewrite strip_plain by now apply plain_no_space.
    destruct (digits_of 10 (Z.abs_N z)) as [|c s] eqn:Hd; [discriminate Hread|].
    simpl in Hbody. apply andb_true_iff in Hbody as [Hc _].
    rewrite (plain_not_char c "-" Hc) by (vm_compute; left; reflexivity).
    rewrite (plain_not_char c "+" Hc) by (vm_compute; left; reflexivity).
    rewrite int_unsigned_10, Hread.
    simpl. f_equal. rewrite N2Z.inj_abs_N. lia.
Qed.

Lemma format_hash06x_plain z :
  all_chars (not_sep ":") (format_hash06x z) = true.
Proof.
  unfold format_hash06x, sign_of.
  set (k := (6 - _)%nat). clearbody k.
  rewrite !all_chars_app.
  assert (H1 : all_chars (not_sep ":") (zeros k) = true).
  { apply plain_no_sep; [vm_compute; right; left; split; reflexivity|].
    apply zeros_plain. }
  assert (H2 : all_chars (not_sep ":") (digits_of 16 (Z.abs_N z)) = true).
  { apply plain_no_sep; [vm_compute; right; left; split; reflexivity|].
    apply digits_of_plain; lia. }
  rewrite H1, H2. now destruct (z <? 0)%Z.
Qed.

Lemma str_of_int_plain z :
  all_chars (not_sep ":") (str_of_int z) = true.
Proof.
  unfold str_of_int, sign_of. rewrite all_chars_app.
  assert (H2 : all_chars (not_sep ":") (digits_of 10 (Z.abs_N z)) = true).
  { apply plain_no_sep; [vm_compute; right; left; split; reflexivity|].
    apply digits_of_plain; lia. }
  rewrite H2. now destruct (z <? 0)%Z.
Qed.

(** Splitting at a separator. *)
Lemma partition_none sep s :
  all_chars (not_sep sep) s = true -> partition sep s = None.
Proof.
  induction s as [|c s IH]; simpl; [reflexivity|].
  intros [Hc Hs]%andb_true_iff. unfold not_sep in Hc.
  apply negb_true_iff in Hc. now rewrite Hc, (IH Hs).
Qed.

Lemma rpartition_none sep s :
  all_chars (not_sep sep) s = true -> rpartition sep s = None.
Proof.
  induction s as [|c s IH]; simpl; [reflexivity|].
  intros [Hc Hs]%andb_true_iff. unfold not_sep in Hc.
  apply negb_true_iff in Hc. now rewrite Hc, (IH Hs).
Qed.

Lemma rpartition_last sep a b :
  all_chars (not_sep sep) b = true ->
  rpartition sep (a ++ String sep b) = Some (a, b).
Proof.
  intros Hb. induction a as [|c a IH]; simpl.
  - now rewrite (rpartition_none sep b Hb), Ascii.eqb_refl.
  - now rewrite IH.
Qed.

Lemma split_none sep s :
  all_chars (not_sep sep) s = true -> split sep s = [s].
Proof.
  induction s as [|c s IH]; simpl; [reflexivity|].
  intros [Hc Hs]%andb_true_iff. unfold not_sep in Hc.
  apply negb_true_iff in Hc. now rewrite Hc, (IH Hs).
Qed.

Lemma split_two sep a b :
  all_chars (not_sep sep) a = true ->
  all_chars (not_sep sep) b = true ->
  split sep (a ++ String sep b) = [a; b].
Proof.
  intros Ha Hb. induction a as [|c a IH]; simpl.
  - now rewrite Ascii.eqb_refl, (split_none sep b Hb).
  - simpl in Ha. apply andb_true_iff in Ha as [Hc Ha]. unfold not_sep in Hc.
    apply negb_true_iff in Hc. now rewrite Hc, (IH Ha).
Qed.

Lemma format_hash06x_ascii z : is_ascii (format_hash06x z) = true.
Proof.
  unfold format_hash06x, sign_of, is_ascii.
  set (k := (6 - _)%nat). clearbody k.
  rewrite !all_chars_app.
  fold (is_ascii (zeros k)). fold (is_ascii (digits_of 16 (Z.abs_N z))).
  rewrite (plain_ascii _ (zeros_plain k)).
  rewrite (plain_ascii _ (digits_of_plain 16 ltac:(lia) ltac:(lia) (Z.abs_N z))).
  now destruct (z <? 0)%Z.
Qed.

Lemma str_of_int_ascii z : is_ascii (str_of_int z) = true.
Proof.
  unfold str_of_int, sign_of, is_ascii. rewrite all_chars_app.
  fold (is_ascii (digits_of 10 (Z.abs_N z))).
  rewrite (plain_ascii _ (digits_of_plain 10 ltac:(lia) ltac:(lia) (Z.abs_N z))).
  now destruct (z <? 0)%Z.
Qed.

Section Reading.

Context {U : Unicode}.

(** Hexadecimal: what [format(z, '#06x')] writes, [int(_, 16)] reads. *)
Lemma int_of_str_format_hash06x z : int_of_str 16 (format_hash06x z) = Some z.
Proof.
  rewrite int_of_str_ascii by apply format_hash06x_ascii.
  apply int_of_ascii_format_hash06x.
Qed.

(** Decimal: what [str(z)] writes, [int(_)] reads. *)
Lemma int_of_str_str_of_int z : int_of_str 10 (str_of_int z) = Some z.
Proof.
  rewrite int_of_str_ascii by apply str_of_int_ascii.
  apply int_of_ascii_str_of_int.
Qed.

End Reading.

End PyStrFacts.

(* ===================================================================== *)
(** * Printer ids *)
(* ===================================================================== *)

Module DiscoveryFacts.
Import PyStr PyStrFacts Discovery.

Section Ids.

Context {U : Unicode}.

Lemma parse_usb v p :
  parse_printer_id (usb_printer_id v p) = Ok ("usb", UsbParams v p).
Proof.
  unfold parse_printer_id, usb_printer_id.
  change (split1 ":" ("usb:" ++ format_hash06x v ++ ":" ++ format_hash06x p))
    with ["usb"; format_hash06x v ++ String ":" (format_hash06x p)].
  cbv beta iota delta [hd]. change (String.eqb "usb" "usb") with true. cbv iota.
  rewrite split_two by apply format_hash06x_plain.
  now rewrite !int_of_str_format_hash06x.
Qed.

Lemma parse_network host port :
  parse_printer_id (network_printer_id host port)
  = Ok ("network", NetworkParams host port).
Proof.
  unfold parse_printer_id, network_printer_id.
  change (split1 ":" ("network:" ++ host ++ ":" ++ str_of_int port))
    with ["network"; host ++ String ":" (str_of_int port)].
  cbv beta iota delta [hd].
  change (String.eqb "network" "usb") with false.
  change (String.eqb "network" "network") with true. cbv iota.
  unfold rsplit1. rewrite rpartition_last by apply str_of_int_plain.
  now rewrite int_of_str_str_of_int.
Qed.

Lemma parse_bluetooth address :
  parse_printer_id (bluetooth_printer_id address)
  = Ok ("bluetooth", BluetoothParams address).
Proof. reflexivity. Qed.

(** Parsing undoes serialization, for all connection parameters. *)
Lemma parse_serialize (q : string * conn_params) :
  parse_printer_id (serialize_printer_id q) = Ok (ptype_of (snd q), snd q).
Proof.
  destruct q as [t [v p|host port|address]]; simpl.
  - apply parse_usb.
  - apply parse_network.
  - apply parse_bluetooth.
Qed.

(** Every discovered info carries an id written from connection parameters
    of its own transport. *)
Lemma discover_usb_ids devices p :
  In p (discover_usb devices) ->
  exists q, pi_id p = serialize_printer_id q /\ pi_type p = ptype_of (snd q).
Proof.
  induction devices as [|d rest IH]; cbn [discover_usb]; [intros []|].
  destruct (vendor_get (idVendor d) KNOWN_PRINTER_VENDORS); [|exact IH].
  intros [<-|Hin]; [|auto].
  exists ("usb", UsbParams (idVendor d) (idProduct d)). split; reflexivity.
Qed.

Lemma discover_mdns_ids found p :
  In p (discover_mdns found) ->
  exists q, pi_id p = serialize_printer_id q /\ pi_type p = ptype_of (snd q).
Proof.
  induction found as [|info rest IH]; cbn [discover_mdns]; [intros []|].
  destruct (parsed_addresses info) as [|ip ips]; [exact IH|].
  intros [<-|Hin]; [|auto].
  eexists ("network", NetworkParams ip _). split; reflexivity.
Qed.

Lemma scan_ports_ids open_ips port : forall printers p,
  In p (scan_ports open_ips port printers) ->
  In p printers \/
  exists q, pi_id p = serialize_printer_id q /\ pi_type p = ptype_of (snd q).
Proof.
  induction open_ips as [|ip rest IH]; intros printers p; cbn [scan_ports]; [tauto|].
  destruct (existsb _ printers); [apply IH|].
  intros [Hin|Hq]%IH; [|now right].
  apply in_app_or in Hin as [Hin|[<-|[]]]; [now left|right].
  exists ("network", NetworkParams ip port). split; reflexivity.
Qed.

Lemma discover_bluetooth_ids devices p :
  In p (discover_bluetooth devices) ->
  exists q, pi_id p = serialize_printer_id q /\ pi_type p = ptype_of (snd q).
Proof.
  induction devices as [|d rest IH]; cbn [discover_bluetooth]; [intros []|].
  destruct (existsb _ printer_keywords); [|exact IH].
  intros [<-|Hin]; [|auto].
  exists ("bluetooth", BluetoothParams (ble_address d)). split; reflexivity.
Qed.

Lemma discovered_ids p :
  discovered p ->
  exists q, pi_id p = serialize_printer_id q /\ pi_type p = ptype_of (snd q).
Proof.
  intros [devices H|found H|found open_ips port H|devices H].
  - eapply discover_usb_ids; eauto.
  - eapply discover_mdns_ids; eauto.
  - unfold discover_network in H. apply scan_ports_ids in H as [H|H]; [|exact H].
    eapply discover_mdns_ids; eauto.
  - eapply discover_bluetooth_ids; eauto.
Qed.

Lemma contains_colon_false s :
  contains ":" s = false -> all_chars (not_sep ":") s = true.
Proof.
  induction s as [|c s IH]; simpl; [reflexivity|].
  intros [Hp Hs]%orb_false_iff. rewrite (IH Hs), andb_true_r.
  unfold not_sep. destruct (Ascii.eqb_spec c ":") as [->|Hne]; [|reflexivity].
  simpl in Hp. destruct s; discriminate Hp.
Qed.

(** C1: every printer id written by the discovery functions parses, with
    the transport of its printer info, to connection parameters that
    serialize back to the identical id; the parse is lossless, as any
    parameters that serialize to this id are the parsed ones. *)
Theorem printer_id_roundtrip (p : printer_info) :
  discovered p ->
  exists params,
    parse_printer_id (pi_id p) = Ok (pi_type p, params)
    /\ serialize_printer_id (pi_type p, params) = pi_id p
    /\ forall q, serialize_printer_id q = pi_id p -> snd q = params.
Proof.
  intros [[t params] [Hid Htype]]%discovered_ids. simpl in Htype.
  exists params. rewrite Hid, Htype. split; [|split].
  - apply (parse_serialize (t, params)).
  - reflexivity.
  - intros q Hq. pose proof (parse_serialize q) as H1.
    pose proof (parse_serialize (t, params)) as H2.
    rewrite Hq in H1. rewrite H1 in H2. simpl in H2. congruence.
Qed.


(** C10: an id [network:<host>] whose host has no colon and that has no
    port component parses to transport [network] with port 9100. *)
Theorem parse_network_default_port (host : string) :
  contains ":" host = false ->
  parse_printer_id ("network:" ++ host)
  = Ok ("network", NetworkParams host 9100).
Proof.
  intros Hhost%contains_colon_false.
  unfold parse_printer_id.
  change (split1 ":" ("network:" ++ host)) with ["network"; host].
  cbv beta iota delta [hd].
  change (String.eqb "network" "usb") with false.
  change (String.eqb "network" "network") with true. cbv iota.
  unfold rsplit1. now rewrite (rpartition_none ":" host Hhost).
Qed.


Example parse_usb_doc :
  parse_printer_id "usb:0x04b8:0x0202"
  = Ok ("usb", UsbParams 0x04b8 0x0202).
Proof. reflexivity. Qed.

Example parse_network_doc :
  parse_printer_id "network:192.168.1.100:9100"
  = Ok ("network", NetworkParams "192.168.1.100" 9100).
Proof. reflexivity. Qed.

Example parse_bluetooth_doc :
  parse_printer_id "bluetooth:AA:BB:CC:DD:EE:FF"
  = Ok ("bluetooth", BluetoothParams "AA:BB:CC:DD:EE:FF").
Proof. reflexivity. Qed.

Example parse_unknown_type :
  parse_printer_id "serial:COM1" = ValueError (unknown_printer_type "serial")
  /\ unknown_printer_type_text "serial" = "Unknown printer type: serial".
Proof. split; reflexivity. Qed.

Example parse_usb_short :
  parse_printer_id "usb:0x04b8" = ValueError (unpack_error 1).
Proof. reflexivity. Qed.

Example parse_network_bad_port :
  parse_printer_id "network:printer.local:raw" = ValueError (int_error 10 "raw").
Proof. reflexivity. Qed.

Example parse_network_ipv6 :
  parse_printer_id "network:fe80::1:9100" = Ok ("network", NetworkParams "fe80::1" 9100).
Proof. reflexivity. Qed.

Example int_underscore : int_of_str 16 " 0x_04_b8 " = Some 0x04b8%Z.
Proof. reflexivity. Qed.

(** [int] does not skip the separators FS..US, which [str.strip] removes. *)
Example int_separator :
  int_of_str 10 (String (ascii_of_N 28) "9100") = None
  /\ strip (String (ascii_of_N 28) "9100") = "9100".
Proof. split; reflexivity. Qed.

Example int_bad_underscore : int_of_str 10 "91__00" = None.
Proof. reflexivity. Qed.

Example format_usb_epson :
  usb_printer_id 0x04b8 0x0202 = "usb:0x04b8:0x0202".
Proof. reflexivity. Qed.

Example format_hex_small : format_hash06x 255 = "0x00ff".
Proof. reflexivity. Qed.

Example format_hex_neg : format_hash06x (-255) = "-0x0ff".
Proof. reflexivity. Qed.

Example format_hex_wide : format_hash06x 0x12345 = "0x12345".
Proof. reflexivity. Qed.

Example str_of_int_9100 : str_of_int 9100 = "9100".
Proof. reflexivity. Qed.

End Ids.

#[local] Existing Instance ascii_only.

Lemma printer_id_roundtrip_witness :
  exists params,
    parse_printer_id "usb:0x04b8:0x0202" = Ok ("usb", params)
    /\ serialize_printer_id ("usb", params) = "usb:0x04b8:0x0202"
    /\ forall q, serialize_printer_id q = "usb:0x04b8:0x0202" -> snd q = params.
Proof.
  apply (printer_id_roundtrip
           (mk_printer_info "usb:0x04b8:0x0202" "Epson Printer" "usb" "ready")).
  apply (by_usb _ [UsbDevice 0x04b8 0x0202 None]).
  simpl. left. reflexivity.
Defined.

Lemma parse_network_default_port_witness :
  contains ":" "192.168.1.100" = false
  /\ parse_printer_id "network:192.168.1.100"
     = Ok ("network", NetworkParams "192.168.1.100" 9100).
Proof.
  split; [reflexivity|].
  apply (parse_network_default_port "192.168.1.100"). reflexivity.
Defined.

End DiscoveryFacts.

(* ===================================================================== *)
(** * The scan detector *)
(* ===================================================================== *)

Module ScannerFacts.
Import PyStr PyStrFacts Eff Scanner.

Lemma Qgtb_lt a b : Qgtb a b = true <-> (b < a)%Q.
Proof.
  unfold Qgtb. rewrite negb_true_iff. split.
  - intros H. apply Qnot_le_lt. intros Hle.
    apply Qle_bool_iff in Hle. congruence.
  - intros H. destruct (Qle_bool a b) eqn:E; [|reflexivity].
    apply Qle_bool_iff in E. exfalso. now apply (Qlt_not_le b a).
Qed.

Lemma Qgtb_le a b : Qgtb a b = false <-> (a <= b)%Q.
Proof.
  unfold Qgtb. rewrite negb_false_iff. apply Qle_bool_iff.
Qed.

Lemma nonempty_true s : s <> "" -> nonempty s = true.
Proof. now destruct s. Qed.

Section Detector.

Context {U : Unicode}.

Lemma digit_kind_spec value :
  digit_kind value =
    let n := len value in
    if isdigit value && (n =? 13)%nat then Some "EAN13"
    else if isdigit value && (n =? 8)%nat then Some "EAN8"
    else if isdigit value && (n =? 12)%nat then Some "UPC-A"
    else if isdigit value && (n =? 14)%nat then Some "GTIN-14"
    else None.
Proof. unfold digit_kind. destruct (isdigit value); reflexivity. Qed.

Lemma detect_classify_spec value : _detect_barcode_type value = classify_spec value.
Proof.
  unfold _detect_barcode_type, classify_spec. rewrite digit_kind_spec.
  cbv zeta.
  destruct (isdigit value && (len value =? 13)%nat); [reflexivity|].
  destruct (isdigit value && (len value =? 8)%nat); [reflexivity|].
  destruct (isdigit value && (len value =? 12)%nat); [reflexivity|].
  destruct (isdigit value && (len value =? 14)%nat); [reflexivity|].
  now rewrite andb_comm.
Qed.

Lemma detect_in_kinds value : In (_detect_barcode_type value) BARCODE_KINDS.
Proof.
  rewrite detect_classify_spec. unfold classify_spec, BARCODE_KINDS. cbv zeta.
  repeat match goal with
         | |- In (if ?b then _ else _) _ => destruct b
         end; simpl; tauto.
Qed.

(** C2: the classifier is a total function of the string alone, whatever
    its characters; it agrees on every string with the rules of the
    specification (digits of length 13, 8, 12, 14; else the upper-cased
    characters in the Code 39 alphabet and at most 43 characters; else
    Code 128), its value is always one of the six kinds, and the two
    sample codes are classified as EAN13 and CODE39. *)
Theorem detect_barcode_type_rules (value : string) :
  _detect_barcode_type value = classify_spec value
  /\ In (_detect_barcode_type value) BARCODE_KINDS
  /\ _detect_barcode_type "5901234123457" = "EAN13"
  /\ _detect_barcode_type "AB-12.34" = "CODE39".
Proof.
  split; [apply detect_classify_spec|].
  split; [apply detect_in_kinds|split; reflexivity].
Qed.

(** The rules one by one. *)
Corollary detect_digits value kind :
  isdigit value = true ->
  In (len value, kind) [(13, "EAN13"); (8, "EAN8"); (12, "UPC-A"); (14, "GTIN-14")]
  -> _detect_barcode_type value = kind.
Proof.
  intros Hd Hin. rewrite detect_classify_spec.
  unfold classify_spec. rewrite Hd. cbv zeta.
  simpl in Hin.
  destruct Hin as [H|[H|[H|[H|[]]]]]; injection H as Hlen <-; now rewrite <- Hlen.
Qed.

Corollary detect_code39 value :
  digit_kind value = None ->
  (len value <= 43)%nat ->
  all_chars (fun c => char_in c CODE39_ALPHABET) (upper value) = true ->
  _detect_barcode_type value = "CODE39".
Proof.
  intros Hk Hlen Hall. unfold _detect_barcode_type. rewrite Hk, Hall.
  now destruct (Nat.leb_spec (len value) 43); [|lia].
Qed.

Corollary detect_code128 value :
  digit_kind value = None ->
  (43 < len value)%nat
  \/ all_chars (fun c => char_in c CODE39_ALPHABET) (upper value) = false ->
  _detect_barcode_type value = "CODE128".
Proof.
  intros Hk H. unfold _detect_barcode_type. rewrite Hk.
  destruct H as [Hlen| ->].
  - now destruct (Nat.leb_spec (len value) 43); [lia|].
  - now rewrite andb_false_r.
Qed.

Example detect_lower_case : _detect_barcode_type "ab-12.34" = "CODE39".
Proof. reflexivity. Qed.

Example detect_nine_digits : _detect_barcode_type "123456789" = "CODE39".
Proof. reflexivity. Qed.

Example detect_fallback : _detect_barcode_type "A_1" = "CODE128".
Proof. reflexivity. Qed.

Example detect_long : _detect_barcode_type (zeros 44) = "CODE128".
Proof. reflexivity. Qed.

(** Outside ASCII the database decides.  The sharp s, whose upper case is
    [SS], is a Code 39 value; eight Arabic-Indic digits are an EAN8. *)
Example detect_sharp_s :
  let sharp_s := String (ascii_of_N 195) (String (ascii_of_N 159) "") in
  unicode_upper sharp_s = "SS" -> unicode_isdigit sharp_s = false ->
  _detect_barcode_type sharp_s = "CODE39".
Proof.
  intros sharp_s Hupper Hdigit.
  unfold _detect_barcode_type, digit_kind, isdigit, upper.
  change (chars sharp_s) with [sharp_s].
  cbn [forallb map join]. unfold char_isdigit, char_upper.
  change (ascii_of_char sharp_s) with (@None ascii).
  now rewrite Hdigit, Hupper.
Qed.

Example detect_arabic_indic_digits :
  let three := String (ascii_of_N 217) (String (ascii_of_N 163) "") in
  let value := three ++ three ++ three ++ three ++ three ++ three ++ three ++ three in
  unicode_isdigit three = true ->
  len value = 8%nat /\ _detect_barcode_type value = "EAN8".
Proof.
  intros three value Hdigit. split; [reflexivity|].
  unfold _detect_barcode_type, digit_kind, isdigit.
  change (chars value) with [three; three; three; three; three; three; three; three].
  cbn [forallb]. unfold char_isdigit.
  change (ascii_of_char three) with (@None ascii).
  now rewrite Hdigit.
Qed.

(** Five superscript twos are digits for [str.isdigit], of no digit-only
    length, and not in the Code 39 alphabet. *)
Example detect_superscript_digits :
  let two := String (ascii_of_N 194) (String (ascii_of_N 178) "") in
  let value := two ++ two ++ two ++ two ++ two in
  unicode_isdigit two = true -> unicode_upper two = two ->
  isdigit value = true /\ len value = 5%nat
  /\ _detect_barcode_type value = "CODE128".
Proof.
  intros two value Hdigit Hupper.
  assert (Hd : isdigit value = true).
  { unfold isdigit. change (chars value) with [two; two; two; two; two].
    cbn [forallb]. unfold char_isdigit.
    change (ascii_of_char two) with (@None ascii). now rewrite Hdigit. }
  split; [exact Hd|]. split; [reflexivity|].
  unfold _detect_barcode_type, digit_kind. rewrite Hd.
  change (len value) with 5%nat. cbn [Nat.eqb Nat.leb andb].
  unfold upper. change (chars value) with [two; two; two; two; two].
  cbn [map join]. unfold char_upper.
  change (ascii_of_char two) with (@None ascii). rewrite Hupper. reflexivity.
Qed.

Variable callback : list (string * string) -> string -> string -> option string.

(** [_on_char] in terms of the buffer that survives the timeout check. *)
Lemma on_char_unfold self calls now char :
  _on_char callback now char (self, calls) =
    let kept := if nonempty (_buffer self)
                   && Qgtb (now - _last_keystroke_time self) (_timeout self)
                then "" else _buffer self in
    let barcode := strip kept in
    let barcode_type := _detect_barcode_type barcode in
    if is_terminator char then
      if (4 <=? len kept)%nat then
        match callback calls barcode barcode_type with
        | Some e =>
            (Raised e,
             (Build_ScannerManager (_timeout self) (_running self) kept now,
              (calls ++ [(barcode, barcode_type)])%list))
        | None =>
            (Returned tt,
             (Build_ScannerManager (_timeout self) (_running self) "" now,
              (calls ++ [(barcode, barcode_type)])%list))
        end
      else
        (Returned tt,
         (Build_ScannerManager (_timeout self) (_running self) "" now, calls))
    else
      (Returned tt,
       (Build_ScannerManager (_timeout self) (_running self) (kept ++ char) now,
        calls)).
Proof.
  unfold _on_char. cbn [fst snd].
  destruct (nonempty (_buffer self) && _); destruct (is_terminator char);
    cbn [set_buffer set_last_keystroke_time _buffer _timeout _running
         _last_keystroke_time];
    cbv zeta; reflexivity.
Qed.

(** C6: every call stores [now] as the time of the last keystroke; and when
    the buffer is not empty and more than the timeout has passed since the
    previous keystroke, the call, and with it the rest of the run, goes as
    if the buffer had been empty: the call returns, the callback is not
    called and the buffer afterwards holds the new character only. *)
Theorem on_char_gap_discards_buffer
    (self : ScannerManager) (calls : list (string * string)) (now : Q) (char : string)
    (rest : list (Q * string)) :
  _last_keystroke_time (fst (snd (_on_char callback now char (self, calls)))) = now
  /\ (_buffer self <> "" ->
      (_timeout self < now - _last_keystroke_time self)%Q ->
      _on_char callback now char (self, calls)
      = _on_char callback now char (set_buffer self "", calls)
      /\ fst (_on_char callback now char (self, calls)) = Returned tt
      /\ snd (snd (_on_char callback now char (self, calls))) = calls
      /\ _buffer (fst (snd (_on_char callback now char (self, calls))))
         = (if is_terminator char then "" else char)
      /\ feed callback ((now, char) :: rest) (self, calls)
         = feed callback ((now, char) :: rest) (set_buffer self "", calls)).
Proof.
  split.
  - rewrite on_char_unfold. cbv zeta.
    destruct (is_terminator char); [|reflexivity].
    destruct (4 <=? _)%nat; [|reflexivity]. now destruct (callback _ _ _).
  - intros Hbuf Hgap.
    assert (Hstep : _on_char callback now char (self, calls)
                    = _on_char callback now char (set_buffer self "", calls)).
    { rewrite !on_char_unfold. cbn [set_buffer _buffer _timeout _running
                                     _last_keystroke_time nonempty andb].
      rewrite (nonempty_true _ Hbuf).
      apply Qgtb_lt in Hgap. now rewrite Hgap. }
    split; [exact Hstep|]. rewrite Hstep.
    assert (Hres : _on_char callback now char (set_buffer self "", calls)
                   = (Returned tt,
                      (Build_ScannerManager (_timeout self) (_running self)
                         (if is_terminator char then "" else char) now, calls))).
    { rewrite on_char_unfold. cbn [set_buffer _buffer _timeout _running
                                    _last_keystroke_time nonempty andb].
      cbv zeta. now destruct (is_terminator char). }
    rewrite Hres. repeat split.
    cbn [feed]. unfold bind. now rewrite Hstep.
Qed.


End Detector.

#[local] Existing Instance ascii_only.

Lemma on_char_gap_discards_buffer_witness :
  let self := Build_ScannerManager (1 # 10) true "999" 0 in
  feed quiet ((1%Q, "5") :: keystrokes (101 # 100) (1 # 100) "901234123457") (self, [])
  = feed quiet ((1%Q, "5") :: keystrokes (101 # 100) (1 # 100) "901234123457")
      (set_buffer self "", []).
Proof.
  intros self.
  apply (on_char_gap_discards_buffer quiet self [] 1 "5"); [discriminate|reflexivity].
Defined.


(** The scan of section 8: the digits arrive 10 ms apart, then the line
    feed. *)
Example scan_ean13 :
  feed quiet (keystrokes 1 (1 # 100) "5901234123457" ++ [((113 # 100)%Q, LF)])%list
       (init 100, [])
  = (Returned tt,
     (Build_ScannerManager (inject_Z 100 / 1000) false "" (113 # 100),
      [("5901234123457", "EAN13")])).
Proof. vm_compute. reflexivity. Qed.

Example scan_code39 :
  snd (snd (feed quiet (keystrokes 1 (1 # 100) "AB-12.34" ++ [((108 # 100)%Q, LF)])%list
                 (init 100, [])))
  = [("AB-12.34", "CODE39")].
Proof. vm_compute. reflexivity. Qed.

(** Slow typing is not a scan: each key arrives after the timeout. *)
Example typing_is_no_scan :
  snd (snd (feed quiet (keystrokes 1 (1 # 2) "12345" ++ [((7 # 2)%Q, LF)])%list
                 (init 100, [])))
  = [].
Proof. vm_compute. reflexivity. Qed.

(** A callback that raises stops the run and leaves the scanned text in
    the buffer: the next scan within the timeout is appended to it. *)
Example raising_callback_keeps_buffer :
  feed (raising "no current event loop") (keystrokes 1 (1 # 100) "12345" ++ [((105 # 100)%Q, LF);
                                                      ((106 # 100)%Q, "6")])%list
       (init 100, [])
  = (Raised "no current event loop",
     (Build_ScannerManager (inject_Z 100 / 1000) false "12345" (105 # 100),
      [("12345", "CODE39")])).
Proof. vm_compute. reflexivity. Qed.


End ScannerFacts.

(* ===================================================================== *)
(** * The connection lifecycle *)
(* ===================================================================== *)

Module PrinterFacts.
Import Eff Json Printer.

Section Lifecycle.

Variable fails : list call -> call -> option string.

(** [close_quietly] always returns, and records the attempt to close. *)
Lemma close_quietly_returns p log :
  close_quietly fails p log = (Returned tt, (log ++ [PClose])%list).
Proof.
  unfold close_quietly, try_except, device_call.
  destruct (fails log PClose); reflexivity.
Qed.

(** A body run under [try ... finally: close_quietly]: its outcome stands,
    and the close is the last call made. *)
Lemma finally_close {A} (body : M (list call) A) p log :
  try_finally body (close_quietly fails p) log
  = (fst (body log), (snd (body log) ++ [PClose])%list).
Proof.
  unfold try_finally. destruct (body log) as [r log'].
  now rewrite close_quietly_returns.
Qed.

End Lifecycle.

(** C5: once [connect_printer] has returned the printer, each of
    [print_document], [test_print] and [open_drawer] ends with the outcome
    of its body, be it a normal return or the exception the body raised,
    and with [close] as the last call on the printer, whether or not the
    body or the close itself raises. *)
Theorem connection_closed_on_every_path
    {U : PyStr.Unicode}
    (fails : list call -> call -> option string) (now_text : string)
    (interpreter_text : Discovery.value_error -> string)
    (receipt kitchen_order invoice delivery_note barcode_label cash_report generic
       : printer -> json -> M (list call) unit)
    (printer_id document_type : string) (data : json) (pin : Z)
    (log log1 : list call) (p : printer) :
  connect_printer fails interpreter_text printer_id log = (Returned p, log1) ->
  let body_print :=
    render_document receipt kitchen_order invoice delivery_note barcode_label
                    cash_report generic p document_type data log1 in
  let body_test := test_page fails now_text printer_id log1 in
  let body_drawer :=
    device_call fails (PRaw (if (pin =? 2)%Z then KICK_PIN_2 else KICK_PIN_5)) log1 in
  print_document fails interpreter_text receipt kitchen_order invoice delivery_note barcode_label
                 cash_report generic printer_id document_type data log
  = (fst body_print, (snd body_print ++ [PClose])%list)
  /\ test_print fails now_text interpreter_text printer_id log
     = (fst body_test, (snd body_test ++ [PClose])%list)
  /\ open_drawer fails interpreter_text printer_id pin log
     = (fst body_drawer, (snd body_drawer ++ [PClose])%list).
Proof.
  intros Hconn body_print body_test body_drawer.
  unfold print_document, test_print, open_drawer, bind.
  rewrite Hconn. rewrite !finally_close. repeat split.
Qed.

#[local] Existing Instance PyStr.ascii_only.

(** A printer that runs out of paper on the first text and then fails to
    close: the caller of [test_print] sees the paper error, and the close
    was attempted. *)
Lemma connection_closed_on_every_path_witness :
  let fails := fun (_ : list call) (c : call) =>
                 match c with
                 | PText _ => Some "paper out"
                 | PClose => Some "close failed"
                 | _ => None
                 end in
  test_print fails "2026-01-01 00:00:00" (fun _ => "") "network:10.0.0.7:9100" []
  = (Raised "paper out",
     [Open (Discovery.NetworkParams "10.0.0.7" 9100);
      PSet "center" None None; PText rule; PClose]).
Proof.
  intros fails.
  refine (proj1 (proj2 (connection_closed_on_every_path
            fails "2026-01-01 00:00:00" (fun _ => "")
            (fun _ _ => ret tt) (fun _ _ => ret tt) (fun _ _ => ret tt)
            (fun _ _ => ret tt) (fun _ _ => ret tt) (fun _ _ => ret tt)
            (fun _ _ => ret tt)
            "network:10.0.0.7:9100" "receipt" JNull 2 []
            [Open (Discovery.NetworkParams "10.0.0.7" 9100)]
            {| params := Discovery.NetworkParams "10.0.0.7" 9100 |} _))).
  reflexivity.
Defined.

End PrinterFacts.

(* ===================================================================== *)
(** * The dispatcher and the broadcast hub *)
(* ===================================================================== *)

Module ServerFacts.
Import Eff Json Protocol Server.

Section Handlers.

Variable __version__ : string.
Variable json_loads : string -> loaded.
Variable uuid4 : nat -> string.
Variable format_value : json -> string.
Variable sweep : string + list Discovery.printer_info.
Variable hardware : operation -> option string.

Lemma send_text_alive ws message w :
  ws ∉ dead w -> send_text ws message w = (Returned tt, log (Sent ws message) w).
Proof.
  intros Halive. unfold send_text. now rewrite bool_decide_eq_false_2.
Qed.

Lemma send_text_dead ws message w :
  ws ∈ dead w -> send_text ws message w = (Raised "send failed", w).
Proof.
  intros Hdead. unfold send_text. now rewrite bool_decide_eq_true_2.
Qed.

Lemma add_trace_nil w : add_trace [] w = w.
Proof. destruct w. unfold add_trace. simpl. now rewrite app_nil_r. Qed.

Lemma add_trace_log e es w : add_trace es (log e w) = add_trace (e :: es) w.
Proof. unfold add_trace, log. simpl. now rewrite <- app_assoc. Qed.

Lemma broadcast_loop_spec message todo : forall disconnected w,
  broadcast_loop message todo disconnected w
  = (Returned (list_to_set (filter (fun ws => ws ∈ dead w) todo) ∪ disconnected),
     add_trace (deliveries message w todo) w).
Proof.
  induction todo as [|ws rest IH]; intros disconnected w.
  - simpl. unfold ret, deliveries. simpl. rewrite add_trace_nil.
    do 2 f_equal. set_solver.
  - cbn [broadcast_loop]. unfold bind at 1. unfold try_except, bind at 1.
    destruct (decide (ws ∈ dead w)) as [Hdead|Halive].
    + rewrite (send_text_dead _ _ _ Hdead). unfold ret at 1.
      rewrite IH. unfold deliveries.
      rewrite filter_cons_True by exact Hdead.
      rewrite filter_cons_False by (intros H; now apply H).
      do 2 f_equal. set_solver.
    + rewrite (send_text_alive _ _ _ Halive). unfold ret at 1.
      rewrite IH. unfold deliveries.
      change (dead (log (Sent ws message) w)) with (dead w).
      rewrite filter_cons_False by exact Halive.
      rewrite filter_cons_True by exact Halive.
      rewrite add_trace_log. reflexivity.
Qed.

(** C4: a broadcast always completes; every registered connection whose
    send succeeds receives the message, every registered connection whose
    send fails is removed from the registry and only those are, whatever
    the number and position of the failing connections. *)
Theorem broadcast_isolates_failures (message : gmap string json) (w : world) :
  exists w',
    broadcast message w = (Returned tt, w')
    /\ connections w' = connections w ∖ dead w
    /\ trace w' = (trace w ++ deliveries message w (elements (connections w)))%list
    /\ (forall ws, ws ∈ connections w -> ws ∉ dead w ->
          Sent ws message ∈ deliveries message w (elements (connections w))
          /\ ws ∈ connections w')
    /\ (forall ws, ws ∈ connections w -> ws ∈ dead w ->
          (Sent ws message ∉ deliveries message w (elements (connections w)))
          /\ ws ∉ connections w').
Proof.
  set (todo := elements (connections w)).
  set (gone := (list_to_set (filter (fun ws => ws ∈ dead w) todo) ∪ ∅ : gset websocket)).
  assert (Hgone : connections w ∖ gone = connections w ∖ dead w).
  { subst gone todo. apply set_eq. intros ws.
    rewrite !elem_of_difference, elem_of_union, elem_of_list_to_set,
      list_elem_of_filter, elem_of_elements.
    set_solver. }
  exists (set_connections (fun c => c ∖ gone) (add_trace (deliveries message w todo) w)).
  split; [|split; [|split; [|split]]].
  - unfold broadcast, bind, get_state. fold todo.
    rewrite broadcast_loop_spec. reflexivity.
  - simpl. exact Hgone.
  - reflexivity.
  - intros ws Hin Halive. split.
    + unfold deliveries. apply list_elem_of_fmap. exists ws. split; [reflexivity|].
      apply list_elem_of_filter. split; [exact Halive|].
      subst todo. now apply elem_of_elements.
    + simpl. rewrite Hgone. set_solver.
  - intros ws Hin Hdead. split.
    + unfold deliveries. intros (ws' & Heq & Hws')%list_elem_of_fmap.
      injection Heq as <-. apply list_elem_of_filter in Hws' as [Halive _].
      now apply Halive.
    + simpl. rewrite Hgone. set_solver.
Qed.

(** The scenario of the specification: sockets 1, 2 and 3 are registered
    and socket 2 is dead. *)
Example broadcast_one_of_three_dead :
  let message := barcode_event "5901234123457" "EAN13" in
  let '(r, w') := broadcast message sample_world in
  r = Returned tt
  /\ connections w' = {[1; 3]}
  /\ Sent 1 message ∈ trace w' /\ Sent 3 message ∈ trace w'
  /\ Sent 2 message ∉ trace w'.
Proof.
  vm_compute. repeat split.
  - set_solver.
  - set_solver.
  - set_solver.
Qed.

Lemma is_str_true v s : is_str v s = true <-> v = JStr s.
Proof.
  destruct v; simpl; try (split; [discriminate|congruence]).
  rewrite String.eqb_eq. split; congruence.
Qed.


Lemma get_absent (msg : gmap string json) key : msg !! key = None -> get msg key = JNull.
Proof. intros H. unfold get. now rewrite H. Qed.

(** C3, as the code has it: a [print] command without [printer_id] is
    answered with exactly one [print_error] event on the sender's socket,
    carrying the [job_id] of the command, or a generated one, and the
    [error] text "No printer_id specified" (the event has the keys [event],
    [job_id] and [error] only); nothing is submitted to the executor. *)
Theorem print_without_printer_id
    (ws : websocket) (raw : string) (msg : gmap string json) (w : world) :
  parse_message json_loads raw = Message msg ->
  get msg "action" = JStr "print" ->
  msg !! "printer_id" = None ->
  ws ∉ dead w ->
  let supplied := truthy (get msg "job_id") in
  let job_id := if supplied then get msg "job_id" else JStr (uuid4 (uuid_count w)) in
  let event := print_error_event job_id "No printer_id specified" in
  handle_message __version__ json_loads uuid4 format_value sweep hardware ws raw w
  = (Returned tt, log (Sent ws event) (if supplied then w else bump_uuid w))
  /\ trace (log (Sent ws event) (if supplied then w else bump_uuid w))
     = (trace w ++ [Sent ws event])%list
  /\ dom event = {["event"; "job_id"; "error"]}
  /\ event !! "event" = Some (JStr "print_error")
  /\ event !! "job_id" = Some job_id
  /\ event !! "error" = Some (JStr "No printer_id specified").
Proof.
  intros Hparse Haction Hmissing Halive supplied job_id event.
  split; [|split; [|split; [|repeat split]]].
  - unfold handle_message. rewrite Hparse, Haction. cbn [is_str String.eqb Ascii.eqb Bool.eqb].
    unfold handle_print. rewrite (get_absent msg "printer_id" Hmissing).
    cbn [truthy negb]. fold supplied. unfold bind.
    destruct supplied eqn:Hs; subst job_id.
    + unfold ret. now rewrite send_text_alive.
    + unfold generate_job_id. now rewrite send_text_alive.
  - now destruct supplied.
  - subst event. unfold print_error_event, dict.
    rewrite dom_list_to_map_L. simpl. set_solver.
Qed.




Local Abbreviation handle :=
  (handle_message __version__ json_loads uuid4 format_value sweep hardware).
Local Abbreviation serve :=
  (receive_loop __version__ json_loads uuid4 format_value sweep hardware).
Local Abbreviation endpoint :=
  (websocket_endpoint __version__ json_loads uuid4 format_value sweep hardware).


(** C9, as the code has it: the health probe is a function of the module
    state alone; its object has exactly the keys [status], [version],
    [printers] and [scanner], where [printers] is the number of cached
    printers and [scanner] tells whether a scanner manager exists and is
    running. *)
Theorem health_check_fields (w : world) :
  dom (health_check __version__ w) = {["status"; "version"; "printers"; "scanner"]}
  /\ health_check __version__ w !! "status" = Some (JStr "ok")
  /\ health_check __version__ w !! "version" = Some (JStr __version__)
  /\ health_check __version__ w !! "printers"
     = Some (JInt (Z.of_nat (length (cached_printers w))))
  /\ health_check __version__ w !! "scanner"
     = Some (JBool (match scanner_manager w with
                    | Some sm => Scanner._running sm
                    | None => false
                    end))
  /\ health_check __version__ w !! "job_id" = None.
Proof.
  split; [|repeat split].
  unfold health_check, dict. rewrite dom_list_to_map_L. simpl. set_solver.
Qed.

End Handlers.

Lemma print_without_printer_id_witness :
  let event :=
    print_error_event (JStr (sample_uuid4 0)) "No printer_id specified" in
  handle_message "1.0.0" sample_loads sample_uuid4 (fun _ => "?") (inr [])
                 (fun _ => None) 1 print_text sample_world
  = (Returned tt, log (Sent 1 event) (bump_uuid sample_world)).
Proof.
  intros event.
  refine (proj1 (print_without_printer_id
                   "1.0.0" sample_loads sample_uuid4 (fun _ => "?") (inr [])
                   (fun _ => None) 1 print_text
                   (dict [("action", JStr "print")]) sample_world _ _ _ _)).
  - reflexivity.
  - reflexivity.
  - reflexivity.
  - vm_compute. set_solver.
Defined.

(** C3 as stated fails: the [print_error] event sent for a [print] command
    without [printer_id] has no [code] key. *)
Lemma print_error_event_has_no_code :
  exists event,
    trace (snd (handle_message "1.0.0" sample_loads sample_uuid4 (fun _ => "?") (inr [])
                               (fun _ => None) 1 print_text sample_world))
    = [Sent 1 event]
    /\ event !! "event" = Some (JStr "print_error")
    /\ event !! "code" = None.
Proof.
  eexists. split; [vm_compute; reflexivity|]. split; reflexivity.
Qed.


(** C9 as stated fails: the object of the health probe has no
    [printer_count] and no [scanner_active] field. *)
Lemma health_check_has_no_printer_count :
  health_check "1.0.0" sample_world !! "printer_count" = None
  /\ health_check "1.0.0" sample_world !! "scanner_active" = None
  /\ dom (health_check "1.0.0" sample_world)
     <> {["status"; "version"; "printer_count"; "scanner_active"]}.
Proof.
  split; [reflexivity|]. split; [reflexivity|].
  intros Heq.
  assert (H : "printer_count" ∈ dom (health_check "1.0.0" sample_world)).
  { rewrite Heq. set_solver. }
  apply elem_of_dom in H as [v Hv]. discriminate Hv.
Qed.

End ServerFacts.

(* ===================================================================== *)
(** * More on printer ids and discovery *)
(* ===================================================================== *)

Module DiscoveryProps.
Import PyStr PyStrFacts Discovery DiscoveryFacts.

Section More.

Context {U : Unicode}.

Lemma length_append s1 s2 :
  String.length (s1 ++ s2) = (String.length s1 + String.length s2)%nat.
Proof. induction s1 as [|c s1 IH]; simpl; [reflexivity|now rewrite IH]. Qed.

Lemma partition_some sep s a b :
  partition sep s = Some (a, b) ->
  s = a ++ String sep b /\ all_chars (not_sep sep) a = true.
Proof.
  revert a. induction s as [|c s IH]; intros a; simpl; [discriminate|].
  destruct (Ascii.eqb_spec c sep) as [->|Hne].
  - intros [= <- <-]. split; reflexivity.
  - destruct (partition sep s) as [[a' b']|]; [|discriminate].
    intros [= <- <-]. destruct (IH a' eq_refl) as [-> Ha]. split; [reflexivity|].
    simpl. rewrite Ha, andb_true_r. unfold not_sep.
    now apply negb_true_iff, Ascii.eqb_neq.
Qed.

Lemma split_nonempty sep s : split sep s <> [].
Proof.
  induction s as [|c s IH]; simpl; [discriminate|].
  destruct (Ascii.eqb c sep); [discriminate|].
  destruct (split sep s); [contradiction|discriminate].
Qed.

Lemma split_one sep s a :
  split sep s = [a] -> s = a /\ all_chars (not_sep sep) a = true.
Proof.
  revert a. induction s as [|c s IH]; intros a; simpl.
  - intros [= <-]. split; reflexivity.
  - destruct (Ascii.eqb_spec c sep) as [->|Hne].
    + intros [= _ H]. now apply split_nonempty in H.
    + destruct (split sep s) as [|h t] eqn:E; [now apply split_nonempty in E|].
      intros [= <- ->]. destruct (IH h eq_refl) as [-> Hh]. split; [reflexivity|].
      simpl. rewrite Hh, andb_true_r. unfold not_sep.
      now apply negb_true_iff, Ascii.eqb_neq.
Qed.

Lemma split_pair sep s a b :
  split sep s = [a; b] ->
  s = a ++ String sep b
  /\ all_chars (not_sep sep) a = true /\ all_chars (not_sep sep) b = true.
Proof.
  revert a. induction s as [|c s IH]; intros a; simpl; [discriminate|].
  destruct (Ascii.eqb_spec c sep) as [->|Hne].
  - intros [= <- H]. apply split_one in H as [-> Hb]. repeat split; assumption.
  - destruct (split sep s) as [|h t] eqn:E; [now apply split_nonempty in E|].
    intros [= <- ->]. destruct (IH h eq_refl) as (-> & Hh & Hb).
    repeat split; try assumption.
    simpl. rewrite Hh, andb_true_r. unfold not_sep.
    now apply negb_true_iff, Ascii.eqb_neq.
Qed.

(** X1: a printer id determines its connection parameters: two parameter
    sets with the same serialized id are equal, across all transports. *)
Theorem serialize_printer_id_injective (q1 q2 : string * conn_params) :
  serialize_printer_id q1 = serialize_printer_id q2 -> snd q1 = snd q2.
Proof.
  intros Heq. pose proof (parse_serialize q1) as H1.
  pose proof (parse_serialize q2) as H2.
  rewrite Heq in H1. rewrite H1 in H2. congruence.
Qed.


(** X2: whenever [parse_printer_id] succeeds, the transport it returns is
    [usb], [network] or [bluetooth], it is the kind of the parameters
    returned, and the id is that word alone or that word followed by a
    colon. *)
Theorem parse_printer_id_transport (printer_id t : string) (params : conn_params) :
  parse_printer_id printer_id = Ok (t, params) ->
  t = ptype_of params
  /\ In t ["usb"; "network"; "bluetooth"]
  /\ (printer_id = t \/ exists rest, printer_id = t ++ ":" ++ rest).
Proof.
  unfold parse_printer_id, split1.
  destruct (partition ":" printer_id) as [[a b]|] eqn:Hp.
  - apply partition_some in Hp as [-> _]. cbv beta iota delta [hd].
    destruct (String.eqb_spec a "usb") as [->|_].
    { destruct (split ":" b) as [|vid [|pid [|]]]; try discriminate.
      destruct (int_of_str 16 vid); [|discriminate].
      destruct (int_of_str 16 pid); [|discriminate].
      intros [= <- <-]. simpl. split; [reflexivity|]. split; [tauto|].
      right. now exists b. }
    destruct (String.eqb_spec a "network") as [->|_].
    { assert (Hex : exists rest, "network" ++ String ":" b = "network" ++ ":" ++ rest)
        by now exists b.
      destruct (rsplit1 ":" b) as [|h [|p l]].
      - intros [= <- <-]. simpl. tauto.
      - intros [= <- <-]. simpl. tauto.
      - destruct (int_of_str 10 p); [|discriminate].
        intros [= <- <-]. simpl. tauto. }
    destruct (String.eqb_spec a "bluetooth") as [->|_]; [|discriminate].
    intros [= <- <-]. simpl. split; [reflexivity|]. split; [tauto|].
    right. now exists b.
  - cbv beta iota delta [hd].
    destruct (String.eqb_spec printer_id "usb") as [->|_]; [discriminate|].
    destruct (String.eqb_spec printer_id "network") as [->|_].
    { intros [= <- <-]. simpl. tauto. }
    destruct (String.eqb_spec printer_id "bluetooth") as [->|_]; [|discriminate].
    intros [= <- <-]. simpl. tauto.
Qed.


(** X3: a usb id is accepted exactly in the form [usb:<vid>:<pid>] with
    two colon-free fields that [int(_, 16)] accepts; the parameters are
    the values of the two fields. *)
Theorem parse_usb_inversion (printer_id t : string) (vendor_id product_id : Z) :
  parse_printer_id printer_id = Ok (t, UsbParams vendor_id product_id)
  <-> t = "usb"
      /\ exists vid pid,
           printer_id = "usb:" ++ vid ++ ":" ++ pid
           /\ contains ":" vid = false /\ contains ":" pid = false
           /\ int_of_str 16 vid = Some vendor_id
           /\ int_of_str 16 pid = Some product_id.
Proof.
  assert (Hnc : forall s, all_chars (not_sep ":") s = true -> contains ":" s = false).
  { induction s as [|c s IH]; [reflexivity|].
    cbn [all_chars contains String.prefix].
    intros [Hc Hs]%andb_true_iff. rewrite (IH Hs), orb_false_r.
    unfold not_sep in Hc. apply negb_true_iff, Ascii.eqb_neq in Hc.
    destruct (ascii_dec ":" c) as [<-|_]; [contradiction|reflexivity]. }
  split.
  - unfold parse_printer_id, split1.
    destruct (partition ":" printer_id) as [[a b]|] eqn:Hp.
    + apply partition_some in Hp as [-> _]. cbv beta iota delta [hd].
      destruct (String.eqb_spec a "usb") as [->|_].
      { destruct (split ":" b) as [|vid [|pid [|]]] eqn:Hs; try discriminate.
        destruct (int_of_str 16 vid) eqn:Hv; [|discriminate].
        destruct (int_of_str 16 pid) eqn:Hpid; [|discriminate].
        intros [= <- <- <-]. apply split_pair in Hs as (-> & Ha & Hb).
        split; [reflexivity|]. exists vid, pid. repeat split; auto. }
      destruct (String.eqb a "network").
      { destruct (rsplit1 ":" b) as [|h [|p l]]; try discriminate.
        destruct (int_of_str 10 p); discriminate. }
      destruct (String.eqb a "bluetooth"); discriminate.
    + cbv beta iota delta [hd].
      destruct (String.eqb_spec printer_id "usb") as [->|_]; [discriminate|].
      destruct (String.eqb printer_id "network"); [discriminate|].
      destruct (String.eqb printer_id "bluetooth"); discriminate.
  - intros (-> & vid & pid & -> & Hvid%contains_colon_false
            & Hpid%contains_colon_false & Hv & Hp).
    unfold parse_printer_id.
    change (split1 ":" ("usb:" ++ vid ++ ":" ++ pid))
      with ["usb"; vid ++ String ":" pid].
    cbv beta iota delta [hd]. change (String.eqb "usb" "usb") with true. cbv iota.
    rewrite (split_two ":" vid pid Hvid Hpid). now rewrite Hv, Hp.
Qed.

Lemma length_zeros k : String.length (zeros k) = k.
Proof. induction k as [|k IH]; simpl; [reflexivity|now rewrite IH]. Qed.

Lemma to_digits_length base fuel : forall n acc k,
  (2 <= base)%N -> (1 <= k)%nat -> (n < base ^ N.of_nat k)%N ->
  (String.length (to_digits base fuel n acc) <= k + String.length acc)%nat.
Proof.
  induction fuel as [|fuel IH]; intros n acc k Hb Hk Hn; simpl; [lia|].
  destruct (N.eqb_spec (n / base) 0) as [Hz|Hnz]; [simpl; lia|].
  destruct k as [|[|k]]; [lia| |].
  - exfalso. apply Hnz. apply N.div_small. simpl in Hn. lia.
  - assert (Hlt : (n / base < base ^ N.of_nat (S k))%N).
    { apply N.Div0.div_lt_upper_bound.
      rewrite (Nat2N.inj_succ (S k)), N.pow_succ_r' in Hn. exact Hn. }
    specialize (IH (n / base)%N (String (digit_char (n mod base)) acc) (S k) Hb
                   ltac:(lia) Hlt).
    simpl in IH. lia.
Qed.

Lemma format_hash06x_length z :
  (0 <= z < 65536)%Z -> String.length (format_hash06x z) = 6%nat.
Proof.
  intros Hz. unfold format_hash06x, sign_of.
  replace (z <? 0)%Z with false by (symmetry; apply Z.ltb_ge; lia).
  assert (Hd : (String.length (digits_of 16 (Z.abs_N z)) <= 4)%nat).
  { unfold digits_of.
    pose proof (to_digits_length 16 (S (N.size_nat (Z.abs_N z))) (Z.abs_N z)
                  EmptyString 4 ltac:(lia) ltac:(lia)) as H.
    simpl String.length in H. rewrite Nat.add_0_r in H. apply H.
    change (16 ^ N.of_nat 4)%N with 65536%N. lia. }
  rewrite !length_append, length_zeros. simpl String.length. lia.
Qed.

(** X4: for 16-bit vendor and product ids, as a USB descriptor has them,
    the id is the fixed-width text [usb:0xVVVV:0xPPPP] of 17 characters,
    all of them ASCII. *)
Theorem usb_printer_id_length (vendor_id product_id : Z) :
  (0 <= vendor_id < 65536)%Z -> (0 <= product_id < 65536)%Z ->
  String.length (usb_printer_id vendor_id product_id) = 17%nat
  /\ len (usb_printer_id vendor_id product_id) = 17%nat.
Proof.
  intros Hv Hp.
  assert (Hlen : String.length (usb_printer_id vendor_id product_id) = 17%nat).
  { unfold usb_printer_id.
    rewrite !length_append, !format_hash06x_length by assumption. reflexivity. }
  split; [exact Hlen|]. rewrite len_ascii; [exact Hlen|].
  unfold usb_printer_id, is_ascii. rewrite !all_chars_app.
  fold (is_ascii (format_hash06x vendor_id)). fold (is_ascii (format_hash06x product_id)).
  now rewrite !format_hash06x_ascii.
Qed.


Lemma existsb_id_in printers printer_id :
  existsb (fun p => String.eqb (pi_id p) printer_id) printers = true
  <-> In printer_id (map pi_id printers).
Proof.
  rewrite existsb_exists, in_map_iff. split.
  - intros (p & Hp & Heq%String.eqb_eq). now exists p.
  - intros (p & Heq & Hp). exists p. split; [exact Hp|now apply String.eqb_eq].
Qed.

(** X6: the port scan only appends to the printers found by mDNS: the mDNS
    entries stay in front, every entry added is a network printer on the
    scanned port at one of the open addresses, and no id that is already
    listed is added again, so a list without duplicate ids stays without. *)
Theorem scan_ports_appends (open_ips : list string) (port : Z)
    (printers : list printer_info) :
  exists added,
    scan_ports open_ips port printers = (printers ++ added)%list
    /\ (forall p, In p added ->
          exists ip, In ip open_ips
            /\ p = PrinterInfo (network_printer_id ip port)
                               ("Network Printer (" ++ ip ++ ")") "network" "ready" 80)
    /\ (forall p, In p added -> ~ In (pi_id p) (map pi_id printers))
    /\ List.NoDup (map pi_id added)
    /\ (List.NoDup (map pi_id printers) ->
        List.NoDup (map pi_id (scan_ports open_ips port printers))).
Proof.
  enough (H : exists added,
    scan_ports open_ips port printers = (printers ++ added)%list
    /\ (forall p, In p added ->
          exists ip, In ip open_ips
            /\ p = PrinterInfo (network_printer_id ip port)
                               ("Network Printer (" ++ ip ++ ")") "network" "ready" 80)
    /\ (forall p, In p added -> ~ In (pi_id p) (map pi_id printers))
    /\ List.NoDup (map pi_id added)).
  { destruct H as (added & Heq & Hform & Hfresh & Hnd).
    exists added. repeat split; auto.
    intros Hp. rewrite Heq, map_app. apply List.NoDup_app; auto.
    intros a Ha (p & <- & Hin)%in_map_iff. now apply (Hfresh p Hin). }
  revert printers. induction open_ips as [|ip rest IH]; intros printers;
    cbn [scan_ports].
  - exists []. rewrite app_nil_r. repeat split; try (intros ? []). apply List.NoDup_nil.
  - destruct (existsb _ printers) eqn:Hex.
    + destruct (IH printers) as (added & Heq & Hform & Hfresh & Hnd).
      exists added. repeat split; auto.
      intros p Hp. destruct (Hform p Hp) as (ip' & Hip' & ->).
      exists ip'. split; [now right|reflexivity].
    + set (new := mk_printer_info (network_printer_id ip port)
                    ("Network Printer (" ++ ip ++ ")") "network" "ready") in *.
      destruct (IH (printers ++ [new])%list) as (added & Heq & Hform & Hfresh & Hnd).
      exists (new :: added). rewrite Heq, <- app_assoc. split; [reflexivity|].
      assert (Hnew : ~ In (pi_id new) (map pi_id printers)).
      { intros Hin%existsb_id_in. subst new. simpl in Hin. congruence. }
      split; [|split].
      * intros p [<-|Hp]; [exists ip; split; [now left|reflexivity]|].
        destruct (Hform p Hp) as (ip' & Hip' & ->).
        exists ip'. split; [now right|reflexivity].
      * intros p [<-|Hp]; [exact Hnew|].
        intros Hin. apply (Hfresh p Hp). rewrite map_app.
        apply in_or_app. now left.
      * simpl. apply List.NoDup_cons; [|exact Hnd].
        intros (p & Hid & Hp)%in_map_iff. apply (Hfresh p Hp).
        rewrite map_app. apply in_or_app. right. simpl. left.
        now rewrite Hid.
Qed.

End More.

#[local] Existing Instance ascii_only.

Lemma serialize_printer_id_injective_witness :
  snd ("usb", UsbParams 0x04b8 0x0202) = snd ("any", UsbParams 1208 514).
Proof.
  apply (serialize_printer_id_injective
           ("usb", UsbParams 0x04b8 0x0202) ("any", UsbParams 1208 514)).
  reflexivity.
Defined.

Lemma parse_printer_id_transport_witness :
  "bluetooth" = ptype_of (BluetoothParams "AA:BB")
  /\ In "bluetooth" ["usb"; "network"; "bluetooth"]
  /\ ("bluetooth:AA:BB" = "bluetooth"
      \/ exists rest, "bluetooth:AA:BB" = "bluetooth" ++ ":" ++ rest).
Proof.
  apply (parse_printer_id_transport "bluetooth:AA:BB" "bluetooth" (BluetoothParams "AA:BB")).
  reflexivity.
Defined.

Lemma parse_usb_inversion_witness :
  "usb" = "usb"
  /\ exists vid pid,
       "usb: 0X4B8 :+514" = "usb:" ++ vid ++ ":" ++ pid
       /\ contains ":" vid = false /\ contains ":" pid = false
       /\ int_of_str 16 vid = Some 1208%Z
       /\ int_of_str 16 pid = Some 1300%Z.
Proof.
  apply (proj1 (parse_usb_inversion "usb: 0X4B8 :+514" "usb" 1208 1300)).
  reflexivity.
Defined.

(** The separators FS..US around a field are not white space for [int]:
    such an id does not parse. *)
Example parse_usb_separator :
  parse_printer_id ("usb:" ++ String (ascii_of_N 31) "04b8:0202")
  = ValueError (int_error 16 (String (ascii_of_N 31) "04b8")).
Proof. reflexivity. Qed.

Lemma usb_printer_id_length_witness :
  String.length (usb_printer_id 0x0519 0x0003) = 17%nat
  /\ len (usb_printer_id 0x0519 0x0003) = 17%nat.
Proof. apply (usb_printer_id_length 0x0519 0x0003); lia. Defined.

(** X5: [discover_usb] lists exactly the devices of a known vendor: an info
    is in the result if and only if it is the info of one of the enumerated
    devices whose vendor id is in [KNOWN_PRINTER_VENDORS]; its name is the
    product string, or the vendor name followed by [Printer] when the
    product string is missing or empty. *)
Theorem discover_usb_known_vendors (devices : list usb_device) (p : printer_info) :
  In p (discover_usb devices) <->
  exists d vendor_name,
    In d devices
    /\ vendor_get (idVendor d) KNOWN_PRINTER_VENDORS = Some vendor_name
    /\ p = PrinterInfo (usb_printer_id (idVendor d) (idProduct d))
                       (match dev_product d with
                        | Some (String c s) => String c s
                        | _ => vendor_name ++ " Printer"
                        end) "usb" "ready" 80.
Proof.
  induction devices as [|d rest IH]; cbn [discover_usb].
  - split; [intros []|intros (d & v & [] & _)].
  - destruct (vendor_get (idVendor d) KNOWN_PRINTER_VENDORS) as [v|] eqn:Hv.
    + split.
      * intros [<-|Hin].
        -- exists d, v. split; [now left|]. split; [exact Hv|reflexivity].
        -- apply IH in Hin as (d' & v' & Hd' & Hv' & ->).
           exists d', v'. split; [now right|]. split; [exact Hv'|reflexivity].
      * intros (d' & v' & [<-|Hd'] & Hv' & ->).
        -- left. rewrite Hv in Hv'. injection Hv' as <-. reflexivity.
        -- right. apply IH. exists d', v'. auto.
    + rewrite IH. split.
      * intros (d' & v' & Hd' & Hv' & ->). exists d', v'. split; [now right|auto].
      * intros (d' & v' & [<-|Hd'] & Hv' & ->); [congruence|].
        exists d', v'. auto.
Qed.

End DiscoveryProps.

(* ===================================================================== *)
(** * More on the connection lifecycle *)
(* ===================================================================== *)

Module PrinterProps.
Import Eff Json Printer PrinterFacts.

(** X7: when [connect_printer] raises, because the id does not parse or
    because opening the device fails, [print_document], [test_print] and
    [open_drawer] raise the same exception; at most the failed open was
    attempted, and in particular nothing is rendered and no close is
    called. *)
Theorem failed_connect_touches_nothing
    {U : PyStr.Unicode}
    (fails : list call -> call -> option string) (now_text : string)
    (interpreter_text : Discovery.value_error -> string)
    (receipt kitchen_order invoice delivery_note barcode_label cash_report generic
       : printer -> json -> M (list call) unit)
    (printer_id document_type : string) (data : json) (pin : Z)
    (log log1 : list call) (e : string) :
  connect_printer fails interpreter_text printer_id log = (Raised e, log1) ->
  print_document fails interpreter_text receipt kitchen_order invoice delivery_note barcode_label
                 cash_report generic printer_id document_type data log
  = (Raised e, log1)
  /\ test_print fails now_text interpreter_text printer_id log = (Raised e, log1)
  /\ open_drawer fails interpreter_text printer_id pin log = (Raised e, log1)
  /\ (log1 = log \/ exists p, log1 = (log ++ [Open p])%list).
Proof.
  intros Hconn.
  unfold print_document, test_print, open_drawer, bind. rewrite Hconn.
  repeat split.
  unfold connect_printer in Hconn.
  destruct (Discovery.parse_printer_id printer_id) as [[t p]|err].
  - right. exists p. unfold bind, device_call in Hconn.
    destruct (fails log (Open p)); inversion Hconn; reflexivity.
  - left. unfold raise in Hconn. now inversion Hconn.
Qed.

#[local] Existing Instance PyStr.ascii_only.

Lemma failed_connect_touches_nothing_witness :
  test_print (fun _ _ => None) "2026-01-01 00:00:00" (fun _ => "") "serial:COM1" []
  = (Raised "Unknown printer type: serial", [])
  /\ open_drawer (fun _ c => match c with Open _ => Some "No route to host" | _ => None end)
                 (fun _ => "") "network:10.0.0.7:9100" 2 []
     = (Raised "No route to host", [Open (Discovery.NetworkParams "10.0.0.7" 9100)]).
Proof.
  split.
  - refine (proj1 (proj2 (failed_connect_touches_nothing
              (fun _ _ => None) "2026-01-01 00:00:00" (fun _ => "")
              (fun _ _ => ret tt) (fun _ _ => ret tt) (fun _ _ => ret tt)
              (fun _ _ => ret tt) (fun _ _ => ret tt) (fun _ _ => ret tt)
              (fun _ _ => ret tt)
              "serial:COM1" "receipt" JNull 2 [] [] "Unknown printer type: serial" _))).
    reflexivity.
  - refine (proj1 (proj2 (proj2 (failed_connect_touches_nothing
              (fun _ c => match c with Open _ => Some "No route to host" | _ => None end)
              "2026-01-01 00:00:00" (fun _ => "")
              (fun _ _ => ret tt) (fun _ _ => ret tt) (fun _ _ => ret tt)
              (fun _ _ => ret tt) (fun _ _ => ret tt) (fun _ _ => ret tt)
              (fun _ _ => ret tt)
              "network:10.0.0.7:9100" "receipt" JNull 2 []
              [Open (Discovery.NetworkParams "10.0.0.7" 9100)] "No route to host" _)))).
    reflexivity.
Defined.

End PrinterProps.

(* ===================================================================== *)
(** * More on the scan detector *)
(* ===================================================================== *)

Module ScannerProps.
Import PyStr PyStrFacts Eff Scanner ScannerFacts Listeners.

Section Detector.

Context {U : Unicode}.

(** ** The classifier *)

Lemma classify_spec_ext a b :
  isdigit a = isdigit b -> len a = len b ->
  upper a = upper b -> classify_spec a = classify_spec b.
Proof. intros H1 H2 H3. unfold classify_spec. now rewrite H1, H2, H3. Qed.

(** X10: the classification does not depend on the case of the ASCII
    letters: a value, the value with its ASCII letters in upper case and
    the value with its ASCII letters in lower case get the same kind; for
    an ASCII value these are [value.upper()] and [value.lower()]. *)
Theorem detect_ignores_case (value : string) :
  _detect_barcode_type (upper_ascii value) = _detect_barcode_type value
  /\ _detect_barcode_type (lower_ascii value) = _detect_barcode_type value
  /\ (is_ascii value = true ->
      upper value = upper_ascii value /\ lower value = lower_ascii value).
Proof.
  rewrite !detect_classify_spec. unfold upper_ascii, lower_ascii.
  split; [|split].
  - apply classify_spec_ext.
    + apply isdigit_map_bytes; intros c; apply (upper_char_facts c).
    + apply len_map_bytes; intros c; apply (upper_char_facts c).
    + apply upper_map_bytes; intros c; apply (upper_char_facts c).
  - apply classify_spec_ext.
    + apply isdigit_map_bytes; intros c; apply (lower_char_facts c).
    + apply len_map_bytes; intros c; apply (lower_char_facts c).
    + apply upper_map_bytes; intros c; apply (lower_char_facts c).
  - intros Ha. split; [now apply upper_ascii_eq|now apply lower_ascii_eq].
Qed.

Lemma digit_in_alphabet c :
  is_upper_alnum c = true -> char_in (upper_char c) CODE39_ALPHABET = true.
Proof.
  destruct c as [[] [] [] [] [] [] [] []]; vm_compute; congruence.
Qed.

Lemma digit_is_upper_alnum c : is_digit_char c = true -> is_upper_alnum c = true.
Proof. unfold is_upper_alnum, is_digit_char. intros ->. reflexivity. Qed.

Lemma upper_alnum_facts c :
  is_upper_alnum c = true -> is_ascii_byte c = true /\ isspace c = false.
Proof.
  destruct c as [[] [] [] [] [] [] [] []]; vm_compute; split; congruence.
Qed.

Lemma upper_alnum_ascii s : all_chars is_upper_alnum s = true -> is_ascii s = true.
Proof. apply all_chars_weaken. intros c Hc. now apply upper_alnum_facts. Qed.

Lemma upper_alnum_in_alphabet s :
  all_chars is_upper_alnum s = true ->
  all_chars (fun c => char_in c CODE39_ALPHABET) (upper s) = true.
Proof.
  intros Hs. rewrite (upper_ascii_eq s (upper_alnum_ascii s Hs)). unfold upper_ascii.
  induction s as [|c s IH]; cbn [all_chars map_bytes]; [reflexivity|].
  cbn [all_chars] in Hs. apply andb_true_iff in Hs as [Hc Hs].
  now rewrite (digit_in_alphabet c Hc), (IH Hs).
Qed.

Lemma all_digits_upper_alnum s :
  all_digits s = true -> all_chars is_upper_alnum s = true.
Proof. apply all_chars_weaken. exact digit_is_upper_alnum. Qed.

Lemma all_digits_isdigit s : all_digits s = true -> isdigit s = nonempty s.
Proof.
  intros Hd. rewrite isdigit_ascii.
  - destruct s; [reflexivity|exact Hd].
  - now apply upper_alnum_ascii, all_digits_upper_alnum.
Qed.


Lemma classify_spec_digits (value : string) :
  all_digits value = true ->
  classify_spec value = kind_of_digits (len value).
Proof.
  intros Hd. unfold classify_spec, kind_of_digits. cbv zeta.
  rewrite (all_digits_isdigit value Hd).
  rewrite (upper_alnum_in_alphabet value (all_digits_upper_alnum value Hd)).
  destruct value as [|c s]; [reflexivity|]. reflexivity.
Qed.

(** X11: a value made of the ASCII digits 0 to 9 always gets its kind
    from its length alone: EAN13, EAN8, UPC-A or GTIN-14 for the lengths 13,
    8, 12, 14, CODE39 for every other length up to 43, and CODE128 only
    beyond 43 digits. *)
Theorem detect_digits_by_length (value : string) :
  all_digits value = true ->
  len value = String.length value
  /\ _detect_barcode_type value = kind_of_digits (len value).
Proof.
  intros Hd. split.
  - now apply len_ascii, upper_alnum_ascii, all_digits_upper_alnum.
  - rewrite detect_classify_spec. now apply classify_spec_digits.
Qed.


(** ** Runs of the detector *)

Variable callback : list (string * string) -> string -> string -> option string.

Lemma feed_app e1 e2 d :
  feed callback (e1 ++ e2)%list d = (feed callback e1 ;;; feed callback e2) d.
Proof.
  revert d. induction e1 as [|[now char] e1 IH]; intros d.
  - reflexivity.
  - cbn [feed app]. unfold bind.
    destruct (_on_char callback now char d) as [[[]|e] d']; [|reflexivity].
    rewrite IH. reflexivity.
Qed.

Lemma on_char_fresh self calls now char :
  (now - _last_keystroke_time self <= _timeout self)%Q ->
  is_terminator char = false ->
  _on_char callback now char (self, calls)
  = (Returned tt,
     (Build_ScannerManager (_timeout self) (_running self) (_buffer self ++ char) now,
      calls)).
Proof.
  intros Hfresh Hterm. rewrite on_char_unfold, Hterm. cbv zeta.
  apply Qgtb_le in Hfresh. now rewrite Hfresh, andb_false_r.
Qed.

(** Keystrokes within the timeout only accumulate. *)
Lemma feed_burst events : forall self calls,
  burst (_timeout self) (_last_keystroke_time self) events ->
  feed callback events (self, calls)
  = (Returned tt,
     (Build_ScannerManager (_timeout self) (_running self)
        (_buffer self ++ typed events)
        (last_time (_last_keystroke_time self) events), calls)).
Proof.
  induction events as [|[now char] rest IH]; intros self calls Hb.
  - simpl. rewrite append_empty_r. now destruct self.
  - destruct Hb as (Hfresh & Hterm & Hrest). cbn [feed typed last_time].
    unfold bind. rewrite (on_char_fresh self calls now char Hfresh Hterm).
    rewrite IH by exact Hrest. cbn [_timeout _running _buffer _last_keystroke_time].
    now rewrite append_assoc.
Qed.

Lemma on_char_empty self calls now char :
  _buffer self = "" ->
  is_terminator char = false ->
  _on_char callback now char (self, calls)
  = (Returned tt,
     (Build_ScannerManager (_timeout self) (_running self) (_buffer self ++ char) now,
      calls)).
Proof.
  intros Hempty Hterm. rewrite on_char_unfold, Hterm. cbv zeta.
  now rewrite Hempty.
Qed.

Lemma feed_starts_burst events self calls :
  starts_burst self events ->
  feed callback events (self, calls)
  = (Returned tt,
     (Build_ScannerManager (_timeout self) (_running self)
        (_buffer self ++ typed events)
        (last_time (_last_keystroke_time self) events), calls)).
Proof.
  destruct events as [|[now char] rest].
  - intros _. simpl. rewrite append_empty_r. now destruct self.
  - intros (Hfirst & Hterm & Hrest). cbn [feed typed last_time].
    assert (Hstep : _on_char callback now char (self, calls)
              = (Returned tt,
                 (Build_ScannerManager (_timeout self) (_running self)
                    (_buffer self ++ char) now, calls))).
    { destruct Hfirst as [Hempty|Hfresh];
        [now apply on_char_empty|now apply on_char_fresh]. }
    unfold bind. rewrite Hstep, feed_burst by exact Hrest.
    cbn [_timeout _running _buffer _last_keystroke_time].
    now rewrite append_assoc.
Qed.

(** X8: a burst of keystrokes (the first one on an empty buffer or within
    the timeout, each other one within the timeout of the one before),
    followed by a line terminator that is also within the timeout, calls
    nothing until the terminator and then, provided the whole text (what
    was buffered before, then the keys in order) has at least 4
    characters, calls the callback exactly once, with the trimmed text
    and its kind.  The run returns with an empty buffer when the callback
    returns; when the callback raises, the run raises and the text stays
    in the buffer. *)
Theorem burst_is_one_scan
    (self : ScannerManager) (calls : list (string * string))
    (events : list (Q * string)) (tend : Q) (terminator : string) :
  starts_burst self events ->
  is_terminator terminator = true ->
  (tend - last_time (_last_keystroke_time self) events <= _timeout self)%Q ->
  let text := _buffer self ++ typed events in
  let result := (strip text, _detect_barcode_type (strip text)) in
  let ended b := Build_ScannerManager (_timeout self) (_running self) b tend in
  snd (snd (feed callback events (self, calls))) = calls
  /\ feed callback (events ++ [(tend, terminator)])%list (self, calls)
     = if (4 <=? len text)%nat then
         match callback calls (fst result) (snd result) with
         | None => (Returned tt, (ended "", (calls ++ [result])%list))
         | Some e => (Raised e, (ended text, (calls ++ [result])%list))
         end
       else (Returned tt, (ended "", calls)).
Proof.
  intros Hb Hterm Hend text result ended.
  rewrite feed_app. unfold bind at 1.
  rewrite (feed_starts_burst events self calls Hb).
  cbn [fst snd feed]. split; [reflexivity|].
  unfold bind. rewrite on_char_unfold, Hterm. cbv zeta.
  cbn [_timeout _running _buffer _last_keystroke_time].
  apply Qgtb_le in Hend. rewrite Hend, andb_false_r. fold text.
  destruct (4 <=? len text)%nat; [|reflexivity].
  subst result. cbn [fst snd]. now destruct (callback _ _ _).
Qed.

(** What one call of [_on_char] adds to the calls of the callback. *)
Lemma on_char_emitted self calls now char :
  snd (snd (_on_char callback now char (self, calls))) = calls
  \/ (4 <= len (_buffer self))%nat
     /\ snd (snd (_on_char callback now char (self, calls)))
        = (calls ++ [(strip (_buffer self),
                      _detect_barcode_type (strip (_buffer self)))])%list.
Proof.
  rewrite on_char_unfold. cbv zeta.
  destruct (is_terminator char); [|now left].
  destruct (nonempty (_buffer self) && _).
  - left. reflexivity.
  - destruct (Nat.leb_spec 4 (len (_buffer self))); [|now left].
    right. split; [assumption|]. now destruct (callback _ _ _).
Qed.


Lemma on_char_running self calls now char :
  _running (fst (snd (_on_char callback now char (self, calls)))) = _running self.
Proof.
  rewrite on_char_unfold. cbv zeta.
  destruct (is_terminator char); [|reflexivity].
  destruct (4 <=? _)%nat; [|reflexivity]. now destruct (callback _ _ _).
Qed.

(** The calls added by a run are among those [good] accepts, when each
    step adds only such calls. *)
Lemma feed_emitted (good : string * string -> Prop) events : forall self calls,
  (forall b, (4 <= len b)%nat -> good (strip b, _detect_barcode_type (strip b))) ->
  exists added,
    snd (snd (feed callback events (self, calls))) = (calls ++ added)%list
    /\ Forall good added.
Proof.
  induction events as [|[now char] rest IH]; intros self calls Hgood.
  - exists []. split; [now rewrite app_nil_r|constructor].
  - cbn [feed]. unfold bind.
    destruct (on_char_emitted self calls now char) as [Hsame|[Hlen Hnew]];
      destruct (_on_char callback now char (self, calls)) as [[[]|e] [self' calls']];
      cbn [fst snd] in *; subst calls'.
    + apply IH, Hgood.
    + exists []. split; [now rewrite app_nil_r|constructor].
    + destruct (IH self' (calls ++ [(strip (_buffer self),
                                      _detect_barcode_type (strip (_buffer self)))])%list
                  Hgood) as (added & -> & Hadded).
      eexists (_ :: added). rewrite <- app_assoc. split; [reflexivity|].
      constructor; [now apply Hgood|exact Hadded].
    + eexists [_]. split; [reflexivity|]. constructor; [now apply Hgood|constructor].
Qed.

(** X9: whatever is fed to the detector, from whatever state and whatever
    the callback does, every call of the callback passes a trimmed value
    (stripping it again changes nothing) with the kind the classifier
    gives to that very value, and that kind is one of the six. *)
Theorem emitted_results_are_classified
    (self : ScannerManager) (events : list (Q * string)) (v k : string) :
  In (v, k) (snd (snd (feed callback events (self, [])))) ->
  strip v = v /\ k = _detect_barcode_type v /\ In k BARCODE_KINDS.
Proof.
  intros Hin.
  destruct (feed_emitted
              (fun r => strip (fst r) = fst r /\ snd r = _detect_barcode_type (fst r)
                        /\ In (snd r) BARCODE_KINDS)
              events self [])
    as (added & Heq & Hall).
  - intros b _. cbn [fst snd]. split; [apply strip_idem|].
    split; [reflexivity|apply detect_in_kinds].
  - rewrite Heq in Hin. cbn [app] in Hin.
    rewrite List.Forall_forall in Hall. exact (Hall (v, k) Hin).
Qed.

(** X28: keystrokes that each come more than the timeout after the one
    before never produce a scan, from whatever state and whatever the keys
    are, line terminators included: every key finds the buffer discarded,
    the callback is never called and the run returns. *)
Theorem slow_typing_never_scans
    (self : ScannerManager) (calls : list (string * string))
    (events : list (Q * string)) :
  slow (_timeout self) (_last_keystroke_time self) events ->
  fst (feed callback events (self, calls)) = Returned tt
  /\ snd (snd (feed callback events (self, calls))) = calls.
Proof.
  revert self. induction events as [|[now char] rest IH]; intros self Hslow.
  - split; reflexivity.
  - destruct Hslow as [Hgap Hrest]. cbn [feed]. unfold bind.
    assert (Hstep : exists b,
              _on_char callback now char (self, calls)
              = (Returned tt,
                 (Build_ScannerManager (_timeout self) (_running self) b now, calls))).
    { rewrite on_char_unfold. cbv zeta.
      apply Qgtb_lt in Hgap. rewrite Hgap, andb_true_r.
      assert (Hkept : (if nonempty (_buffer self) then "" else _buffer self) = "")
        by now destruct (_buffer self).
      rewrite Hkept. destruct (is_terminator char); eexists; reflexivity. }
    destruct Hstep as [b ->]. apply IH. exact Hrest.
Qed.

(** ** The capture loops *)







End Detector.

#[local] Existing Instance ascii_only.

Lemma burst_is_one_scan_witness :
  feed quiet ([(1, "4"); (1 + (1 # 50), "0"); (1 + (2 # 50), "1");
               (1 + (3 # 50), "2"); (1 + (4 # 50), "3")]%Q
              ++ [((1 + (5 # 50))%Q, CR)])%list (init 100, [])
  = (Returned tt,
     (Build_ScannerManager (inject_Z 100 / 1000) false "" (1 + (5 # 50)),
      [("40123", "CODE39")])).
Proof.
  refine (proj2 (burst_is_one_scan quiet (init 100) []
            [(1, "4"); (1 + (1 # 50), "0"); (1 + (2 # 50), "1");
             (1 + (3 # 50), "2"); (1 + (4 # 50), "3")]%Q
            (1 + (5 # 50))%Q CR _ _ _)).
  - simpl. split; [now left|].
    repeat split; first [reflexivity | vm_compute; discriminate].
  - reflexivity.
  - vm_compute. discriminate.
Defined.

Lemma emitted_results_are_classified_witness :
  strip "AB-12.34" = "AB-12.34"
  /\ "CODE39" = _detect_barcode_type "AB-12.34"
  /\ In "CODE39" BARCODE_KINDS.
Proof.
  apply (emitted_results_are_classified (raising "no current event loop")
           (Build_ScannerManager (1 # 10) true " AB-12.34 " 0) [((1 # 20)%Q, LF)]).
  vm_compute. left. reflexivity.
Defined.

Lemma detect_digits_by_length_witness :
  len "0123456789" = String.length "0123456789"
  /\ _detect_barcode_type "0123456789" = kind_of_digits (len "0123456789").
Proof. apply (detect_digits_by_length "0123456789"). reflexivity. Defined.



Lemma slow_typing_never_scans_witness :
  fst (feed quiet [(1%Q, "3"); (2%Q, "4"); (3%Q, "5"); (4%Q, "7"); (5%Q, LF)]
            (Build_ScannerManager (1 # 10) true "59012" 0, []))
  = Returned tt
  /\ snd (snd (feed quiet [(1%Q, "3"); (2%Q, "4"); (3%Q, "5"); (4%Q, "7"); (5%Q, LF)]
                    (Build_ScannerManager (1 # 10) true "59012" 0, [])))
     = [].
Proof.
  apply (slow_typing_never_scans quiet (Build_ScannerManager (1 # 10) true "59012" 0) []
           [(1%Q, "3"); (2%Q, "4"); (3%Q, "5"); (4%Q, "7"); (5%Q, LF)]).
  simpl. repeat split; reflexivity.
Defined.

(** The Windows session after a callback that raised: the buffer was not
    cleared, and a second Enter within the timeout passes the same value
    again. *)
Example hook_run_after_exception :
  snd (snd (hook_run (raising "no current event loop")
              [(1%Q, (0, 256, 65)); ((101 # 100)%Q, (0, 256, 66));
               ((102 # 100)%Q, (0, 256, 49)); ((103 # 100)%Q, (0, 256, 50));
               ((104 # 100)%Q, (0, 256, 13)); ((105 # 100)%Q, (0, 256, 13))]%Z
              (Build_ScannerManager (1 # 10) true "" 0, [])))
  = [("AB12", "CODE39"); ("AB12", "CODE39")].
Proof. vm_compute. reflexivity. Qed.

End ScannerProps.

(* ===================================================================== *)
(** * More on the dispatcher, the endpoint and the broadcast hub *)
(* ===================================================================== *)

Module ServerProps.
Import Eff Json Protocol Server ServerFacts ServerSpec.

Section Handlers.

Variable __version__ : string.
Variable json_loads : string -> loaded.
Variable uuid4 : nat -> string.
Variable format_value : json -> string.
Variable sweep : string + list Discovery.printer_info.
Variable hardware : operation -> option string.

Lemma handled_refl ws w : handled ws w w.
Proof.
  repeat split; try lia. exists []. split; [now rewrite app_nil_r|constructor].
Qed.

Lemma send_text_cases ws message w :
  send_text ws message w = (Returned tt, log (Sent ws message) w)
  \/ send_text ws message w = (Raised "send failed", w).
Proof.
  destruct (decide (ws ∈ dead w)) as [Hd|Ha].
  - right. now apply send_text_dead.
  - left. now apply send_text_alive.
Qed.

(** Tactics for the handlers: split on what the send and the hardware do,
    then exhibit the effects. *)
Ltac split_send ws m w :=
  let H := fresh "Hsend" in
  destruct (send_text_cases ws m w) as [H|H]; rewrite H; clear H.

Ltac show_handled :=
  unfold handled, log, bump_uuid, set_cache; cbn;
  repeat split; try lia;
  first
    [ exists []; split; [now rewrite app_nil_r|constructor]
    | eexists [_]; split; [reflexivity|constructor]
    | eexists [_; _]; split; [now rewrite <- app_assoc|constructor] ].

Lemma handle_get_status_handled ws w :
  handled ws w (snd (handle_get_status __version__ ws w)).
Proof.
  unfold handle_get_status, bind, get_state.
  split_send ws (status_event __version__ (cached_printers w) (scanner_active w)) w;
    show_handled.
Qed.

Lemma handle_discover_printers_handled ws w :
  handled ws w (snd (handle_discover_printers sweep ws w)).
Proof.
  unfold handle_discover_printers, bind, run_discover_all, modify.
  destruct sweep as [e|printers]; [show_handled|].
  match goal with |- context [send_text ws ?m ?w'] => split_send ws m w' end;
    show_handled.
Qed.

Lemma handle_print_handled ws msg w :
  handled ws w (snd (handle_print uuid4 hardware ws msg w)).
Proof.
  unfold handle_print, bind, generate_job_id, ret, try_except, run_in_executor.
  destruct (truthy (get msg "job_id"));
    destruct (truthy (get msg "printer_id")); cbn [negb];
    try destruct (hardware _);
    repeat match goal with
           | |- context [send_text ws ?m ?w'] => split_send ws m w'
           end;
    show_handled.
Qed.

Lemma handle_open_drawer_handled ws msg w :
  handled ws w (snd (handle_open_drawer hardware ws msg w)).
Proof.
  unfold handle_open_drawer, bind, ret, try_except, run_in_executor.
  destruct (truthy (get msg "printer_id")); cbn [negb];
    try destruct (hardware _);
    repeat match goal with
           | |- context [send_text ws ?m ?w'] => split_send ws m w'
           end;
    show_handled.
Qed.

Lemma handle_test_print_handled ws msg w :
  handled ws w (snd (handle_test_print uuid4 hardware ws msg w)).
Proof.
  unfold handle_test_print, bind, generate_job_id, ret, try_except, run_in_executor.
  destruct (truthy (get msg "printer_id")); cbn [negb];
    try destruct (hardware _);
    repeat match goal with
           | |- context [send_text ws ?m ?w'] => split_send ws m w'
           end;
    show_handled.
Qed.

Lemma handle_send_notification_handled ws msg w :
  handled ws w (snd (handle_send_notification hardware ws msg w)).
Proof.
  unfold handle_send_notification, bind, ret, try_except, run_in_executor.
  destruct (hardware _);
    repeat match goal with
           | |- context [send_text ws ?m ?w'] => split_send ws m w'
           end;
    show_handled.
Qed.

Lemma handle_toggle_keyboard_handled ws msg w :
  handled ws w (snd (handle_toggle_keyboard hardware ws msg w)).
Proof.
  unfold handle_toggle_keyboard, bind, ret, try_except, run_in_executor.
  destruct (hardware _);
    repeat match goal with
           | |- context [send_text ws ?m ?w'] => split_send ws m w'
           end;
    show_handled.
Qed.

Lemma dispatch_handled ws (msg : gmap string json) w :
  handled ws w
    (snd ((let action := get msg "action" in
           if is_str action "get_status" then handle_get_status __version__ ws
           else if is_str action "discover_printers"
                then handle_discover_printers sweep ws
           else if is_str action "print" then handle_print uuid4 hardware ws msg
           else if is_str action "open_drawer" then handle_open_drawer hardware ws msg
           else if is_str action "test_print"
                then handle_test_print uuid4 hardware ws msg
           else if is_str action "send_notification"
                then handle_send_notification hardware ws msg
           else if is_str action "toggle_keyboard"
                then handle_toggle_keyboard hardware ws msg
           else send_text ws
                  (error_event ("Unknown action: " ++ format_value action)
                               "unknown_action")) w)).
Proof.
  cbv zeta.
  - destruct (is_str (get msg "action") "get_status");
      [apply handle_get_status_handled|].
    destruct (is_str (get msg "action") "discover_printers");
      [apply handle_discover_printers_handled|].
    destruct (is_str (get msg "action") "print"); [apply handle_print_handled|].
    destruct (is_str (get msg "action") "open_drawer");
      [apply handle_open_drawer_handled|].
    destruct (is_str (get msg "action") "test_print");
      [apply handle_test_print_handled|].
    destruct (is_str (get msg "action") "send_notification");
      [apply handle_send_notification_handled|].
    destruct (is_str (get msg "action") "toggle_keyboard");
      [apply handle_toggle_keyboard_handled|].
    match goal with |- context [send_text ws ?m ?w'] => split_send ws m w' end;
      show_handled.
Qed.

Lemma handle_message_replies_to_sender_helper ws raw w :
  handled ws w
    (snd (handle_message __version__ json_loads uuid4 format_value sweep hardware
                         ws raw w)).
Proof.
  unfold handle_message.
  destruct (parse_message json_loads raw) as [msg|e|e];
    [apply dispatch_handled| |apply handled_refl].
  match goal with |- context [send_text ws ?m ?w'] => split_send ws m w' end;
    show_handled.
Qed.

(** X15: whatever text arrives and whatever the hardware and the socket
    do, one run of [handle_message] leaves the registry, the set of dead
    sockets and the scanner as they were, generates at most one job id, and
    its effects are at most one call submitted to the executor followed by
    at most one message, which goes to the socket the text came from; and
    only [discover_printers] can change the printer cache. *)
Theorem handle_message_replies_to_sender (ws : websocket) (raw : string) (w : world) :
  let w' := snd (handle_message __version__ json_loads uuid4 format_value sweep
                                hardware ws raw w) in
  handled ws w w'
  /\ (cached_printers w' <> cached_printers w ->
      exists msg, parse_message json_loads raw = Message msg
                  /\ get msg "action" = JStr "discover_printers").
Proof.
  cbv zeta. split; [apply handle_message_replies_to_sender_helper|].
  unfold handle_message.
  destruct (parse_message json_loads raw) as [msg|e|e]; [| |cbn; congruence].
  - destruct (is_str (get msg "action") "get_status") eqn:E1.
    { unfold handle_get_status, bind, get_state.
      match goal with |- context [send_text ws ?m ?w'] => split_send ws m w' end;
        cbn; congruence. }
    destruct (is_str (get msg "action") "discover_printers") eqn:E2.
    { intros _. exists msg. split; [reflexivity|now apply is_str_true]. }
    intros Hch. exfalso. apply Hch. clear Hch.
    destruct (is_str (get msg "action") "print").
    { unfold handle_print, bind, generate_job_id, ret, try_except, run_in_executor.
      destruct (truthy (get msg "job_id"));
        destruct (truthy (get msg "printer_id")); cbn [negb];
        try destruct (hardware _);
        repeat match goal with
               | |- context [send_text ws ?m ?w'] => split_send ws m w'
               end; reflexivity. }
    destruct (is_str (get msg "action") "open_drawer").
    { unfold handle_open_drawer, bind, ret, try_except, run_in_executor.
      destruct (truthy (get msg "printer_id")); cbn [negb];
        try destruct (hardware _);
        repeat match goal with
               | |- context [send_text ws ?m ?w'] => split_send ws m w'
               end; reflexivity. }
    destruct (is_str (get msg "action") "test_print").
    { unfold handle_test_print, bind, generate_job_id, ret, try_except,
        run_in_executor.
      destruct (truthy (get msg "printer_id")); cbn [negb];
        try destruct (hardware _);
        repeat match goal with
               | |- context [send_text ws ?m ?w'] => split_send ws m w'
               end; reflexivity. }
    destruct (is_str (get msg "action") "send_notification").
    { unfold handle_send_notification, bind, ret, try_except, run_in_executor.
      destruct (hardware _);
        repeat match goal with
               | |- context [send_text ws ?m ?w'] => split_send ws m w'
               end; reflexivity. }
    destruct (is_str (get msg "action") "toggle_keyboard").
    { unfold handle_toggle_keyboard, bind, ret, try_except, run_in_executor.
      destruct (hardware _);
        repeat match goal with
               | |- context [send_text ws ?m ?w'] => split_send ws m w'
               end; reflexivity. }
    match goal with |- context [send_text ws ?m ?w'] => split_send ws m w' end;
      reflexivity.
  - match goal with |- context [send_text ws ?m ?w'] => split_send ws m w' end;
      cbn; congruence.
Qed.

(** X14: on a live connection, a successful [discover_printers] puts the
    swept list in place of the cache, whatever the cache held before, and
    answers with it; a [get_status] that follows reports exactly the swept
    list. *)
Theorem discover_replaces_cache
    (ws : websocket) (printers : list Discovery.printer_info) (w : world) :
  ws ∉ dead w ->
  exists w',
    (handle_discover_printers (inr printers) ws ;;; handle_get_status __version__ ws) w
    = (Returned tt, w')
    /\ cached_printers w' = printers
    /\ trace w'
       = (trace w ++ [Submitted discover_all;
                      Sent ws (printers_event printers);
                      Sent ws (status_event __version__ printers (scanner_active w))])%list.
Proof.
  intros Halive. eexists. split; [|split].
  - unfold handle_discover_printers, handle_get_status, bind, run_discover_all,
      modify, get_state.
    rewrite send_text_alive by exact Halive.
    rewrite send_text_alive by exact Halive. reflexivity.
  - reflexivity.
  - cbn. now rewrite <- !app_assoc.
Qed.

(** X16: on a live connection, a [print] command with a [printer_id]
    submits exactly one [print_document] call, with [document_type]
    defaulting to [receipt] and [data] to the empty dict, and then sends
    exactly one event carrying the job id: [print_complete] when the call
    returns, [print_error] with the text of the exception when it raises. *)
Theorem print_completion_mapping
    (ws : websocket) (msg : gmap string json) (w : world) :
  truthy (get msg "printer_id") = true ->
  ws ∉ dead w ->
  let supplied := truthy (get msg "job_id") in
  let job_id := if supplied then get msg "job_id" else JStr (uuid4 (uuid_count w)) in
  let op := print_document (get msg "printer_id")
              (get_default msg "document_type" (JStr "receipt"))
              (get_default msg "data" (JObj ∅)) in
  let reply := match hardware op with
               | None => print_complete_event job_id
               | Some e => print_error_event job_id e
               end in
  handle_print uuid4 hardware ws msg w
  = (Returned tt,
     log (Sent ws reply) (log (Submitted op) (if supplied then w else bump_uuid w))).
Proof.
  intros Hpid Halive supplied job_id op reply.
  unfold handle_print, bind, generate_job_id, ret, try_except, run_in_executor.
  rewrite Hpid. cbn [negb]. fold supplied. subst reply job_id. fold op.
  destruct supplied; destruct (hardware op); now rewrite send_text_alive.
Qed.

(** X17: a [printer_id] that is present but empty, null, zero or false is
    treated like a missing one: on a live connection [print] and
    [test_print] answer with a [print_error] event and [open_drawer] with
    an [error] event of code [missing_param], each with the text
    "No printer_id specified", and nothing is submitted to the executor. *)
Theorem falsy_printer_id_is_missing
    (ws : websocket) (msg : gmap string json) (w : world) :
  truthy (get msg "printer_id") = false ->
  ws ∉ dead w ->
  let supplied := truthy (get msg "job_id") in
  let job_id := if supplied then get msg "job_id" else JStr (uuid4 (uuid_count w)) in
  handle_print uuid4 hardware ws msg w
  = (Returned tt,
     log (Sent ws (print_error_event job_id "No printer_id specified"))
         (if supplied then w else bump_uuid w))
  /\ handle_test_print uuid4 hardware ws msg w
     = (Returned tt,
        log (Sent ws (print_error_event (JStr (uuid4 (uuid_count w)))
                                        "No printer_id specified"))
            (bump_uuid w))
  /\ handle_open_drawer hardware ws msg w
     = (Returned tt,
        log (Sent ws (error_event "No printer_id specified" "missing_param")) w).
Proof.
  intros Hpid Halive supplied job_id.
  unfold handle_print, handle_test_print, handle_open_drawer, bind,
    generate_job_id, ret.
  rewrite Hpid. cbn [negb]. fold supplied. subst job_id.
  repeat split.
  - destruct supplied; now rewrite send_text_alive.
  - now rewrite send_text_alive.
  - now rewrite send_text_alive.
Qed.

(** X18: [test_print] never uses a [job_id] sent by the client: on a live
    connection, with a [printer_id], it generates a fresh id, submits one
    [test_print] call and answers with [print_complete] or, when the call
    raises, [print_error], under the generated id. *)
Theorem test_print_generates_job_id
    (ws : websocket) (msg : gmap string json) (w : world) :
  truthy (get msg "printer_id") = true ->
  ws ∉ dead w ->
  let job_id := JStr (uuid4 (uuid_count w)) in
  let op := test_print (get msg "printer_id") in
  let reply := match hardware op with
               | None => print_complete_event job_id
               | Some e => print_error_event job_id e
               end in
  handle_test_print uuid4 hardware ws msg w
  = (Returned tt, log (Sent ws reply) (log (Submitted op) (bump_uuid w)))
  /\ reply !! "job_id" = Some job_id.
Proof.
  intros Hpid Halive job_id op reply. split.
  - unfold handle_test_print, bind, generate_job_id, ret, try_except, run_in_executor.
    rewrite Hpid. cbn [negb]. subst reply job_id. fold op.
    destruct (hardware op); now rewrite send_text_alive.
  - subst reply. now destruct (hardware op).
Qed.

(** X19: [send_notification] submits one call, with [title] defaulting to
    "ERPlora" and [body] to the empty text, and is silent on success: no
    event at all is sent when the call returns, whatever the state of the
    connection.  Only when the call raises is an [error] event of code
    [notification_error] sent. *)
Theorem notification_success_is_silent
    (ws : websocket) (msg : gmap string json) (w : world) :
  let op := _show_notification (get_default msg "title" (JStr "ERPlora"))
                               (get_default msg "body" (JStr "")) in
  (hardware op = None ->
     handle_send_notification hardware ws msg w = (Returned tt, log (Submitted op) w))
  /\ (forall e, hardware op = Some e -> ws ∉ dead w ->
        handle_send_notification hardware ws msg w
        = (Returned tt,
           log (Sent ws (error_event ("Notification error: " ++ e) "notification_error"))
               (log (Submitted op) w))).
Proof.
  intros op. unfold handle_send_notification, try_except, run_in_executor. fold op.
  split.
  - now intros ->.
  - intros e -> Halive. now rewrite send_text_alive.
Qed.

(** X29: on a live connection, [open_drawer] with a [printer_id] submits
    one drawer call and answers [drawer_opened] with that [printer_id], or,
    when the call raises, an [error] event "Drawer error: ..." of code
    [drawer_error]; [toggle_keyboard] submits one call with [visible]
    defaulting to true and answers [keyboard_toggled] with that value, or,
    when the call raises, an [error] event of code [keyboard_error]. *)
Theorem drawer_and_keyboard_mapping
    (ws : websocket) (msg : gmap string json) (w : world) :
  ws ∉ dead w ->
  let visible := get_default msg "visible" (JBool true) in
  (truthy (get msg "printer_id") = true ->
     handle_open_drawer hardware ws msg w
     = (Returned tt,
        log (Sent ws (match hardware (open_drawer (get msg "printer_id")) with
                      | None => drawer_opened_event (get msg "printer_id")
                      | Some e => error_event ("Drawer error: " ++ e) "drawer_error"
                      end))
            (log (Submitted (open_drawer (get msg "printer_id"))) w)))
  /\ handle_toggle_keyboard hardware ws msg w
     = (Returned tt,
        log (Sent ws (match hardware (_toggle_keyboard visible) with
                      | None => keyboard_toggled_event visible
                      | Some e => error_event ("Keyboard error: " ++ e) "keyboard_error"
                      end))
            (log (Submitted (_toggle_keyboard visible)) w)).
Proof.
  intros Halive visible. split.
  - intros Hpid. unfold handle_open_drawer, bind, try_except, run_in_executor.
    rewrite Hpid. cbn [negb].
    destruct (hardware (open_drawer (get msg "printer_id")));
      now rewrite send_text_alive.
  - unfold handle_toggle_keyboard, bind, try_except, run_in_executor. fold visible.
    destruct (hardware (_toggle_keyboard visible)); now rewrite send_text_alive.
Qed.

Lemma receive_loop_cons ws raw rest w :
  receive_loop __version__ json_loads uuid4 format_value sweep hardware
               ws (raw :: rest) w
  = match handle_message __version__ json_loads uuid4 format_value sweep hardware
                         ws raw w with
    | (Returned _, w1) =>
        receive_loop __version__ json_loads uuid4 format_value sweep hardware
                     ws rest w1
    | (Raised e, w1) => (Raised e, w1)
    end.
Proof. reflexivity. Qed.

Lemma reply_shape_to ws es ws' m : reply_shape ws es -> In (Sent ws' m) es -> ws' = ws.
Proof. intros Hshape Hin. destruct Hshape; simpl in Hin; intuition congruence. Qed.

Lemma receive_loop_spec ws inbound : forall w,
  connections (snd (receive_loop __version__ json_loads uuid4 format_value sweep
                                 hardware ws inbound w)) = connections w
  /\ dead (snd (receive_loop __version__ json_loads uuid4 format_value sweep
                             hardware ws inbound w)) = dead w
  /\ exists es,
       trace (snd (receive_loop __version__ json_loads uuid4 format_value sweep
                                hardware ws inbound w)) = (trace w ++ es)%list
       /\ forall ws' m, In (Sent ws' m) es -> ws' = ws.
Proof.
  induction inbound as [|raw rest IH]; intros w.
  - cbn. repeat split. exists []. split; [now rewrite app_nil_r|intros ? ? []].
  - rewrite receive_loop_cons.
    pose proof (handle_message_replies_to_sender_helper ws raw w)
      as (Hc & Hd & _ & _ & es & Ht & Hshape).
    destruct (handle_message __version__ json_loads uuid4 format_value sweep hardware
                             ws raw w) as [[[]|e] w1]; cbn [snd] in *.
    + destruct (IH w1) as (Hc2 & Hd2 & es2 & Ht2 & Hto).
      rewrite Hc2, Hd2, Hc, Hd. repeat split.
      exists (es ++ es2)%list. rewrite Ht2, Ht, <- app_assoc. split; [reflexivity|].
      intros ws' m [Hin|Hin]%in_app_or; [|eauto].
      eapply reply_shape_to; eauto.
    + repeat split; auto. exists es. split; [exact Ht|].
      intros ws' m Hin. eapply reply_shape_to; eauto.
Qed.

(** X20: on a socket that accepts the first send, [websocket_endpoint]
    always returns normally, whatever the client sends and whatever the
    handlers raise.  It sends the status snapshot before anything else,
    sends nothing to any other socket, and leaves the registry as it found
    it, minus this socket. *)
Theorem websocket_endpoint_cleans_up
    (ws : websocket) (inbound : list string) (w : world) :
  ws ∉ dead w ->
  exists w',
    websocket_endpoint __version__ json_loads uuid4 format_value sweep hardware
                       ws inbound w
    = (Returned tt, w')
    /\ connections w' = connections w ∖ {[ws]}
    /\ exists es,
         trace w'
         = (trace w
            ++ Sent ws (status_event __version__ (cached_printers w) (scanner_active w))
               :: es)%list
         /\ forall ws' m, In (Sent ws' m) es -> ws' = ws.
Proof.
  intros Halive.
  unfold websocket_endpoint, bind, modify.
  unfold handle_get_status, bind, get_state.
  rewrite send_text_alive by exact Halive.
  unfold try_finally, try_except, modify.
  match goal with
  | |- context [receive_loop _ _ _ _ _ _ ws inbound ?w1] =>
      destruct (receive_loop_spec ws inbound w1) as (Hc & Hd & es & Ht & Hto);
      destruct (receive_loop __version__ json_loads uuid4 format_value sweep hardware
                             ws inbound w1) as [[[]|e] w2]
  end; cbn [snd] in *.
  - eexists. split; [reflexivity|]. cbn. rewrite Hc. cbn.
    split; [set_solver|].
    exists es. rewrite Ht. cbn. rewrite <- app_assoc. split; [reflexivity|exact Hto].
  - unfold ret. eexists. split; [reflexivity|]. cbn. rewrite Hc. cbn.
    split; [set_solver|].
    exists es. rewrite Ht. cbn. rewrite <- app_assoc. split; [reflexivity|exact Hto].
Qed.

End Handlers.

Lemma broadcast_result (message : gmap string json) (w : world) :
  broadcast message w
  = (Returned tt,
     World (connections w ∖ dead w) (dead w) (cached_printers w) (scanner_manager w)
           (uuid_count w)
           (trace w ++ deliveries message w (elements (connections w)))%list).
Proof.
  unfold broadcast, bind, get_state.
  rewrite (broadcast_loop_spec (fun _ => JSONDecodeError "") (fun _ => "")).
  unfold modify, set_connections, add_trace. cbn [connections dead cached_printers
    scanner_manager uuid_count trace].
  match goal with
  | |- (_, World ?c _ _ _ _ _) = _ =>
      assert (Hgone : c = connections w ∖ dead w)
  end.
  { apply set_eq. intros ws.
    rewrite !elem_of_difference, elem_of_union, elem_of_list_to_set,
      list_elem_of_filter, elem_of_elements.
    set_solver. }
  now rewrite Hgone.
Qed.

Lemma filter_all {A} (P : A -> Prop) `{forall x, Decision (P x)} (l : list A) :
  (forall x, x ∈ l -> P x) -> filter P l = l.
Proof.
  induction l as [|x l IH]; intros Hall; [reflexivity|].
  rewrite filter_cons_True by (apply Hall; left).
  f_equal. apply IH. intros y Hy. apply Hall. now right.
Qed.

(** X21: the endpoint registers the socket before it sends the status
    snapshot, outside the [try]: when that first send fails, the endpoint
    raises and the socket stays registered; the next broadcast, on which
    its send fails again, removes it. *)
Theorem failed_first_send_stays_registered
    (__version__ : string) (json_loads : string -> loaded)
    (uuid4 : nat -> string) (format_value : json -> string)
    (sweep : string + list Discovery.printer_info) (hardware : operation -> option string)
    (ws : websocket) (inbound : list string) (message : gmap string json) (w : world) :
  ws ∈ dead w ->
  exists w',
    websocket_endpoint __version__ json_loads uuid4 format_value sweep hardware
                       ws inbound w
    = (Raised "send failed", w')
    /\ ws ∈ connections w'
    /\ trace w' = trace w
    /\ ws ∉ connections (snd (broadcast message w')).
Proof.
  intros Hdead. eexists. split; [|split; [|split]].
  - unfold websocket_endpoint, bind, modify.
    unfold handle_get_status, bind, get_state.
    rewrite send_text_dead by exact Hdead. reflexivity.
  - cbn. set_solver.
  - reflexivity.
  - rewrite broadcast_result. cbn. set_solver.
Qed.

Lemma failed_first_send_stays_registered_witness :
  exists w',
    websocket_endpoint "1.0.0" sample_loads sample_uuid4 (fun _ => "?") (inr [])
                       (fun _ => None) 2 [print_text] sample_world
    = (Raised "send failed", w')
    /\ 2 ∈ connections w'
    /\ trace w' = trace sample_world
    /\ 2 ∉ connections (snd (broadcast (barcode_event "40123" "CODE39") w')).
Proof.
  apply (failed_first_send_stays_registered
           "1.0.0" sample_loads sample_uuid4 (fun _ => "?") (inr [])
           (fun _ => None) 2 [print_text] (barcode_event "40123" "CODE39")
           sample_world).
  vm_compute. set_solver.
Defined.

(** X22: a broadcast leaves only sockets that accept a send in the
    registry: as long as no further socket dies, the next broadcast removes
    nothing and delivers its message to every registered socket. *)
Theorem second_broadcast_reaches_all (m1 m2 : gmap string json) (w : world) :
  let w1 := snd (broadcast m1 w) in
  let w2 := snd (broadcast m2 w1) in
  connections w2 = connections w1
  /\ trace w2 = (trace w1 ++ map (fun ws => Sent ws m2) (elements (connections w1)))%list
  /\ forall ws, ws ∈ connections w1 -> In (Sent ws m2) (trace w2).
Proof.
  cbv zeta. rewrite (broadcast_result m1 w). cbn [snd].
  rewrite broadcast_result. cbn [snd connections dead trace].
  assert (Hall : deliveries m2
                   (World (connections w ∖ dead w) (dead w) (cached_printers w)
                          (scanner_manager w) (uuid_count w)
                          (trace w ++ deliveries m1 w (elements (connections w))))
                   (elements (connections w ∖ dead w))
                 = map (fun ws => Sent ws m2) (elements (connections w ∖ dead w))).
  { unfold deliveries. cbn [dead]. f_equal. apply filter_all.
    intros ws Hws%elem_of_elements. set_solver. }
  rewrite Hall. split; [set_solver|]. split; [reflexivity|].
  intros ws Hws. apply in_or_app. right. apply in_map_iff. exists ws.
  split; [reflexivity|]. apply list_elem_of_In. now apply elem_of_elements.
Qed.

Lemma discover_replaces_cache_witness :
  exists w',
    (handle_discover_printers
       (inr [Discovery.mk_printer_info "usb:0x04b8:0x0202" "TM-T20" "usb" "ready"]) 1 ;;;
     handle_get_status "1.0.0" 1) sample_world
    = (Returned tt, w')
    /\ cached_printers w'
       = [Discovery.mk_printer_info "usb:0x04b8:0x0202" "TM-T20" "usb" "ready"]
    /\ trace w'
       = (trace sample_world
          ++ [Submitted discover_all;
              Sent 1 (printers_event
                        [Discovery.mk_printer_info "usb:0x04b8:0x0202" "TM-T20"
                                                   "usb" "ready"]);
              Sent 1 (status_event "1.0.0"
                        [Discovery.mk_printer_info "usb:0x04b8:0x0202" "TM-T20"
                                                   "usb" "ready"]
                        (scanner_active sample_world))])%list.
Proof.
  apply (ServerProps.discover_replaces_cache "1.0.0" 1
           [Discovery.mk_printer_info "usb:0x04b8:0x0202" "TM-T20" "usb" "ready"]
           sample_world).
  vm_compute. set_solver.
Defined.

Lemma print_completion_mapping_witness :
  handle_print sample_uuid4
    (fun _ => Some "No route to host") 1
    (dict [("action", JStr "print"); ("printer_id", JStr "network:10.0.0.7:9100");
           ("job_id", JStr "job-7")])
    sample_world
  = (Returned tt,
     log (Sent 1 (print_error_event (JStr "job-7") "No route to host"))
         (log (Submitted (print_document (JStr "network:10.0.0.7:9100")
                                         (JStr "receipt") (JObj ∅)))
              sample_world)).
Proof.
  apply (print_completion_mapping sample_uuid4 (fun _ => Some "No route to host") 1
           (dict [("action", JStr "print");
                  ("printer_id", JStr "network:10.0.0.7:9100");
                  ("job_id", JStr "job-7")])
           sample_world).
  - reflexivity.
  - vm_compute. set_solver.
Defined.

Lemma falsy_printer_id_is_missing_witness :
  handle_open_drawer (fun _ => None) 1
    (dict [("action", JStr "open_drawer"); ("printer_id", JStr "")]) sample_world
  = (Returned tt,
     log (Sent 1 (error_event "No printer_id specified" "missing_param")) sample_world).
Proof.
  refine (proj2 (proj2 (falsy_printer_id_is_missing sample_uuid4 (fun _ => None) 1
            (dict [("action", JStr "open_drawer"); ("printer_id", JStr "")])
            sample_world _ _))).
  - reflexivity.
  - vm_compute. set_solver.
Defined.

Lemma test_print_generates_job_id_witness :
  handle_test_print sample_uuid4 (fun _ => None) 1
    (dict [("action", JStr "test_print"); ("printer_id", JStr "usb:0x04b8:0x0202");
           ("job_id", JStr "mine")])
    sample_world
  = (Returned tt,
     log (Sent 1 (print_complete_event (JStr (sample_uuid4 0))))
         (log (Submitted (test_print (JStr "usb:0x04b8:0x0202")))
              (bump_uuid sample_world))).
Proof.
  refine (proj1 (test_print_generates_job_id sample_uuid4 (fun _ => None) 1
            (dict [("action", JStr "test_print");
                   ("printer_id", JStr "usb:0x04b8:0x0202");
                   ("job_id", JStr "mine")])
            sample_world _ _)).
  - reflexivity.
  - vm_compute. set_solver.
Defined.

Lemma drawer_and_keyboard_mapping_witness :
  let msg := dict [("action", JStr "open_drawer");
                   ("printer_id", JStr "usb:0x04b8:0x0202");
                   ("visible", JBool false)] in
  let hardware := fun op : operation =>
                    match op with
                    | _toggle_keyboard _ => Some "no touchscreen"
                    | _ => None
                    end in
  handle_open_drawer hardware 1 msg sample_world
  = (Returned tt,
     log (Sent 1 (drawer_opened_event (JStr "usb:0x04b8:0x0202")))
         (log (Submitted (open_drawer (JStr "usb:0x04b8:0x0202"))) sample_world))
  /\ handle_toggle_keyboard hardware 1 msg sample_world
     = (Returned tt,
        log (Sent 1 (error_event ("Keyboard error: " ++ "no touchscreen") "keyboard_error"))
            (log (Submitted (_toggle_keyboard (JBool false))) sample_world)).
Proof.
  intros msg hardware.
  assert (Halive : 1 ∉ dead sample_world) by (vm_compute; set_solver).
  destruct (drawer_and_keyboard_mapping hardware 1 msg sample_world Halive)
    as [Hdrawer Hkeyboard].
  split; [apply Hdrawer; reflexivity | exact Hkeyboard].
Defined.

Lemma websocket_endpoint_cleans_up_witness :
  exists w',
    websocket_endpoint "1.0.0" sample_loads sample_uuid4 (fun _ => "?")
                       (inl "usb backend missing") (fun _ => None)
                       3 [print_text; "[1, 2]"] sample_world
    = (Returned tt, w')
    /\ connections w' = connections sample_world ∖ {[3]}
    /\ exists es,
         trace w'
         = (trace sample_world
            ++ Sent 3 (status_event "1.0.0" (cached_printers sample_world)
                                    (scanner_active sample_world))
               :: es)%list
         /\ forall ws' m, In (Sent ws' m) es -> ws' = 3.
Proof.
  apply (websocket_endpoint_cleans_up "1.0.0" sample_loads sample_uuid4 (fun _ => "?")
           (inl "usb backend missing") (fun _ => None)
           3 [print_text; "[1, 2]"] sample_world).
  vm_compute. set_solver.
Defined.

End ServerProps.

(* ===================================================================== *)
(** * The total line and the delivery note *)
(* ===================================================================== *)

Module RenderProps.
Import PyStr PyStrFacts Eff Json Printer PrinterFacts Render.



(** A label with a character of two bytes, Cafe with an acute accent on
    its last letter: it has four characters, and the line is padded to 32
    characters, not to 32 bytes. *)
Example total_line_accented :
  let label := "Caf" ++ String (ascii_of_N 195) (String (ascii_of_N 169) "") in
  len label = 4%nat
  /\ _print_total_line (fun _ _ => None) (fun _ => inr "1.50")
       {| params := Discovery.NetworkParams "10.0.0.7" 9100 |} label (JFloat 1.5) []
     = (Returned tt, [PText (label ++ spaces 24 ++ "1.50" ++ Scanner.LF)]).
Proof. split; reflexivity. Qed.


Section Working.

Context {U : Unicode}.
Variable fails : list call -> call -> option string.
Variable now_text : string.
Variable interpreter_text : Discovery.value_error -> string.
Variable format_value : json -> string.
Hypothesis working : forall log c, fails log c = None.

Lemma device_call_ok c log :
  device_call fails c log = (Returned tt, (log ++ [c])%list).
Proof. unfold device_call. now rewrite working. Qed.

Lemma optional_line_ok d key label log :
  optional_line fails format_value d key label log
  = (Returned tt,
     (log ++ (if truthy (get d key)
              then [PText (label ++ format_value (get d key) ++ Scanner.LF)]
              else []))%list).
Proof.
  unfold optional_line. destruct (truthy (get d key)).
  - apply device_call_ok.
  - unfold ret. now rewrite app_nil_r.
Qed.

Lemma delivery_items_ok (dicts : list (gmap string json)) : forall log,
  delivery_items fails format_value (map JObj dicts) log
  = (Returned tt, (log ++ map (delivery_line format_value) dicts)%list).
Proof.
  induction dicts as [|i rest IH]; intros log.
  - simpl. unfold ret. now rewrite app_nil_r.
  - cbn [map delivery_items]. unfold bind at 1. unfold delivery_item, bind, as_dict, ret.
    rewrite device_call_ok, IH, <- app_assoc. reflexivity.
Qed.

Lemma delivery_items_bad (good : list (gmap string json)) (bad : json)
    (rest : list json) : forall log,
  (forall i, bad <> JObj i) ->
  delivery_items fails format_value (map JObj good ++ bad :: rest) log
  = (Raised ("'" ++ type_name bad ++ "' object has no attribute 'get'"),
     (log ++ map (delivery_line format_value) good)%list).
Proof.
  induction good as [|i good IH]; intros log Hbad.
  - cbn [map app delivery_items]. unfold bind, delivery_item, bind, as_dict.
    rewrite app_nil_r.
    destruct bad; try reflexivity. now destruct (Hbad m).
  - cbn [map app delivery_items]. unfold bind at 1.
    unfold delivery_item, bind, as_dict, ret.
    rewrite device_call_ok, IH, <- app_assoc by exact Hbad. reflexivity.
Qed.

Lemma delivery_head_ok (d : gmap string json) (log : list call)
    (k : gmap string json -> M (list call) unit) :
  (device_call fails (PSet "center" (Some true) None) ;;;
   device_call fails (PText ("ALBARAN" ++ Scanner.LF)) ;;;
   device_call fails (PText rule) ;;;
   device_call fails (PSet "left" (Some false) None) ;;;
   d' <- as_dict (JObj d) ;;
   device_call fails
     (PText ("N: " ++ format_value (get_default d' "receipt_id" (JStr ""))
             ++ Scanner.LF)) ;;;
   device_call fails (PText ("Fecha: " ++ now_text ++ Scanner.LF)) ;;;
   optional_line fails format_value d' "customer_name" "Cliente: " ;;;
   optional_line fails format_value d' "delivery_address" "Dir: " ;;;
   device_call fails (PText dash) ;;;
   k d') log
  = k d (log ++ delivery_head now_text format_value d)%list.
Proof.
  unfold bind, as_dict, ret.
  rewrite !device_call_ok, !optional_line_ok, !device_call_ok.
  unfold delivery_head. f_equal.
  rewrite <- !app_assoc. reflexivity.
Qed.

(** X24: on a printer that accepts every call, a delivery note whose
    [items] is a list of dicts prints completely: the header block, one
    line [<quantity>x <name>] per item in the order of the list (quantity
    defaulting to 1 and name to the empty text), then the rule, the
    signature line and the cut as the last call. *)
Theorem delivery_note_prints_every_item
    (p : printer) (d : gmap string json) (dicts : list (gmap string json))
    (log : list call) :
  get_default d "items" (JArr []) = JArr (map JObj dicts) ->
  _print_delivery_note fails now_text format_value p (JObj d) log
  = (Returned tt,
     (log ++ delivery_head now_text format_value d
          ++ map (delivery_line format_value) dicts
          ++ delivery_tail)%list).
Proof.
  intros Hitems. unfold _print_delivery_note.
  etransitivity.
  { apply (delivery_head_ok d log
             (fun d' =>
                items <- iterate (get_default d' "items" (JArr [])) ;;
                delivery_items fails format_value items ;;;
                device_call fails (PText rule) ;;;
                device_call fails
                  (PText (Scanner.LF ++ "Firma: _______________" ++ Scanner.LF
                          ++ Scanner.LF)) ;;;
                device_call fails PCut)). }
  rewrite Hitems. unfold bind, iterate, ret.
  rewrite delivery_items_ok, !device_call_ok.
  unfold delivery_tail. rewrite <- !app_assoc. reflexivity.
Qed.

(** X25: on a printer that accepts every call, a delivery note with an
    item that is not a dict stops at that item: the header and the lines of
    the items before it are printed, the exception is the [AttributeError]
    of the missing [get], and the paper is not cut.  Run through
    [print_document], the exception reaches the caller and the connection
    is still closed. *)
Theorem delivery_note_stops_at_bad_item
    (receipt kitchen_order invoice barcode_label cash_report generic
       : printer -> json -> M (list call) unit)
    (printer_id : string) (p : printer)
    (d : gmap string json) (good : list (gmap string json)) (bad : json)
    (rest : list json) (log log1 : list call) :
  get_default d "items" (JArr []) = JArr (map JObj good ++ bad :: rest) ->
  (forall i, bad <> JObj i) ->
  connect_printer fails interpreter_text printer_id log = (Returned p, log1) ->
  let e := "'" ++ type_name bad ++ "' object has no attribute 'get'" in
  let printed := (delivery_head now_text format_value d
                  ++ map (delivery_line format_value) good)%list in
  _print_delivery_note fails now_text format_value p (JObj d) log1
  = (Raised e, (log1 ++ printed)%list)
  /\ print_document fails interpreter_text receipt kitchen_order invoice
       (_print_delivery_note fails now_text format_value)
       barcode_label cash_report generic printer_id "delivery_note" (JObj d) log
     = (Raised e, (log1 ++ printed ++ [PClose])%list)
  /\ ~ In PCut printed.
Proof.
  intros Hitems Hbad Hconn e printed.
  assert (Hbody : _print_delivery_note fails now_text format_value p (JObj d) log1
                  = (Raised e, (log1 ++ printed)%list)).
  { unfold _print_delivery_note.
    etransitivity.
    { apply (delivery_head_ok d log1
               (fun d' =>
                  items <- iterate (get_default d' "items" (JArr [])) ;;
                  delivery_items fails format_value items ;;;
                  device_call fails (PText rule) ;;;
                  device_call fails
                    (PText (Scanner.LF ++ "Firma: _______________" ++ Scanner.LF
                            ++ Scanner.LF)) ;;;
                  device_call fails PCut)). }
    rewrite Hitems. unfold bind, iterate, ret.
    rewrite delivery_items_bad by exact Hbad.
    subst printed. now rewrite <- app_assoc. }
  split; [exact Hbody|]. split.
  - unfold print_document, bind. rewrite Hconn.
    rewrite finally_close. unfold render_document.
    change (String.eqb "delivery_note" "receipt") with false.
    change (String.eqb "delivery_note" "kitchen_order") with false.
    change (String.eqb "delivery_note" "invoice") with false.
    change (String.eqb "delivery_note" "delivery_note") with true.
    cbv iota. rewrite Hbody. cbn [fst snd]. now rewrite <- app_assoc.
  - subst printed. intros [Hin|Hin]%in_app_or.
    + unfold delivery_head in Hin.
      repeat (apply in_app_or in Hin as [Hin|Hin]);
        repeat match goal with
               | H : In _ (if ?b then _ else _) |- _ => destruct b
               end;
        simpl in Hin; intuition discriminate.
    + apply in_map_iff in Hin as (i & Hi & _). discriminate Hi.
Qed.

End Working.

#[local] Existing Instance ascii_only.



Lemma delivery_note_prints_every_item_witness :
  _print_delivery_note (fun _ _ => None) "03/11/2026 10:00"
    (fun v => match v with JStr s => s | JInt 1 => "1" | JInt 2 => "2" | _ => "?" end)
    {| params := Discovery.NetworkParams "10.0.0.7" 9100 |}
    (JObj (dict [("receipt_id", JStr "A-17");
                 ("items", JArr [JObj (dict [("name", JStr "Cafe"); ("quantity", JInt 2)]);
                                 JObj (dict [("name", JStr "Te")])])]))
    []
  = (Returned tt,
     [PSet "center" (Some true) None;
      PText ("ALBARAN" ++ Scanner.LF);
      PText rule;
      PSet "left" (Some false) None;
      PText ("N: A-17" ++ Scanner.LF);
      PText ("Fecha: 03/11/2026 10:00" ++ Scanner.LF);
      PText dash;
      PText ("2x Cafe" ++ Scanner.LF);
      PText ("1x Te" ++ Scanner.LF);
      PText rule;
      PText (Scanner.LF ++ "Firma: _______________" ++ Scanner.LF ++ Scanner.LF);
      PCut]).
Proof.
  apply (delivery_note_prints_every_item (fun _ _ => None) "03/11/2026 10:00"
           (fun v => match v with
                     | JStr s => s | JInt 1 => "1" | JInt 2 => "2" | _ => "?"
                     end)
           (fun _ _ => eq_refl)
           {| params := Discovery.NetworkParams "10.0.0.7" 9100 |}
           (dict [("receipt_id", JStr "A-17");
                  ("items", JArr [JObj (dict [("name", JStr "Cafe");
                                              ("quantity", JInt 2)]);
                                  JObj (dict [("name", JStr "Te")])])])
           [dict [("name", JStr "Cafe"); ("quantity", JInt 2)];
            dict [("name", JStr "Te")]]
           []).
  reflexivity.
Defined.

Lemma delivery_note_stops_at_bad_item_witness :
  print_document (fun _ _ => None) (fun _ => "")
    (fun _ _ => ret tt) (fun _ _ => ret tt) (fun _ _ => ret tt)
    (_print_delivery_note (fun _ _ => None) "03/11/2026 10:00" (fun _ => "?"))
    (fun _ _ => ret tt) (fun _ _ => ret tt) (fun _ _ => ret tt)
    "network:10.0.0.7:9100" "delivery_note"
    (JObj (dict [("items", JArr [JStr "Cafe"])])) []
  = (Raised "'str' object has no attribute 'get'",
     [Open (Discovery.NetworkParams "10.0.0.7" 9100);
      PSet "center" (Some true) None;
      PText ("ALBARAN" ++ Scanner.LF);
      PText rule;
      PSet "left" (Some false) None;
      PText ("N: ?" ++ Scanner.LF);
      PText ("Fecha: 03/11/2026 10:00" ++ Scanner.LF);
      PText dash;
      PClose]).
Proof.
  refine (proj1 (proj2 (delivery_note_stops_at_bad_item
            (fun _ _ => None) "03/11/2026 10:00" (fun _ => "") (fun _ => "?")
            (fun _ _ => eq_refl)
            (fun _ _ => ret tt) (fun _ _ => ret tt) (fun _ _ => ret tt)
            (fun _ _ => ret tt) (fun _ _ => ret tt) (fun _ _ => ret tt)
            "network:10.0.0.7:9100"
            {| params := Discovery.NetworkParams "10.0.0.7" 9100 |}
            (dict [("items", JArr [JStr "Cafe"])]) [] (JStr "Cafe") []
            [] [Open (Discovery.NetworkParams "10.0.0.7" 9100)] _ _ _))).
  - reflexivity.
  - intros i. discriminate.
  - reflexivity.
Defined.

End RenderProps.

(* ===================================================================== *)
(** * The configuration *)
(* ===================================================================== *)

Module ConfigProps.
Import Eff Json Config.

Section Persistence.

Variable json_load : string -> loaded.
Variable json_dump : gmap string json -> string.
Variable update_sequence :
  gmap string json -> json -> gmap string json * option string.




End Persistence.


End ConfigProps.

